(** * Verification of the Hugging Face update-time resolver

    A shallow embedding of [update_qwen_models.py] (class
    [HuggingFaceModelUpdater]) and the properties its specification claims.

    Layout:
    - [PyStr]: the Python string operations the code uses;
    - [Re]: the backtracking semantics of the [re] module for the operators
      that occur in the source's patterns;
    - [Datetime]: dates, [strftime("%Y-%m-%d")] and the three [strptime]
      formats of the source;
    - the run-time world (responses, parsed documents, rows, exceptions,
      the state of the updater object) and the methods of the class, in the
      section [HuggingFaceModelUpdater];
    - the properties, by component: structured source, resolver and pool,
      document extractor;
    - further properties of the same components (the paths of the resolver,
      the counters and the table after a run, requests and delays, the
      other keyword phrases), and [standardize_time] and
      [generate_statistics] of [convert_csv_to_json.py] with theirs.

    What lies outside the repository is a parameter of the embedding: the
    answers of the remote site ([session_get]), [datetime.fromisoformat],
    the HTML parser ([BeautifulSoup]) and the clock ([now]).

    Python [str] values are sequences of code points.  They are embedded as
    [string], whose characters are the code points below 256; the character
    predicates follow CPython's Unicode tables on that range. *)

From Stdlib Require Import ZArith Lia Bool List.
From stdpp Require Import base option list gmap strings.
From Stdlib Require Import Ascii String.
Import ListNotations.

Local Open Scope string_scope.
Local Open Scope list_scope.

(* ===================================================================== *)
(** ** Python strings *)
(* ===================================================================== *)

Module PyStr.

Definition code (c : ascii) : N := N_of_ascii c.

Definition in_range (lo hi : N) (c : ascii) : bool :=
  ((lo <=? code c) && (code c <=? hi))%N.

(** [str.isspace] on one character, which is also [\s] of [re] for [str]
    patterns: TAB..CR, FS..US, SPACE, NEL and NBSP. *)
Definition is_space (c : ascii) : bool :=
  in_range 9 13 c || in_range 28 32 c || (code c =? 133)%N || (code c =? 160)%N.

(** [\d] for [str] patterns: the decimal digits; below 256 these are 0-9. *)
Definition is_digit (c : ascii) : bool := in_range 48 57 c.

Definition is_upper (c : ascii) : bool :=
  in_range 65 90 c || (in_range 192 222 c && negb (code c =? 215)%N).

Definition is_lower (c : ascii) : bool :=
  in_range 97 122 c || (in_range 224 254 c && negb (code c =? 247)%N).

(** [str.lower] on one character whose lower case is below 256. *)
Definition lower_char (c : ascii) : ascii :=
  if is_upper c then ascii_of_N (code c + 32) else c.

(** The upper-case partner, where it is below 256. *)
Definition upper_char (c : ascii) : ascii :=
  if is_lower c then ascii_of_N (code c - 32) else c.

Fixpoint lower (s : string) : string :=
  match s with
  | EmptyString => EmptyString
  | String c s' => String (lower_char c) (lower s')
  end.

Fixpoint lstrip (s : string) : string :=
  match s with
  | EmptyString => EmptyString
  | String c s' => if is_space c then lstrip s' else s
  end.

(** Drops trailing white space: a character is kept when it is not white
    space or when something is kept after it. *)
Fixpoint rstrip (s : string) : string :=
  match s with
  | EmptyString => EmptyString
  | String c s' =>
      match rstrip s' with
      | EmptyString => if is_space c then EmptyString else String c EmptyString
      | t => String c t
      end
  end.

(** [s.strip()] *)
Definition strip (s : string) : string := rstrip (lstrip s).

(** [sub in s] *)
Fixpoint contains (sub s : string) : bool :=
  if prefix sub s then true
  else match s with
       | EmptyString => false
       | String _ s' => contains sub s'
       end.

(** [s.replace(old, new)] for a one-character [old]. *)
Fixpoint replace_char (old : ascii) (new : string) (s : string) : string :=
  match s with
  | EmptyString => EmptyString
  | String c s' =>
      if Ascii.eqb c old then new +:+ replace_char old new s'
      else String c (replace_char old new s')
  end.

(** [s[:n]] *)
Fixpoint take_str (n : nat) (s : string) : string :=
  match n with
  | O => EmptyString
  | S n' =>
      match s with
      | EmptyString => EmptyString
      | String c s' => String c (take_str n' s')
      end
  end.

(** Truth value of a string in a condition: non-empty. *)
Definition truthy (s : string) : bool :=
  match s with EmptyString => false | _ => true end.

End PyStr.

(* ===================================================================== *)
(** ** Regular expressions: the backtracking matcher of [re] *)
(* ===================================================================== *)

Module Re.
Import PyStr.

(** Character sets: [\d], [\s], [.], [[a-b]] and unions of them. *)
Inductive charset : Type :=
| Digit
| Space
| Dot
| Range (lo hi : ascii)
| Union (a b : charset).

Inductive regex : Type :=
| Eps
| Lit (c : ascii)
| Set_ (cs : charset)
| Cat (r1 r2 : regex)
| Alt (r1 r2 : regex)
| Rep (greedy : bool) (lo : nat) (hi : option nat) (r : regex)
| Group (n : nat) (r : regex)
| Bol
| Eol.

(** A literal word, character by character. *)
Fixpoint word (s : string) : regex :=
  match s with
  | EmptyString => Eps
  | String c EmptyString => Lit c
  | String c s' => Cat (Lit c) (word s')
  end.

(** Concatenation of a list of pieces. *)
Fixpoint cat (rs : list regex) : regex :=
  match rs with
  | [] => Eps
  | [r] => r
  | r :: rs' => Cat r (cat rs')
  end.

(** Alternation of a non-empty list of branches, leftmost first. *)
Fixpoint alt (rs : list regex) : regex :=
  match rs with
  | [] => Eps
  | [r] => r
  | r :: rs' => Alt r (alt rs')
  end.

Definition plus (r : regex) : regex := Rep true 1 None r.          (* r+ *)
Definition lazy_plus (r : regex) : regex := Rep false 1 None r.    (* r+? *)
Definition opt (r : regex) : regex := Rep true 0 (Some 1) r.       (* r? *)
Definition times (n : nat) (r : regex) : regex := Rep true n (Some n) r. (* r{n} *)
Definition between (lo hi : nat) (r : regex) : regex := Rep true lo (Some hi) r.

Definition d : regex := Set_ Digit.                                (* \d *)
Definition ws : regex := plus (Set_ Space).                        (* \s+ *)
Definition letter : regex := Set_ (Union (Range "A" "Z") (Range "a" "z")).

Fixpoint mem (cs : charset) (c : ascii) : bool :=
  match cs with
  | Digit => is_digit c
  | Space => is_space c
  | Dot => negb (Ascii.eqb c "010")
  | Range lo hi => in_range (code lo) (code hi) c
  | Union a b => mem a c || mem b c
  end.

(** Membership under [re.IGNORECASE]: either case of the character may be
    in the set. *)
Definition in_set (icase : bool) (cs : charset) (c : ascii) : bool :=
  if icase then mem cs c || mem cs (lower_char c) || mem cs (upper_char c)
  else mem cs c.

(** A literal under [re.IGNORECASE]: equal after lowering. *)
Definition lit_eq (icase : bool) (p c : ascii) : bool :=
  if icase then Ascii.eqb (lower_char p) (lower_char c) else Ascii.eqb p c.

(** Captured groups, most recent binding first. *)
Definition caps : Type := list (nat * string).

Fixpoint group (n : nat) (c : caps) : option string :=
  match c with
  | [] => None
  | (m, s) :: c' => if Nat.eqb n m then Some s else group n c'
  end.

(** [$] without [re.MULTILINE]: at the end, or before a final newline. *)
Definition at_end (s : string) : bool :=
  match s with
  | EmptyString => true
  | String c EmptyString => Ascii.eqb c "010"
  | _ => false
  end.

Section Exec.
Context {R : Type}.
Variable icase : bool.

(** The continuation of a match: offset, rest of the input, groups. *)
Definition cont : Type := nat -> string -> caps -> option R.

(** [rep body greedy k n lo]: at least [lo] and at most [n] more rounds of
    [body], then [k].  A greedy repetition tries one more round first and
    stops when that fails; a lazy one tries to stop first. *)
Fixpoint rep (body : nat -> string -> caps -> cont -> option R)
         (greedy : bool) (k : cont) (n lo : nat)
         (i : nat) (s : string) (c : caps) {struct n} : option R :=
  match n with
  | O => if Nat.eqb lo 0 then k i s c else None
  | S n' =>
      if greedy then
        match body i s c (rep body greedy k n' (pred lo)) with
        | Some x => Some x
        | None => if Nat.eqb lo 0 then k i s c else None
        end
      else
        match (if Nat.eqb lo 0 then k i s c else None) with
        | Some x => Some x
        | None => body i s c (rep body greedy k n' (pred lo))
        end
  end.

(** [exec r i s c k] matches [r] against [s], the input from offset [i]
    on, and hands what follows the match to [k]; when [k] fails the next
    alternative is tried, in the order of [re]'s backtracking.  An
    unbounded repetition is cut at the length of the input: every
    repeated expression of this development consumes a character. *)
Fixpoint exec (r : regex) (i : nat) (s : string) (c : caps) (k : cont)
         {struct r} : option R :=
  match r with
  | Eps => k i s c
  | Lit p =>
      match s with
      | String a s' => if lit_eq icase p a then k (S i) s' c else None
      | EmptyString => None
      end
  | Set_ cs =>
      match s with
      | String a s' => if in_set icase cs a then k (S i) s' c else None
      | EmptyString => None
      end
  | Cat r1 r2 => exec r1 i s c (fun i' s' c' => exec r2 i' s' c' k)
  | Alt r1 r2 =>
      match exec r1 i s c k with
      | Some x => Some x
      | None => exec r2 i s c k
      end
  | Group n r1 =>
      exec r1 i s c
           (fun i' s' c' => k i' s' ((n, take_str (i' - i) s) :: c'))
  | Bol => if Nat.eqb i 0 then k i s c else None
  | Eol => if at_end s then k i s c else None
  | Rep greedy lo hi r1 =>
      rep (exec r1) greedy k
          (match hi with Some h => h | None => String.length s end) lo i s c
  end.
End Exec.

(** A successful match: where it starts and ends, what follows, the groups. *)
Record found : Type := Found { m_start : nat; m_end : nat; m_rest : string; m_caps : caps }.

Definition accept (start : nat) : nat -> string -> caps -> option found :=
  fun i s c => Some (Found start i s c).

(** [re.match(r, s, flags)]: a match that starts at offset 0. *)
Definition rmatch (icase : bool) (r : regex) (s : string) : option found :=
  exec icase r 0 s [] (accept 0).

(** The leftmost match that starts at offset [i] or later. *)
Fixpoint search_from (icase : bool) (r : regex) (i : nat) (s : string) : option found :=
  match exec icase r i s [] (accept i) with
  | Some m => Some m
  | None =>
      match s with
      | EmptyString => None
      | String _ s' => search_from icase r (S i) s'
      end
  end.

(** [re.search(r, s, flags)] *)
Definition search (icase : bool) (r : regex) (s : string) : option found :=
  search_from icase r 0 s.

(** [re.match(r, s)] as a condition. *)
Definition matches (r : regex) (s : string) : bool :=
  match rmatch false r s with
  | Some _ => true
  | None => false
  end.

(** [m.group(1)]; a group that took no part in the match gives [None]. *)
Definition group1 (m : found) : option string := group 1 (m_caps m).

(** [re.findall(r, s)] for a pattern with one group: group 1 of the
    successive non-overlapping matches, left to right. *)
Fixpoint findall_from (fuel : nat) (r : regex) (i : nat) (s : string) : list string :=
  match fuel with
  | O => []
  | S fuel' =>
      match search_from false r i s with
      | None => []
      | Some m =>
          let g := match group1 m with Some g => g | None => EmptyString end in
          if Nat.eqb (m_end m) (m_start m) then
            match m_rest m with
            | EmptyString => [g]
            | String _ s' => g :: findall_from fuel' r (S (m_end m)) s'
            end
          else g :: findall_from fuel' r (m_end m) (m_rest m)
      end
  end.

Definition findall (r : regex) (s : string) : list string :=
  findall_from (S (String.length s)) r 0 s.

End Re.

Import PyStr Re.

(* ===================================================================== *)
(** ** Dates: [datetime], [strftime], [strptime] *)
(* ===================================================================== *)

Module Datetime.

Local Open Scope Z_scope.

Definition is_leap (y : Z) : bool :=
  (y mod 4 =? 0) && (negb (y mod 100 =? 0) || (y mod 400 =? 0)).

Definition days_in_month (y m : Z) : Z :=
  if m =? 2 then (if is_leap y then 29 else 28)
  else if (m =? 4) || (m =? 6) || (m =? 9) || (m =? 11) then 30
  else 31.

(** The range check of the [datetime] constructor: MINYEAR..MAXYEAR,
    1..12, and a day that the month has. *)
Definition check_date_fields (y m d : Z) : bool :=
  (1 <=? y) && (y <=? 9999) && (1 <=? m) && (m <=? 12)
  && (1 <=? d) && (d <=? days_in_month y m).

(** A [datetime] object, as far as [%Y-%m-%d] can see it.  The time of day
    and the zone are not read by that format and are left out.  Every
    object satisfies the constructor's range check. *)
Record datetime : Type := Datetime {
  year : Z;
  month : Z;
  day : Z;
  date_ok : check_date_fields year month day = true
}.

(** [datetime(y, m, d)]; [None] stands for its [ValueError]. *)
Definition make (y m d : Z) : option datetime :=
  match check_date_fields y m d as b
        return check_date_fields y m d = b -> option datetime with
  | true => fun H => Some (Datetime y m d H)
  | false => fun _ => None
  end eq_refl.

(** The character of the last decimal digit of [n]. *)
Definition digit (n : Z) : ascii := ascii_of_N (Z.to_N (48 + n mod 10)).

Definition pad2 (n : Z) : string :=
  String (digit (n / 10)) (String (digit n) EmptyString).

Definition pad4 (n : Z) : string :=
  String (digit (n / 1000)) (String (digit (n / 100)) (pad2 n)).

Fixpoint digits_acc (fuel : nat) (n : Z) (acc : string) : string :=
  let acc' := String (digit n) acc in
  match fuel with
  | O => acc'
  | S fuel' => if n <? 10 then acc' else digits_acc fuel' (n / 10) acc'
  end.

(** [str(n)], the text an f-string inserts for an [int]. *)
Definition str_int (n : Z) : string :=
  if n <? 0 then String "-" (digits_acc (Z.to_nat (Z.log2 (- n))) (- n) EmptyString)
  else digits_acc (Z.to_nat (Z.log2 n)) n EmptyString.

(** [dt.strftime("%Y-%m-%d")].  [%m] and [%d] have two digits.  [%Y] is
    what the C library prints for the year: on glibc, under CPython 3.11,
    the decimal year without padding, so that a year below 1000 has fewer
    than four digits. *)
Definition strftime (dt : datetime) : string :=
  str_int (year dt) +:+ "-" +:+ pad2 (month dt) +:+ "-" +:+ pad2 (day dt).

(** [int(s)] on the groups that [strptime] extracts: decimal digits,
    possibly after white space. *)
Fixpoint int_acc (s : string) (acc : Z) : Z :=
  match s with
  | EmptyString => acc
  | String c s' =>
      if is_digit c then int_acc s' (10 * acc + (Z.of_N (code c) - 48))
      else int_acc s' acc
  end.

Definition int (s : string) : Z := int_acc s 0.

(** The regular expressions that [_strptime] substitutes for the
    directives (C locale), and the group each one fills. *)
Definition g_b : nat := 1.
Definition g_d : nat := 2.
Definition g_Y : nat := 3.
Definition g_m : nat := 4.

Definition month_abbr : list string :=
  ["jan"; "feb"; "mar"; "apr"; "may"; "jun";
   "jul"; "aug"; "sep"; "oct"; "nov"; "dec"].

Definition re_b : regex := Group g_b (alt (map word month_abbr)).

Definition re_d : regex :=
  Group g_d (alt [Cat (Lit "3") (Set_ (Range "0" "1"));
                  Cat (Set_ (Range "1" "2")) d;
                  Cat (Lit "0") (Set_ (Range "1" "9"));
                  Set_ (Range "1" "9");
                  Cat (Lit " ") (Set_ (Range "1" "9"))]).

Definition re_m : regex :=
  Group g_m (alt [Cat (Lit "1") (Set_ (Range "0" "2"));
                  Cat (Lit "0") (Set_ (Range "1" "9"));
                  Set_ (Range "1" "9")]).

Definition re_Y : regex := Group g_Y (cat [d; d; d; d]).

(** "%b %d %Y", "%b %d, %Y" and "%m/%d/%Y" *)
Definition fmt_b_d_Y : regex := cat [re_b; ws; re_d; ws; re_Y].
Definition fmt_b_d_comma_Y : regex := cat [re_b; ws; re_d; Lit ","; ws; re_Y].
Definition fmt_m_d_Y : regex := cat [re_m; Lit "/"; re_d; Lit "/"; re_Y].

(** Position of [x] in [l], counted from 1. *)
Fixpoint index_from (n : Z) (x : string) (l : list string) : option Z :=
  match l with
  | [] => None
  | y :: l' => if String.eqb x y then Some n else index_from (n + 1) x l'
  end.

Definition month_of (m : found) : option Z :=
  match group g_b (m_caps m), group g_m (m_caps m) with
  | Some b, _ => index_from 1 (lower b) month_abbr
  | None, Some n => Some (int n)
  | None, None => None
  end.

(** [datetime.strptime(s, format)] for a format given by its regular
    expression: the expression must match at the start (ignoring case)
    and leave nothing unconverted; the fields must then make a date.
    [None] stands for [ValueError]. *)
Definition strptime (format : regex) (s : string) : option datetime :=
  match rmatch true format s with
  | None => None
  | Some m =>
      if negb (Nat.eqb (String.length s) (m_end m)) then None
      else
        match month_of m, group g_d (m_caps m), group g_Y (m_caps m) with
        | Some mo, Some dd, Some yy => make (int yy) mo (int dd)
        | _, _, _ => None
        end
  end.

End Datetime.

Import Datetime.

(* ===================================================================== *)
(** ** The run-time world of the updater *)
(* ===================================================================== *)

(** Exceptions.  The first four are [requests.RequestException] and its
    subclasses; the others are not. *)
Inductive exn : Type :=
| ConnectionError
| Timeout
| HTTPError (status : Z)
| JSONDecodeError
| ValueError
| TypeError
| KeyError (key : string)
| AttributeError
| RuntimeError (what : string).

Definition is_request_exception (e : exn) : bool :=
  match e with
  | ConnectionError | Timeout | HTTPError _ | JSONDecodeError => true
  | _ => false
  end.

(** The result of a computation that may raise. *)
Inductive res (A : Type) : Type :=
| Ok (a : A)
| Raise (e : exn).
Arguments Ok {A} a.
Arguments Raise {A} e.

(** A decoded JSON value, what [response.json()] returns.  [JDict] lists
    the items of an object, whose keys are distinct. *)
#[warnings="-register-all"] Inductive json : Type :=
| JNull
| JBool (b : bool)
| JNum (lexeme : string)
| JStr (s : string)
| JList (l : list json)
| JDict (l : list (string * json)).

(** A [requests.Response]: the status, the body as text, and what decoding
    the body as JSON gives. *)
Record response : Type := Response {
  status_code : Z;
  text : string;
  json_body : res json
}.

(** What a parsed document offers to [find_all]: its strings and its tags,
    in document order. *)
Inductive node : Type :=
| NavigableString (s : string)
| Tag (name : string) (attrs : gmap string string).

Definition soup : Type := list node.

(** A cell of a [csv.DictReader] row: a string, or [None] for a column the
    line was too short to fill. *)
Inductive cell : Type :=
| CNone
| CStr (s : string).

(** A row of the table: column name to cell. *)
Abbreviation row := (gmap string cell).

(** What the program prints: one constructor per [print] call of the
    resolver and the pool, and one for the closing summary. *)
Inductive message : Type :=
| MsgApi (model_name date : string)
| MsgPage (model_name date : string)
| MsgNotFound (model_name : string)
| MsgRequestFailed (model_name : string) (e : exn)
| MsgHtmlError (e : exn)
| MsgToUpdate (n : nat)
| MsgTaskError (model_name : string) (e : exn)
| MsgSummary (updated failed : Z).

(** Observable effects, in the order in which they happen. *)
Inductive event : Type :=
| Get (url : string) (timeout : Z)
| Sleep (delay_range : Z * Z)
| Print (m : message).

(** The mutable part of the updater object and the trace of its effects. *)
Record state : Type := State {
  updated_count : Z;
  failed_count : Z;
  trace : list event
}.

(** Computations over the updater: state passing with exceptions.  The
    effects made before an exception is raised stay. *)
Definition M (A : Type) : Type := state -> res A * state.

Definition ret {A} (a : A) : M A := fun st => (Ok a, st).

Definition raise {A} (e : exn) : M A := fun st => (Raise e, st).

Definition bind {A B} (m : M A) (k : A -> M B) : M B :=
  fun st =>
    match m st with
    | (Ok a, st') => k a st'
    | (Raise e, st') => (Raise e, st')
    end.

Definition lift {A} (r : res A) : M A := fun st => (r, st).

(** [try: m except <class>: h]; [catches] tells the class. *)
Definition try_except {A} (m : M A) (catches : exn -> bool) (h : exn -> M A) : M A :=
  fun st =>
    match m st with
    | (Ok a, st') => (Ok a, st')
    | (Raise e, st') => if catches e then h e st' else (Raise e, st')
    end.

Declare Scope py_scope.
Delimit Scope py_scope with py.
Notation "x <- m ;; k" := (bind m (fun x => k))
  (at level 100, m at next level, right associativity) : py_scope.
Notation "m ;; k" := (bind m (fun _ => k))
  (at level 100, right associativity) : py_scope.

Definition emit (e : event) : M unit :=
  fun st => (Ok tt, State (updated_count st) (failed_count st) (trace st ++ [e])).

Definition print (m : message) : M unit := emit (Print m).

(** [self.updated_count += 1] and [self.failed_count += 1] *)
Definition incr_updated : M unit :=
  fun st => (Ok tt, State (updated_count st + 1) (failed_count st) (trace st)).

Definition incr_failed : M unit :=
  fun st => (Ok tt, State (updated_count st) (failed_count st + 1) (trace st)).

(** Truth value of an [Optional[str]]. *)
Definition truthy_opt (o : option string) : bool :=
  match o with
  | Some s => truthy s
  | None => false
  end.

(** The text an f-string inserts for a cell. *)
Definition fstr (c : cell) : string :=
  match c with
  | CNone => "None"
  | CStr s => s
  end.

(** The first element on which [f] returns, in a [for] loop that returns
    from inside its body; an exception stops the loop. *)
Fixpoint first_return {A B} (f : A -> res (option B)) (l : list A) : res (option B) :=
  match l with
  | [] => Ok None
  | x :: l' =>
      match f x with
      | Ok None => first_return f l'
      | r => r
      end
  end.

(* ===================================================================== *)
(** ** The patterns of [extract_update_time_from_html] *)
(* ===================================================================== *)

(** [Updated|Last updated|Modified] *)
Definition re_keyword : regex :=
  alt [word "Updated"; word "Last updated"; word "Modified"].

(** [[A-Za-z]{3}\s+\d{1,2}] *)
Definition mon_dd : regex := cat [times 3 letter; ws; between 1 2 d].

(** [[A-Za-z]{3}\s+\d{1,2},\s+\d{4}] *)
Definition mon_dd_yyyy : regex :=
  cat [times 3 letter; ws; between 1 2 d; Lit ","; ws; times 4 d].

(** [\d{4}-\d{2}-\d{2}] *)
Definition iso : regex := cat [times 4 d; Lit "-"; times 2 d; Lit "-"; times 2 d].

(** [\d{1,2}/\d{1,2}/\d{4}] *)
Definition slashed : regex :=
  cat [between 1 2 d; Lit "/"; between 1 2 d; Lit "/"; times 4 d].

(** [^ ... $] *)
Definition anchored (r : regex) : regex := cat [Bol; r; Eol].

(** The four patterns of the first method, in the order of the list. *)
Definition keyword_patterns : list regex :=
  [ cat [word "Updated"; ws;
         Group 1 (cat [times 3 letter; ws; between 1 2 d;
                       opt (cat [Lit ","; ws; times 4 d])])];
    cat [word "Updated"; ws; word "about"; ws;
         Group 1 (lazy_plus (Set_ Dot)); ws; word "ago"];
    cat [word "Last"; ws; word "updated"; ws; Group 1 mon_dd];
    cat [word "Modified"; ws; Group 1 mon_dd] ].

(** The four patterns of the third method, in the order of the list. *)
Definition scan_patterns : list regex :=
  [ Group 1 iso; Group 1 mon_dd_yyyy; Group 1 mon_dd; Group 1 slashed ].

(** [soup.find_all(string=re.compile(p, re.IGNORECASE))]: the strings of
    the document in which [p] is found. *)
Fixpoint find_all_string (p : regex) (sp : soup) : list string :=
  match sp with
  | [] => []
  | NavigableString t :: sp' =>
      match search true p t with
      | Some _ => t :: find_all_string p sp'
      | None => find_all_string p sp'
      end
  | Tag _ _ :: sp' => find_all_string p sp'
  end.

(** [soup.find_all(name, attrs={key: re.compile(p)})]: the tags called
    [name] that have the attribute [key] with a value in which [p] is
    found; each tag is given by its attributes. *)
Fixpoint find_all_tag (name key : string) (p : regex) (sp : soup)
  : list (gmap string string) :=
  match sp with
  | [] => []
  | Tag n attrs :: sp' =>
      if String.eqb n name then
        match attrs !! key with
        | Some v =>
            match search false p v with
            | Some _ => attrs :: find_all_tag name key p sp'
            | None => find_all_tag name key p sp'
            end
        | None => find_all_tag name key p sp'
        end
      else find_all_tag name key p sp'
  | NavigableString _ :: sp' => find_all_tag name key p sp'
  end.

(* ===================================================================== *)
(** ** The class [HuggingFaceModelUpdater] *)
(* ===================================================================== *)

Section HuggingFaceModelUpdater.

(** [self.session.get(url, timeout=t)]: the answer of the remote site. *)
Variable session_get : string -> Z -> res response.

(** [datetime.fromisoformat]; [None] stands for its [ValueError]. *)
Variable fromisoformat : string -> option datetime.

(** [BeautifulSoup(html_content, 'html.parser')] *)
Variable BeautifulSoup : string -> res soup.

(** [datetime.now()] *)
Variable now : datetime.

(** [self.delay_range], in seconds; both bounds are positive in the
    constructor's default and in [main], so [time.sleep] does not raise.
    [self.max_workers] only bounds how many tasks run at once and has no
    place in the embedding. *)
Variable delay_range : Z * Z.

Local Open Scope py_scope.

Definition get (url : string) (timeout : Z) : M response :=
  emit (Get url timeout) ;; lift (session_get url timeout).

(** [key in data] *)
Definition py_in (key : string) (data : json) : res bool :=
  match data with
  | JDict l => Ok (existsb (fun kv => String.eqb (fst kv) key) l)
  | JList l =>
      Ok (existsb (fun x => match x with JStr s => String.eqb s key | _ => false end) l)
  | JStr s => Ok (contains key s)
  | JNull | JBool _ | JNum _ => Raise TypeError
  end.

(** [data[key]] for a string [key] *)
Definition py_getitem (data : json) (key : string) : res json :=
  match data with
  | JDict l =>
      match find (fun kv => String.eqb (fst kv) key) l with
      | Some kv => Ok (snd kv)
      | None => Raise (KeyError key)
      end
  | _ => Raise TypeError
  end.

(** [datetime.fromisoformat(v.replace('Z', '+00:00')).strftime("%Y-%m-%d")] *)
Definition iso_field_date (v : json) : res string :=
  match v with
  | JStr s =>
      match fromisoformat (replace_char "Z" "+00:00" s) with
      | Some dt => Ok (strftime dt)
      | None => Raise ValueError
      end
  | _ => Raise AttributeError
  end.

(** [if key in data: v = data[key]; try: return ... except: pass]; the
    result [Some] is the value returned, [None] means falling through. *)
Definition try_field (key : string) (data : json) : res (option string) :=
  match py_in key data with
  | Raise e => Raise e
  | Ok false => Ok None
  | Ok true =>
      match py_getitem data key with
      | Raise e => Raise e
      | Ok v =>
          match iso_field_date v with
          | Ok date => Ok (Some date)
          | Raise _ => Ok None
          end
      end
  end.

Definition extract_update_time_from_api (model_name : string) : M (option string) :=
  let api_url := "https://huggingface.co/api/models/" +:+ model_name in
  try_except
    (response <- get api_url 10 ;;
     if (status_code response =? 200)%Z then
       data <- lift (json_body response) ;;
       last_modified <- lift (try_field "lastModified" data) ;;
       match last_modified with
       | Some date => ret (Some date)
       | None =>
           created_at <- lift (try_field "createdAt" data) ;;
           match created_at with
           | Some date => ret (Some date)
           | None => ret None
           end
       end
     else ret None)
    (fun _ => true)
    (fun _ => ret None).

(** The [try] block of the first method for one [date_str]: [Ok (Some v)]
    returns [v]; [Ok None] goes on with the next pattern, either because
    no branch fits or because [strptime] raised [ValueError]. *)
Definition keyword_date (date_str : string) : res (option string) :=
  if matches (anchored mon_dd) date_str then
    let current_year := year now in
    let full_date := date_str +:+ " " +:+ str_int current_year in
    match strptime fmt_b_d_Y full_date with
    | Some parsed_date => Ok (Some (strftime parsed_date))
    | None => Ok None
    end
  else if matches (anchored mon_dd_yyyy) date_str then
    match strptime fmt_b_d_comma_Y date_str with
    | Some parsed_date => Ok (Some (strftime parsed_date))
    | None => Ok None
    end
  else if contains "ago" (lower date_str) then Ok (Some (strftime now))
  else Ok None.

(** [m.group(1)] handed to code that needs a string. *)
Definition group1_str (m : found) : res string :=
  match group1 m with
  | Some g => Ok g
  | None => Raise TypeError
  end.

(** One pattern of the first method on one text. *)
Definition keyword_pattern (text : string) (pattern : regex) : res (option string) :=
  match search true pattern text with
  | Some m =>
      match group1_str m with
      | Ok date_str => keyword_date date_str
      | Raise e => Raise e
      end
  | None => Ok None
  end.

(** The body of [for text in updated_texts]. *)
Definition keyword_text (text : string) : res (option string) :=
  first_return (keyword_pattern (strip text)) keyword_patterns.

(** Method 1: the texts that hold a keyword. *)
Definition method1 (sp : soup) : res (option string) :=
  first_return keyword_text (find_all_string re_keyword sp).

(** The body of [for tag in meta_tags]. *)
Definition meta_tag (attrs : gmap string string) : res (option string) :=
  let content := default EmptyString (attrs !! "content") in
  match search false (Group 1 iso) content with
  | Some date_match =>
      match group1 date_match with
      | Some g => Ok (Some g)
      | None => Ok None
      end
  | None => Ok None
  end.

(** Method 2: the [meta] tags whose [content] holds an ISO date. *)
Definition method2 (sp : soup) : res (option string) :=
  first_return meta_tag (find_all_tag "meta" "content" iso sp).

(** The [try] block of the third method for one match. *)
Definition scan_match (m : string) : res (option string) :=
  if matches (anchored iso) m then Ok (Some m)
  else if matches (anchored mon_dd_yyyy) m then
    match strptime fmt_b_d_comma_Y m with
    | Some dt => Ok (Some (strftime dt))
    | None => Ok None
    end
  else if matches (anchored mon_dd) m then
    let current_year := year now in
    let full_date := m +:+ " " +:+ str_int current_year in
    match strptime fmt_b_d_Y full_date with
    | Some dt => Ok (Some (strftime dt))
    | None => Ok None
    end
  else if matches (anchored slashed) m then
    match strptime fmt_m_d_Y m with
    | Some dt => Ok (Some (strftime dt))
    | None => Ok None
    end
  else Ok None.

(** Method 3: every date shape over the whole text. *)
Definition method3 (html_content : string) : res (option string) :=
  first_return
    (fun pattern => first_return scan_match (findall pattern html_content))
    scan_patterns.

(** The three methods in the order of the source; the first date wins. *)
Definition extract_body (html_content : string) : res (option string) :=
  match BeautifulSoup html_content with
  | Raise e => Raise e
  | Ok sp =>
      match method1 sp with
      | Ok None =>
          match method2 sp with
          | Ok None => method3 html_content
          | r => r
          end
      | r => r
      end
  end.

Definition extract_update_time_from_html (html_content : string) : M (option string) :=
  try_except
    (lift (extract_body html_content))
    (fun _ => true)
    (fun e => print (MsgHtmlError e) ;; ret None).

(** [response.raise_for_status()] *)
Definition raise_for_status (r : response) : M unit :=
  if ((400 <=? status_code r) && (status_code r <? 600))%Z
  then raise (HTTPError (status_code r))
  else ret tt.

Definition fetch_model_update_time (model_name : cell) : M (option string) :=
  api_time <- extract_update_time_from_api (fstr model_name) ;;
  if truthy_opt api_time then
    incr_updated ;;
    print (MsgApi (fstr model_name) (default EmptyString api_time)) ;;
    ret api_time
  else
    let url := "https://huggingface.co/" +:+ fstr model_name in
    try_except
      (emit (Sleep delay_range) ;;
       response <- get url 15 ;;
       raise_for_status response ;;
       update_time <- extract_update_time_from_html (text response) ;;
       (if truthy_opt update_time then
          incr_updated ;;
          print (MsgPage (fstr model_name) (default EmptyString update_time))
        else
          incr_failed ;;
          print (MsgNotFound (fstr model_name))) ;;
       ret update_time)
      is_request_exception
      (fun e =>
         incr_failed ;;
         print (MsgRequestFailed (fstr model_name) e) ;;
         ret None).

(** [row[key]] *)
Definition row_get (r : row) (key : string) : res cell :=
  match r !! key with
  | Some v => Ok v
  | None => Raise (KeyError key)
  end.

(** [v == '-' or not v] *)
Definition needs_update (v : cell) : bool :=
  match v with
  | CNone => true
  | CStr s => String.eqb s "-" || negb (truthy s)
  end.

(** The loop that collects [(i, row['name'])] for the rows to update;
    [i] is the index of the first row of [rows]. *)
Fixpoint models_to_update_from (i : nat) (rows : list row) : res (list (nat * cell)) :=
  match rows with
  | [] => Ok []
  | r :: rows' =>
      match row_get r "update_time" with
      | Raise e => Raise e
      | Ok v =>
          if needs_update v then
            match row_get r "name" with
            | Raise e => Raise e
            | Ok name =>
                match models_to_update_from (S i) rows' with
                | Raise e => Raise e
                | Ok l => Ok ((i, name) :: l)
                end
            end
          else models_to_update_from (S i) rows'
      end
  end.

Definition models_to_update (rows : list row) : res (list (nat * cell)) :=
  models_to_update_from 0 rows.

(** [rows[index]['update_time'] = update_time] *)
Definition set_update_time (index : nat) (update_time : string) (rows : list row)
  : list row :=
  alter (fun r : row => <["update_time" := CStr update_time]> r) index rows.

(** The body of [for future in as_completed(...)] for the future of one
    task: the task runs [fetch_model_update_time], and its result or its
    exception is handled. *)
Definition complete (task : nat * cell) (rows : list row) : M (list row) :=
  let '(index, model_name) := task in
  try_except
    (update_time <- fetch_model_update_time model_name ;;
     if truthy_opt update_time
     then ret (set_update_time index (default EmptyString update_time) rows)
     else ret rows)
    (fun _ => true)
    (fun e => print (MsgTaskError (fstr model_name) e) ;; ret rows).

(** The thread pool.  Every submitted task becomes one future, and
    [as_completed] yields the futures in the order [order] in which they
    finish: [order] lists positions in [tasks].  A task touches nothing
    shared but the two counters, under the lock, so each task is one step. *)
Fixpoint run_pool (tasks : list (nat * cell)) (order : list nat) (rows : list row)
  : M (list row) :=
  match order with
  | [] => ret rows
  | k :: order' =>
      match tasks !! k with
      | Some task => rows' <- complete task rows ;; run_pool tasks order' rows'
      | None => run_pool tasks order' rows
      end
  end.

(** [update_csv_file], from the rows read to the rows written. *)
Definition update_csv_file (order : list nat) (rows : list row) : M (list row) :=
  tasks <- lift (models_to_update rows) ;;
  print (MsgToUpdate (List.length tasks)) ;;
  rows' <- run_pool tasks order rows ;;
  st <- (fun st => (Ok st, st)) ;;
  print (MsgSummary (updated_count st) (failed_count st)) ;;
  ret rows'.

End HuggingFaceModelUpdater.

Arguments extract_update_time_from_api : simpl never.
Arguments extract_update_time_from_html : simpl never.
Arguments extract_body : simpl never.
Arguments fetch_model_update_time : simpl never.

(* ===================================================================== *)
(** ** The vocabulary of the specification *)
(* ===================================================================== *)

(** The canonical form [YYYY-MM-DD]: ten characters, digits around two
    hyphens. *)
Definition canonical (s : string) : bool :=
  match s with
  | String y1 (String y2 (String y3 (String y4 (String h1
      (String m1 (String m2 (String h2 (String d1 (String d2 EmptyString))))))))) =>
      is_digit y1 && is_digit y2 && is_digit y3 && is_digit y4
      && Ascii.eqb h1 "-"
      && is_digit m1 && is_digit m2
      && Ascii.eqb h2 "-"
      && is_digit d1 && is_digit d2
  | _ => false
  end.

(** The two addresses of a model. *)
Definition api_url (model_name : string) : string :=
  "https://huggingface.co/api/models/" +:+ model_name.

Definition page_url (model_name : string) : string :=
  "https://huggingface.co/" +:+ model_name.

(* ===================================================================== *)
(** ** Basic facts *)
(* ===================================================================== *)

Lemma length_app_str (a b : string) :
  String.length (a +:+ b) = String.length a + String.length b.
Proof.
  induction a as [| c a IH]; [reflexivity |].
  change (S (String.length (a +:+ b)) = S (String.length a + String.length b)).
  rewrite IH. reflexivity.
Qed.

Lemma is_digit_digit (n : Z) : is_digit (digit n) = true.
Proof.
  unfold digit.
  pose proof (Z.mod_pos_bound n 10 ltac:(lia)) as Hb.
  remember (n mod 10)%Z as k eqn:Hk. clear Hk.
  assert (k = 0 \/ k = 1 \/ k = 2 \/ k = 3 \/ k = 4 \/ k = 5 \/ k = 6
          \/ k = 7 \/ k = 8 \/ k = 9)%Z as Hc by lia.
  repeat (destruct Hc as [-> | Hc]; [reflexivity |]). subst k. reflexivity.
Qed.

Lemma canonical_truthy (s : string) : canonical s = true -> truthy s = true.
Proof. destruct s; [discriminate | reflexivity]. Qed.

Lemma year_range (dt : datetime) : (1 <= year dt <= 9999)%Z.
Proof.
  pose proof (date_ok dt) as H. unfold check_date_fields in H.
  repeat (apply andb_true_iff in H as [H ?]). lia.
Qed.

(** [str] of a year: its four digits from 1000 on, at most three digits
    below, and a digit first in either case. *)
Definition year_text_ok (y : Z) : bool :=
  (if (1000 <=? y)%Z then String.eqb (str_int y) (pad4 y)
   else Nat.leb (String.length (str_int y)) 3)
  && match str_int y with
     | String c _ => is_digit c
     | EmptyString => false
     end.

Lemma year_texts_ok (y : Z) : (1 <= y <= 9999)%Z -> year_text_ok y = true.
Proof.
  intros Hy.
  assert (forallb year_text_ok (seqZ 1 9999) = true) as Hall by (vm_compute; reflexivity).
  rewrite forallb_forall in Hall. apply Hall.
  apply list_elem_of_In, elem_of_seqZ. lia.
Qed.

(** [str] of a four-digit year is its four digits. *)
Lemma str_int_year (y : Z) : (1000 <= y <= 9999)%Z -> str_int y = pad4 y.
Proof.
  intros Hy. pose proof (year_texts_ok y ltac:(lia)) as H. unfold year_text_ok in H.
  apply andb_true_iff in H as [H _].
  destruct (Z.leb_spec 1000 y); [| lia]. apply String.eqb_eq, H.
Qed.


(** From the year 1000 on the text of a date has the four digits of the
    year; below, it is shorter than ten characters. *)
Lemma strftime_four_digits (dt : datetime) :
  (1000 <= year dt)%Z ->
  strftime dt = pad4 (year dt) +:+ "-" +:+ pad2 (month dt) +:+ "-" +:+ pad2 (day dt).
Proof.
  intros Hy. pose proof (year_range dt). unfold strftime.
  rewrite str_int_year by lia. reflexivity.
Qed.

Lemma strftime_canonical (dt : datetime) :
  (1000 <= year dt)%Z -> canonical (strftime dt) = true.
Proof.
  intros Hy. rewrite (strftime_four_digits dt Hy).
  cbv [pad4 pad2 String.append canonical].
  rewrite !is_digit_digit. reflexivity.
Qed.


Lemma strftime_first_digit (dt : datetime) :
  exists c s, strftime dt = String c s /\ is_digit c = true.
Proof.
  pose proof (year_texts_ok (year dt) (year_range dt)) as H. unfold year_text_ok in H.
  apply andb_true_iff in H as [_ H]. unfold strftime.
  destruct (str_int (year dt)) as [| c s]; [discriminate |].
  exists c. eexists. split; [reflexivity | exact H].
Qed.

Lemma strftime_truthy (dt : datetime) : truthy (strftime dt) = true.
Proof. destruct (strftime_first_digit dt) as (c & s & -> & _). reflexivity. Qed.

(** The text of a resolved date: the canonical form, or the text of a
    date before the year 1000, whose year is written without padding. *)
Definition date_text (s : string) : Prop :=
  canonical s = true \/ exists dt, (year dt < 1000)%Z /\ s = strftime dt.

Lemma date_text_strftime (dt : datetime) : date_text (strftime dt).
Proof.
  destruct (Z.le_gt_cases 1000 (year dt)) as [Hy | Hy].
  - left. apply strftime_canonical, Hy.
  - right. exists dt. split; [lia | reflexivity].
Qed.

Lemma date_text_first_digit (s : string) :
  date_text s -> exists c r, s = String c r /\ is_digit c = true.
Proof.
  intros [Hc | (dt & _ & ->)]; [| apply strftime_first_digit].
  destruct s as [| c r]; [discriminate |]. exists c, r. split; [reflexivity |].
  unfold canonical in Hc.
  do 9 (destruct r as [| ? r]; [discriminate |]).
  destruct r; [| discriminate].
  do 9 (apply andb_true_iff in Hc as [Hc ?]). exact Hc.
Qed.

Lemma date_text_truthy (s : string) : date_text s -> truthy s = true.
Proof. intros H. destruct (date_text_first_digit s H) as (c & r & -> & _). reflexivity. Qed.

Lemma canonical_length (s : string) : canonical s = true -> String.length s = 10%nat.
Proof.
  intros H. unfold canonical in H.
  repeat (destruct s as [| ? s]; [discriminate |]).
  destruct s; [reflexivity | discriminate].
Qed.

(* ===================================================================== *)
(** ** The structured source *)
(* ===================================================================== *)

Section StructuredSource.

Variable session_get : string -> Z -> res response.
Variable fromisoformat : string -> option datetime.

Local Abbreviation extract_api := (extract_update_time_from_api session_get fromisoformat).

(** A timestamp field that gives no date: the payload is not an object,
    the field is missing, its value is not a string, or the string does not
    parse. *)
Definition field_unusable (key : string) (data : json) : Prop :=
  match data with
  | JDict l =>
      match find (fun kv => String.eqb (fst kv) key) l with
      | Some (_, JStr s) => fromisoformat (replace_char "Z" "+00:00" s) = None
      | _ => True
      end
  | _ => True
  end.

(** The failure modes of the structured source, by the answer to the
    request: an exception (network error, timeout), a status other than
    200, a body that is not JSON, no usable timestamp field. *)
Inductive api_failure : res response -> Prop :=
| api_fail_request (e : exn) : api_failure (Raise e)
| api_fail_status (r : response) :
    status_code r <> 200%Z -> api_failure (Ok r)
| api_fail_json (r : response) (e : exn) :
    json_body r = Raise e -> api_failure (Ok r)
| api_fail_fields (r : response) (data : json) :
    json_body r = Ok data ->
    field_unusable "lastModified" data ->
    field_unusable "createdAt" data ->
    api_failure (Ok r).

(** What the call leaves behind: one request in the trace, the counters
    as they were. *)
Definition after_api (model_name : string) (st : state) : state :=
  State (updated_count st) (failed_count st)
        (trace st ++ [Get (api_url model_name) 10]).

Lemma try_field_unusable (key : string) (data : json) :
  field_unusable key data ->
  try_field fromisoformat key data = Ok None
  \/ exists e, try_field fromisoformat key data = Raise e.
Proof.
  unfold field_unusable, try_field, py_in, py_getitem, iso_field_date.
  destruct data as [| b | n | s | l | l]; intros H; eauto.
  - destruct (contains key s); eauto.
  - destruct (existsb _ l); eauto.
  - destruct (existsb _ l); eauto.
    destruct (find _ l) as [[k v] |]; eauto.
    destruct v; cbn; eauto. rewrite H. eauto.
Qed.

Lemma try_field_date (key : string) (data : json) (date : string) :
  try_field fromisoformat key data = Ok (Some date) ->
  exists dt, date = strftime dt.
Proof.
  unfold try_field, iso_field_date.
  destruct (py_in key data) as [[|] | e]; try discriminate.
  destruct (py_getitem data key) as [v | e]; try discriminate.
  destruct v; try discriminate.
  destruct (fromisoformat _) as [dt |]; try discriminate.
  intros [= <-]. eauto.
Qed.

(** The call always returns, leaves [after_api] behind, and what it
    returns is the text of a date. *)
Lemma extract_api_returns (model_name : string) (st : state) :
  exists r, extract_api model_name st = (Ok r, after_api model_name st)
            /\ (forall date, r = Some date -> exists dt, date = strftime dt).
Proof.
  unfold extract_update_time_from_api, try_except, bind, get, emit, lift, ret,
    after_api, api_url.
  cbn. destruct (session_get _ 10) as [resp | e]; cbn.
  2: { eexists; split; [reflexivity | discriminate]. }
  destruct (status_code resp =? 200)%Z; cbn.
  2: { eexists; split; [reflexivity | discriminate]. }
  destruct (json_body resp) as [data | e]; cbn.
  2: { eexists; split; [reflexivity | discriminate]. }
  destruct (try_field fromisoformat "lastModified" data) as [[d1 |] | e] eqn:E1; cbn.
  - eexists; split; [reflexivity |]. intros ? [= <-]. eapply try_field_date; eauto.
  - destruct (try_field fromisoformat "createdAt" data) as [[d2 |] | e] eqn:E2; cbn.
    + eexists; split; [reflexivity |]. intros ? [= <-]. eapply try_field_date; eauto.
    + eexists; split; [reflexivity | discriminate].
    + eexists; split; [reflexivity | discriminate].
  - eexists; split; [reflexivity | discriminate].
Qed.

Lemma extract_api_failure (model_name : string) (st : state) :
  api_failure (session_get (api_url model_name) 10) ->
  extract_api model_name st = (Ok None, after_api model_name st).
Proof.
  unfold extract_update_time_from_api, try_except, bind, get, emit, lift, ret,
    after_api, api_url.
  intros H. cbn. inversion H as [e He | r Hs He | r e Hj He | r data Hj H1 H2 He];
    cbn.
  - reflexivity.
  - apply Z.eqb_neq in Hs. rewrite Hs. reflexivity.
  - destruct (status_code r =? 200)%Z; cbn; [| reflexivity]. rewrite Hj. reflexivity.
  - destruct (status_code r =? 200)%Z; cbn; [| reflexivity]. rewrite Hj. cbn.
    destruct (try_field_unusable _ _ H1) as [-> | [e ->]]; cbn; [| reflexivity].
    destruct (try_field_unusable _ _ H2) as [-> | [e ->]]; reflexivity.
Qed.

(** C8.  [extract_update_time_from_api] returns to its caller for every
    identifier, whatever the remote site answers: no exception passes its
    boundary.  In each failure mode of the structured source (an exception
    raised by the request such as a network error or a timeout, a status
    other than 200, a body that does not decode as JSON, timestamp fields
    that are missing or do not parse) the value returned is [None]. *)
Theorem api_degrades_to_absence (model_name : string) (st : state) :
  (exists r st', extract_api model_name st = (Ok r, st'))
  /\ (api_failure (session_get (api_url model_name) 10) ->
      exists st', extract_api model_name st = (Ok None, st')).
Proof.
  split.
  - destruct (extract_api_returns model_name st) as [r [H _]]. eauto.
  - intros H. eexists. apply extract_api_failure, H.
Qed.

End StructuredSource.

(* ===================================================================== *)
(** ** Effects accumulate *)
(* ===================================================================== *)

(** The updater only ever adds to its counters and appends to its trace,
    and nothing it computes reads them back.  A computation of that kind is
    described by what it does from the empty state. *)
Definition st0 : state := State 0 0 [].

Definition plus_state (a b : state) : state :=
  State (updated_count a + updated_count b) (failed_count a + failed_count b)
        (trace a ++ trace b).

Definition uniform {A} (m : M A) : Prop :=
  forall st, m st = (fst (m st0), plus_state st (snd (m st0))).

Lemma plus_state_st0_r (a : state) : plus_state a st0 = a.
Proof.
  destruct a as [u f t]. unfold plus_state; cbn.
  rewrite !Z.add_0_r, app_nil_r. reflexivity.
Qed.

Lemma plus_state_st0_l (a : state) : plus_state st0 a = a.
Proof. destruct a as [u f t]. reflexivity. Qed.

Lemma plus_state_assoc (a b c : state) :
  plus_state a (plus_state b c) = plus_state (plus_state a b) c.
Proof.
  unfold plus_state; cbn. rewrite !Z.add_assoc, app_assoc. reflexivity.
Qed.

Lemma uniform_ret {A} (a : A) : uniform (ret a).
Proof. intros st. unfold ret; cbn. rewrite plus_state_st0_r. reflexivity. Qed.

Lemma uniform_raise {A} (e : exn) : uniform (@raise A e).
Proof. intros st. unfold raise; cbn. rewrite plus_state_st0_r. reflexivity. Qed.

Lemma uniform_lift {A} (r : res A) : uniform (lift r).
Proof. intros st. unfold lift; cbn. rewrite plus_state_st0_r. reflexivity. Qed.

Lemma uniform_emit (e : event) : uniform (emit e).
Proof.
  intros [u f t]. unfold emit, plus_state; cbn.
  rewrite !Z.add_0_r. reflexivity.
Qed.

Lemma uniform_print (m : message) : uniform (print m).
Proof. apply uniform_emit. Qed.

Lemma uniform_incr_updated : uniform incr_updated.
Proof.
  intros [u f t]. unfold incr_updated, plus_state; cbn.
  rewrite Z.add_0_r, app_nil_r. reflexivity.
Qed.

Lemma uniform_incr_failed : uniform incr_failed.
Proof.
  intros [u f t]. unfold incr_failed, plus_state; cbn.
  rewrite Z.add_0_r, app_nil_r. reflexivity.
Qed.

Lemma uniform_bind {A B} (m : M A) (k : A -> M B) :
  uniform m -> (forall a, uniform (k a)) -> uniform (bind m k).
Proof.
  intros Hm Hk st. unfold bind.
  rewrite (Hm st). destruct (m st0) as [[a | e] s1]; cbn.
  - rewrite (Hk a (plus_state st s1)), (Hk a s1). cbn.
    rewrite plus_state_assoc. reflexivity.
  - reflexivity.
Qed.

Lemma uniform_try_except {A} (m : M A) (catches : exn -> bool) (h : exn -> M A) :
  uniform m -> (forall e, uniform (h e)) -> uniform (try_except m catches h).
Proof.
  intros Hm Hh st. unfold try_except.
  rewrite (Hm st). destruct (m st0) as [[a | e] s1]; cbn.
  - reflexivity.
  - destruct (catches e).
    + rewrite (Hh e (plus_state st s1)), (Hh e s1). cbn.
      rewrite plus_state_assoc. reflexivity.
    + reflexivity.
Qed.

Lemma uniform_if {A} (b : bool) (m1 m2 : M A) :
  uniform m1 -> uniform m2 -> uniform (if b then m1 else m2).
Proof. destruct b; auto. Qed.

Create HintDb uniform.
#[export] Hint Resolve uniform_ret uniform_raise uniform_lift uniform_emit
  uniform_print uniform_incr_updated uniform_incr_failed : uniform.

Ltac uniform_step :=
  first [ solve [auto with uniform]
        | apply uniform_bind; [| intros ?]
        | apply uniform_try_except; [| intros ?]
        | apply uniform_if
        | match goal with
          | |- uniform (match ?x with _ => _ end) => destruct x
          end ].

(* ===================================================================== *)
(** ** Counting in lists *)
(* ===================================================================== *)

Fixpoint count {A} (p : A -> bool) (l : list A) : nat :=
  match l with
  | [] => 0
  | x :: l' => (if p x then 1 else 0) + count p l'
  end.

Lemma count_app {A} (p : A -> bool) (l1 l2 : list A) :
  count p (l1 ++ l2) = count p l1 + count p l2.
Proof. induction l1 as [| x l1 IH]; cbn; [reflexivity | rewrite IH; lia]. Qed.

Lemma count_flat_map_perm {A B} (p : B -> bool) (f : A -> list B) (l1 l2 : list A) :
  l1 ≡ₚ l2 -> count p (flat_map f l1) = count p (flat_map f l2).
Proof.
  induction 1 as [| x l1 l2 _ IH | x y l | l1 l2 l3 _ IH1 _ IH2]; cbn.
  - reflexivity.
  - rewrite !count_app, IH. reflexivity.
  - rewrite !count_app. lia.
  - congruence.
Qed.

Lemma count_flat_map {A B} (p : B -> bool) (f : A -> list B) (q : A -> bool) (l : list A) :
  (forall x, x ∈ l -> count p (f x) = if q x then 1 else 0) ->
  count p (flat_map f l) = count q l.
Proof.
  induction l as [| x l IH]; intros H; cbn; [reflexivity |].
  rewrite count_app, H by left. rewrite IH; [reflexivity |].
  intros y Hy. apply H. right. exact Hy.
Qed.

Lemma count_le_1_NoDup {A B} (f : A -> B) (eqb : B -> B -> bool) (l : list A) (b : B) :
  (forall x y, eqb x y = true <-> x = y) ->
  NoDup (map f l) -> count (fun x => eqb (f x) b) l <= 1.
Proof.
  intros Heqb. induction l as [| x l IH]; cbn; intros Hnd; [lia |].
  apply NoDup_cons in Hnd as [Hx Hnd]. specialize (IH Hnd).
  destruct (eqb (f x) b) eqn:E; [| lia].
  apply Heqb in E. subst b.
  assert (count (fun y => eqb (f y) (f x)) l = 0) as ->; [| lia].
  clear IH Hnd. induction l as [| y l IH]; cbn; [reflexivity |].
  destruct (eqb (f y) (f x)) eqn:E.
  - apply Heqb in E. exfalso. apply Hx. cbn. rewrite E. left.
  - cbn. apply IH. intros Hin. apply Hx. right. exact Hin.
Qed.

(** Looking up every position of a list in turn gives the list back. *)
Lemma omap_lookup_seq {A} (l1 l2 : list A) :
  omap (fun k => (l1 ++ l2) !! k) (seq (List.length l1) (List.length l2)) = l2.
Proof.
  revert l1. induction l2 as [| x l2 IH]; intros l1; cbn; [reflexivity |].
  rewrite list_lookup_middle by reflexivity. cbn. f_equal.
  specialize (IH (l1 ++ [x])). rewrite <- app_assoc in IH. cbn in IH.
  rewrite length_app in IH. cbn in IH.
  replace (List.length l1 + 1) with (S (List.length l1)) in IH by lia. exact IH.
Qed.

Lemma omap_lookup_all {A} (l : list A) :
  omap (fun k => l !! k) (seq 0 (List.length l)) = l.
Proof. exact (omap_lookup_seq [] l). Qed.

(* ===================================================================== *)
(** ** The rows to update *)
(* ===================================================================== *)

(** A row is eligible when its update time is empty, the sentinel [-], or
    [None]. *)
Definition eligible (r : row) : bool :=
  match r !! "update_time" with
  | Some v => needs_update v
  | None => false
  end.

Lemma models_to_update_from_spec (i : nat) (rows : list row) (tasks : list (nat * cell)) :
  models_to_update_from i rows = Ok tasks ->
  (forall index model_name,
      (index, model_name) ∈ tasks
      <-> i <= index
          /\ exists r, rows !! (index - i) = Some r
                       /\ eligible r = true /\ r !! "name" = Some model_name)
  /\ NoDup (tasks.*1).
Proof.
  revert i tasks. induction rows as [| r rows IH]; intros i tasks; cbn.
  - intros [= <-]. split; [| constructor].
    intros index model_name. split.
    + intros H. inversion H.
    + intros [_ (r & Hr & _)]. discriminate.
  - unfold row_get, eligible in *.
    destruct (r !! "update_time") as [v |] eqn:Ev; [| discriminate].
    destruct (needs_update v) eqn:En.
    + destruct (r !! "name") as [name |] eqn:Ename; [| discriminate].
      destruct (models_to_update_from (S i) rows) as [l | e] eqn:El; [| discriminate].
      intros [= <-]. destruct (IH (S i) l El) as [Hmem Hnd]. split.
      * intros index model_name. rewrite elem_of_cons, Hmem. split.
        -- intros [[= -> ->] | [Hle (r' & Hr' & He & Hn)]].
           ++ split; [lia |]. exists r. rewrite Nat.sub_diag. cbn.
              rewrite Ev. auto.
           ++ split; [lia |]. exists r'.
              replace (index - i) with (S (index - S i)) by lia. auto.
        -- intros [Hle (r' & Hr' & He & Hn)].
           destruct (decide (index = i)) as [-> | Hne].
           ++ left. rewrite Nat.sub_diag in Hr'. cbn in Hr'. injection Hr' as <-.
              congruence.
           ++ right. split; [lia |]. exists r'.
              replace (index - i) with (S (index - S i)) in Hr' by lia. auto.
      * cbn. apply NoDup_cons. split; [| exact Hnd].
        intros Hin. apply list_elem_of_fmap in Hin as [[index name'] [Heq Hin]].
        cbn in Heq. subst index. apply Hmem in Hin. lia.
    + intros El. destruct (IH (S i) tasks El) as [Hmem Hnd]. split; [| exact Hnd].
      intros index model_name. rewrite Hmem. split.
      * intros [Hle (r' & Hr' & He & Hn)]. split; [lia |]. exists r'.
        replace (index - i) with (S (index - S i)) by lia. auto.
      * intros [Hle (r' & Hr' & He & Hn)].
        destruct (decide (index = i)) as [-> | Hne].
        -- rewrite Nat.sub_diag in Hr'. cbn in Hr'. injection Hr' as <-.
           rewrite Ev, En in He. discriminate.
        -- split; [lia |]. exists r'.
           replace (index - i) with (S (index - S i)) in Hr' by lia. auto.
Qed.

(** The tasks are the eligible rows, each once, with the row's name. *)
Lemma models_to_update_spec (rows : list row) (tasks : list (nat * cell)) :
  models_to_update rows = Ok tasks ->
  (forall index model_name,
      (index, model_name) ∈ tasks
      <-> exists r, rows !! index = Some r
                    /\ eligible r = true /\ r !! "name" = Some model_name)
  /\ NoDup (tasks.*1).
Proof.
  intros H. destruct (models_to_update_from_spec 0 rows tasks H) as [Hmem Hnd].
  split; [| exact Hnd]. intros index model_name. rewrite Hmem.
  rewrite Nat.sub_0_r. split; [intros [_ ?]; auto | intros ?; split; [lia | auto]].
Qed.

(** Reading the table fails only on a row that lacks one of the two
    columns. *)
Lemma models_to_update_total (rows : list row) :
  Forall (fun r : row => is_Some (r !! "update_time") /\ is_Some (r !! "name")) rows ->
  exists tasks, models_to_update rows = Ok tasks.
Proof.
  unfold models_to_update. generalize 0.
  induction rows as [| r rows IH]; intros i H; cbn; [eauto |].
  apply Forall_cons in H as [[[v Hv] [n Hn]] H].
  unfold row_get. rewrite Hv, Hn.
  destruct (IH (S i) H) as [l ->]. destruct (needs_update v); eauto.
Qed.

(* ===================================================================== *)
(** ** The resolver *)
(* ===================================================================== *)

(** The events of the document source: the pacing delay, and the request
    for the page, the one made with a timeout of 15 seconds. *)
Definition document_event (ev : event) : bool :=
  match ev with
  | Sleep _ => true
  | Get _ t => (t =? 15)%Z
  | Print _ => false
  end.

(** The request that starts the processing of the identifier [n]: the one
    to its API address, made with a timeout of 10 seconds. *)
Definition is_api_request (n : string) (ev : event) : bool :=
  match ev with
  | Get url t => String.eqb url (api_url n) && (t =? 10)%Z
  | _ => false
  end.

(** The lines that report the outcome for the identifier [n]: resolved
    through the API or through the page, not found, request failed, or
    an exception in the task. *)
Definition is_outcome (n : string) (ev : event) : bool :=
  match ev with
  | Print (MsgApi m _) | Print (MsgPage m _) | Print (MsgNotFound m)
  | Print (MsgRequestFailed m _) | Print (MsgTaskError m _) => String.eqb m n
  | _ => false
  end.

Lemma api_url_eqb (a b : string) : String.eqb (api_url a) (api_url b) = String.eqb a b.
Proof. reflexivity. Qed.

(** The ways in which fetching the page fails: the request raises one of
    the [requests] exceptions (connection error, timeout), or the status is
    an error status and [raise_for_status] raises [HTTPError]. *)
Inductive page_failure : res response -> exn -> Prop :=
| page_fail_request (e : exn) :
    is_request_exception e = true -> page_failure (Raise e) e
| page_fail_status (r : response) :
    (400 <= status_code r < 600)%Z ->
    page_failure (Ok r) (HTTPError (status_code r)).

Section Resolver.

Variable session_get : string -> Z -> res response.
Variable fromisoformat : string -> option datetime.
Variable BeautifulSoup : string -> res soup.
Variable now : datetime.
Variable delay_range : Z * Z.

Local Abbreviation extract_api := (extract_update_time_from_api session_get fromisoformat).
Local Abbreviation extract_html := (extract_update_time_from_html BeautifulSoup now).
Local Abbreviation fetch :=
  (fetch_model_update_time session_get fromisoformat BeautifulSoup now delay_range).
Local Abbreviation complete_task :=
  (complete session_get fromisoformat BeautifulSoup now delay_range).
Local Abbreviation pool :=
  (run_pool session_get fromisoformat BeautifulSoup now delay_range).

Lemma uniform_get (url : string) (t : Z) : uniform (get session_get url t).
Proof. unfold get. repeat uniform_step. Qed.

Lemma uniform_extract_api (model_name : string) : uniform (extract_api model_name).
Proof.
  pose proof uniform_get.
  unfold extract_update_time_from_api. repeat uniform_step.
Qed.

Lemma uniform_extract_html (html : string) : uniform (extract_html html).
Proof. unfold extract_update_time_from_html. repeat uniform_step. Qed.

Lemma uniform_raise_for_status (r : response) : uniform (raise_for_status r).
Proof. unfold raise_for_status. repeat uniform_step. Qed.

Lemma uniform_fetch (model_name : cell) : uniform (fetch model_name).
Proof.
  pose proof uniform_get. pose proof uniform_extract_api.
  pose proof uniform_raise_for_status. pose proof uniform_extract_html.
  unfold fetch_model_update_time. repeat uniform_step.
Qed.

Lemma uniform_complete (task : nat * cell) (rows : list row) :
  uniform (complete_task task rows).
Proof.
  pose proof uniform_fetch.
  destruct task as [index model_name]. unfold complete. repeat uniform_step.
Qed.

Lemma uniform_pool (tasks : list (nat * cell)) (order : list nat) (rows : list row) :
  uniform (pool tasks order rows).
Proof.
  revert rows. induction order as [| k order IH]; intros rows; cbn.
  - auto with uniform.
  - destruct (tasks !! k) as [task |]; [| apply IH].
    apply uniform_bind; [apply uniform_complete | intros ?; apply IH].
Qed.

(** What a task returns and what it adds to the state, whatever the state
    it starts from. *)
Definition fetch_result (model_name : cell) : res (option string) :=
  fst (fetch model_name st0).

Definition fetch_effect (model_name : cell) : state :=
  snd (fetch model_name st0).

Lemma fetch_eq (model_name : cell) (st : state) :
  fetch model_name st = (fetch_result model_name, plus_state st (fetch_effect model_name)).
Proof. apply uniform_fetch. Qed.

Lemma extract_api_result_indep (model_name : string) (st st' : state) :
  fst (extract_api model_name st) = fst (extract_api model_name st').
Proof.
  rewrite (uniform_extract_api model_name st), (uniform_extract_api model_name st').
  reflexivity.
Qed.

(** C1.  When the structured source yields a date for an identifier,
    [fetch_model_update_time] returns that date, counts one update and
    reports it as found through the API.  The only request made is the one
    to the API: the trace gains no pacing delay and no request for the
    page, so the document source is not invoked on that path. *)
Theorem structured_date_short_circuits (model_name : cell) (date : string) (st : state) :
  fst (extract_api (fstr model_name) st) = Ok (Some date) ->
  exists evs,
    fetch model_name st
    = (Ok (Some date),
       State (updated_count st + 1) (failed_count st) (trace st ++ evs))
    /\ evs = [Get (api_url (fstr model_name)) 10;
              Print (MsgApi (fstr model_name) date)]
    /\ existsb document_event evs = false.
Proof.
  intros H.
  destruct (extract_api_returns session_get fromisoformat (fstr model_name) st)
    as [r [Hr Hd]].
  rewrite Hr in H. cbn in H. injection H as ->.
  destruct (Hd date eq_refl) as [dt ->].
  eexists. split; [| split; [reflexivity | reflexivity]].
  unfold fetch_model_update_time, bind. rewrite Hr.
  cbn [truthy_opt]. rewrite (strftime_truthy dt).
  unfold incr_updated, print, emit, ret, after_api. cbn.
  rewrite <- app_assoc. reflexivity.
Qed.

(** The fall-back path up to the answer of the page request. *)
Lemma fetch_page_failure (model_name : cell) (e : exn) (st : state) :
  fst (extract_api (fstr model_name) st) = Ok None ->
  page_failure (session_get (page_url (fstr model_name)) 15) e ->
  fetch model_name st
  = (Ok None,
     State (updated_count st) (failed_count st + 1)
           (trace st ++ [Get (api_url (fstr model_name)) 10;
                         Sleep delay_range;
                         Get (page_url (fstr model_name)) 15;
                         Print (MsgRequestFailed (fstr model_name) e)])).
Proof.
  intros H Hp.
  destruct (extract_api_returns session_get fromisoformat (fstr model_name) st)
    as [r [Hr _]].
  rewrite Hr in H. cbn in H. injection H as ->.
  unfold fetch_model_update_time, bind at 1. rewrite Hr. cbn [truthy_opt].
  unfold try_except, bind, get, emit, lift, after_api. cbn.
  fold (page_url (fstr model_name)).
  inversion Hp as [e' He Heq | r Hs Heq]; subst.
  - rewrite He. unfold incr_failed, print, emit, ret. cbn.
    rewrite <- !app_assoc. reflexivity.
  - unfold raise_for_status, raise.
    replace ((400 <=? status_code r) && (status_code r <? 600))%Z with true
      by (symmetry; apply andb_true_iff; split; [apply Z.leb_le | apply Z.ltb_lt]; lia).
    cbn. unfold incr_failed, print, emit, ret. cbn.
    rewrite <- !app_assoc. reflexivity.
Qed.

(** *** The pool *)

(** [if update_time: rows[index]['update_time'] = update_time], for what the
    task returned or raised. *)
Definition merge_result (index : nat) (r : res (option string)) (rows : list row)
  : list row :=
  match r with
  | Ok (Some date) => if truthy date then set_update_time index date rows else rows
  | _ => rows
  end.

(** The events of one task and of the handling of its future. *)
Definition task_events (task : nat * cell) : list event :=
  trace (fetch_effect (snd task))
  ++ match fetch_result (snd task) with
     | Raise e => [Print (MsgTaskError (fstr (snd task)) e)]
     | Ok _ => []
     end.

Definition task_effect (task : nat * cell) : state :=
  State (updated_count (fetch_effect (snd task)))
        (failed_count (fetch_effect (snd task)))
        (task_events task).

Lemma complete_eq (task : nat * cell) (rows : list row) (st : state) :
  complete_task task rows st
  = (Ok (merge_result (fst task) (fetch_result (snd task)) rows),
     plus_state st (task_effect task)).
Proof.
  destruct task as [index model_name].
  unfold complete, try_except, bind, task_effect, task_events. cbn [fst snd].
  rewrite fetch_eq.
  destruct (fetch_result model_name) as [[date |] | e]; cbn.
  - rewrite app_nil_r. destruct (truthy date); cbn;
      destruct (fetch_effect model_name); reflexivity.
  - rewrite app_nil_r. destruct (fetch_effect model_name); reflexivity.
  - unfold plus_state; cbn. rewrite app_assoc. reflexivity.
Qed.

(** The tasks in the order in which their futures are handled. *)
Definition processed (tasks : list (nat * cell)) (order : list nat) : list (nat * cell) :=
  omap (fun k => tasks !! k) order.

Definition merge_all (done : list (nat * cell)) (rows : list row) : list row :=
  fold_left (fun rows task => merge_result (fst task) (fetch_result (snd task)) rows)
            done rows.

Definition pool_effect (done : list (nat * cell)) : state :=
  fold_left (fun st task => plus_state st (task_effect task)) done st0.

Lemma fold_plus_state (done : list (nat * cell)) (st : state) :
  fold_left (fun st task => plus_state st (task_effect task)) done st
  = plus_state st (pool_effect done).
Proof.
  unfold pool_effect. revert st.
  induction done as [| t done IH] using rev_ind; intros st; cbn.
  - rewrite plus_state_st0_r. reflexivity.
  - rewrite !fold_left_app. cbn. rewrite IH, plus_state_assoc. reflexivity.
Qed.

Lemma pool_eq (tasks : list (nat * cell)) (order : list nat) (rows : list row) (st : state) :
  pool tasks order rows st
  = (Ok (merge_all (processed tasks order) rows),
     plus_state st (pool_effect (processed tasks order))).
Proof.
  revert rows st. induction order as [| k order IH]; intros rows st; cbn.
  - unfold ret. rewrite plus_state_st0_r. reflexivity.
  - unfold processed. cbn. destruct (tasks !! k) as [task |] eqn:Ek; cbn.
    + unfold bind. rewrite complete_eq, IH.
      fold (processed tasks order). rewrite plus_state_st0_l.
      rewrite fold_plus_state, plus_state_assoc. reflexivity.
    + apply IH.
Qed.

Lemma pool_effect_trace (done : list (nat * cell)) :
  trace (pool_effect done) = flat_map task_events done.
Proof.
  induction done as [| t done IH] using rev_ind; [reflexivity |].
  unfold pool_effect in *. rewrite fold_left_app. cbn.
  rewrite IH, flat_map_app. cbn. rewrite app_nil_r. reflexivity.
Qed.

Lemma length_merge_result (index : nat) (r : res (option string)) (rows : list row) :
  List.length (merge_result index r rows) = List.length rows.
Proof.
  unfold merge_result, set_update_time.
  destruct r as [[date |] | e]; try reflexivity.
  destruct (truthy date); [apply length_alter | reflexivity].
Qed.

Lemma length_merge_all (done : list (nat * cell)) (rows : list row) :
  List.length (merge_all done rows) = List.length rows.
Proof.
  unfold merge_all. revert rows.
  induction done as [| t done IH]; intros rows; cbn; [reflexivity |].
  rewrite IH. apply length_merge_result.
Qed.

(** A row after one merge: as it was, or with the date of its own task. *)
Lemma merge_result_lookup (index : nat) (r : res (option string)) (rows : list row) (i : nat) :
  merge_result index r rows !! i = rows !! i
  \/ exists date, i = index /\ r = Ok (Some date) /\ truthy date = true
       /\ merge_result index r rows !! i
          = (fun x : row => <["update_time" := CStr date]> x) <$> rows !! i.
Proof.
  unfold merge_result, set_update_time.
  destruct r as [[date |] | e]; auto.
  destruct (truthy date) eqn:Et; auto.
  destruct (decide (index = i)) as [-> | Hne].
  - right. exists date. rewrite list_lookup_alter_eq. auto.
  - left. apply list_lookup_alter_ne, Hne.
Qed.

(** A row after the whole pool: as it was, or with the date that a task of
    its own index resolved. *)
Lemma merge_all_lookup (done : list (nat * cell)) (rows : list row) (i : nat) :
  merge_all done rows !! i = rows !! i
  \/ exists model_name date r,
       (i, model_name) ∈ done
       /\ fetch_result model_name = Ok (Some date) /\ truthy date = true
       /\ rows !! i = Some r
       /\ merge_all done rows !! i = Some (<["update_time" := CStr date]> r).
Proof.
  unfold merge_all. revert rows.
  induction done as [| [index model_name] done IH]; intros rows; cbn; [auto |].
  destruct (IH (merge_result index (fetch_result model_name) rows))
    as [Hsame | (n & date & r & Hin & Hres & Ht & Hr & Hfinal)].
  - rewrite Hsame.
    destruct (merge_result_lookup index (fetch_result model_name) rows i)
      as [Heq | (date & -> & Hres & Ht & Heq)]; [auto |].
    destruct (rows !! index) as [r |] eqn:Er.
    + right. exists model_name, date, r.
      split; [left |]. rewrite Heq. auto.
    + left. rewrite Heq. reflexivity.
  - right.
    destruct (merge_result_lookup index (fetch_result model_name) rows i)
      as [Heq | (date0 & -> & Hres0 & Ht0 & Heq)].
    + exists n, date, r. rewrite <- Heq, Hfinal.
      split; [right; exact Hin | auto].
    + rewrite Heq in Hr. destruct (rows !! index) as [r0 |] eqn:Er; [| discriminate].
      cbn in Hr. injection Hr as <-.
      rewrite insert_insert_eq in Hfinal.
      exists n, date, r0. split; [right; exact Hin | auto].
Qed.

(** *** What one task leaves in the trace *)

Lemma extract_html_returns (html : string) (st : state) :
  exists r evs,
    extract_html html st
    = (Ok r, State (updated_count st) (failed_count st) (trace st ++ evs))
    /\ (evs = [] \/ exists e, evs = [Print (MsgHtmlError e)]).
Proof.
  unfold extract_update_time_from_html, try_except, lift, bind, print, emit, ret.
  destruct (extract_body BeautifulSoup now html) as [r | e]; cbn.
  - exists r, []. rewrite app_nil_r. destruct st; cbn. auto.
  - exists None, [Print (MsgHtmlError e)]. eauto.
Qed.

(** The three shapes of a task's trace: resolved through the API; the
    fall-back path ending in one report; the fall-back path cut short by an
    exception that is not a [requests] one. *)
Lemma fetch_st0_cases (model_name : cell) :
  exists res u f evs,
    fetch model_name st0 = (res, State u f (Get (api_url (fstr model_name)) 10 :: evs))
    /\ ((exists date v, evs = [Print (MsgApi (fstr model_name) date)] /\ res = Ok v)
        \/ (exists mid m v,
               evs = Sleep delay_range :: Get (page_url (fstr model_name)) 15
                                       :: mid ++ [Print m]
               /\ is_outcome (fstr model_name) (Print m) = true
               /\ (mid = [] \/ exists e, mid = [Print (MsgHtmlError e)])
               /\ res = Ok v)
        \/ (exists e, evs = [Sleep delay_range; Get (page_url (fstr model_name)) 15]
                      /\ res = Raise e)).
Proof.
  destruct (extract_api_returns session_get fromisoformat (fstr model_name) st0)
    as [r [Hr _]].
  unfold fetch_model_update_time, bind. rewrite Hr.
  destruct (truthy_opt r).
  { cbn. do 4 eexists. split; [reflexivity |]. left. eauto. }
  unfold try_except, get, bind, emit, lift, after_api. cbn.
  fold (page_url (fstr model_name)).
  destruct (session_get (page_url (fstr model_name)) 15) as [resp | e].
  2: { destruct (is_request_exception e); cbn.
       - do 4 eexists. split; [reflexivity |]. right; left.
         exists [], (MsgRequestFailed (fstr model_name) e). cbn.
         rewrite String.eqb_refl. eauto 10.
       - do 4 eexists. split; [reflexivity |]. right; right. eauto. }
  unfold raise_for_status.
  destruct ((400 <=? status_code resp) && (status_code resp <? 600))%Z; cbn.
  { do 4 eexists. split; [reflexivity |]. right; left.
    exists [], (MsgRequestFailed (fstr model_name) (HTTPError (status_code resp))).
    cbn. rewrite String.eqb_refl. eauto 10. }
  match goal with
  | |- context [extract_html ?h ?s] =>
      destruct (extract_html_returns h s) as (r' & evs & -> & Hevs)
  end.
  cbn. destruct (truthy_opt r'); cbn.
  - do 4 eexists. split; [reflexivity |]. right; left.
    exists evs, (MsgPage (fstr model_name) (default EmptyString r')). cbn.
    rewrite String.eqb_refl. eauto 10.
  - do 4 eexists. split; [reflexivity |]. right; left.
    exists evs, (MsgNotFound (fstr model_name)). cbn.
    rewrite String.eqb_refl. eauto 10.
Qed.

Lemma is_outcome_name (n m : string) (msg : message) :
  is_outcome n (Print msg) = true -> is_outcome m (Print msg) = String.eqb n m.
Proof.
  destruct msg; cbn; try discriminate;
    intros H; apply String.eqb_eq in H; subst; reflexivity.
Qed.

Lemma task_events_count (task : nat * cell) (n : string) :
  count (is_api_request n) (task_events task)
  = (if String.eqb (fstr (snd task)) n then 1 else 0)
  /\ count (is_outcome n) (task_events task)
     = (if String.eqb (fstr (snd task)) n then 1 else 0).
Proof.
  destruct task as [index model_name].
  unfold task_events, fetch_effect, fetch_result. cbn [snd].
  destruct (fetch_st0_cases model_name) as (res & u & f & evs & -> & Hc).
  cbn [fst snd trace].
  destruct Hc as [(date & v & -> & ->) | [(mid & m & v & -> & Hm & Hmid & ->) | (e & -> & ->)]].
  - cbn. rewrite api_url_eqb.
    destruct (String.eqb (fstr model_name) n); auto.
  - rewrite app_nil_r.
    change (Get (api_url (fstr model_name)) 10
              :: Sleep delay_range :: Get (page_url (fstr model_name)) 15
              :: mid ++ [Print m])
      with ([Get (api_url (fstr model_name)) 10; Sleep delay_range;
             Get (page_url (fstr model_name)) 15] ++ mid ++ [Print m]).
    rewrite !count_app.
    assert (count (is_api_request n) mid = 0 /\ count (is_outcome n) mid = 0) as [-> ->]
      by (destruct Hmid as [-> | [e ->]]; auto).
    cbn [count is_api_request]. rewrite (is_outcome_name _ n _ Hm), api_url_eqb.
    cbn. rewrite andb_false_r. destruct (String.eqb (fstr model_name) n); auto.
  - cbn. rewrite api_url_eqb, andb_false_r.
    destruct (String.eqb (fstr model_name) n); auto.
Qed.

(** The whole method, once the table has been read. *)
Lemma update_csv_file_eq (order : list nat) (rows : list row) (tasks : list (nat * cell))
      (st : state) :
  models_to_update rows = Ok tasks ->
  exists u f,
    update_csv_file session_get fromisoformat BeautifulSoup now delay_range order rows st
    = (Ok (merge_all (processed tasks order) rows),
       State u f
             (trace st
              ++ Print (MsgToUpdate (List.length tasks))
                 :: flat_map task_events (processed tasks order)
              ++ [Print (MsgSummary u f)])).
Proof.
  intros H. unfold update_csv_file, bind at 1, lift. rewrite H.
  unfold bind at 1, print, emit. cbn [fst snd].
  unfold bind at 1. rewrite pool_eq.
  unfold bind at 1. cbn [fst snd]. unfold bind, ret, plus_state. cbn.
  rewrite pool_effect_trace. do 2 eexists.
  rewrite <- !app_assoc. cbn. reflexivity.
Qed.

(** *** The table after the run *)

(** The date of the Resolved outcome of an identifier: the task returned a
    non-empty string. *)
Definition resolved_date (model_name : cell) : option string :=
  match fetch_result model_name with
  | Ok (Some date) => if truthy date then Some date else None
  | _ => None
  end.

Lemma update_csv_file_rows (order : list nat) (rows rows' : list row) (st st' : state) :
  update_csv_file session_get fromisoformat BeautifulSoup now delay_range order rows st
  = (Ok rows', st') ->
  exists tasks,
    models_to_update rows = Ok tasks
    /\ rows' = merge_all (processed tasks order) rows.
Proof.
  intros H. destruct (models_to_update rows) as [tasks | e] eqn:Et.
  - destruct (update_csv_file_eq order rows tasks st Et) as (u & f & Heq).
    rewrite Heq in H. injection H as <- _. eauto.
  - unfold update_csv_file, bind, lift in H. rewrite Et in H. discriminate.
Qed.

(** A row after the run is the row before it, unless the row is eligible
    and the outcome of its identifier is Resolved; then it may carry that
    date in its update time. *)
Lemma merged_row (tasks : list (nat * cell)) (order : list nat) (rows : list row)
      (i : nat) (r : row) :
  models_to_update rows = Ok tasks ->
  rows !! i = Some r ->
  merge_all (processed tasks order) rows !! i = Some r
  \/ exists model_name date,
       eligible r = true /\ r !! "name" = Some model_name
       /\ resolved_date model_name = Some date
       /\ merge_all (processed tasks order) rows !! i
          = Some (<["update_time" := CStr date]> r).
Proof.
  intros Ht Hr.
  destruct (merge_all_lookup (processed tasks order) rows i)
    as [Hsame | (n & date & r0 & Hin & Hres & Htr & Hr0 & Hfinal)].
  - left. congruence.
  - right. rewrite Hr in Hr0. injection Hr0 as <-.
    apply list_elem_of_omap in Hin as (k & _ & Hk).
    apply list_elem_of_lookup_2 in Hk.
    apply (models_to_update_spec rows tasks Ht) in Hk as (r1 & Hr1 & He & Hn).
    rewrite Hr in Hr1. injection Hr1 as <-.
    exists n, date. unfold resolved_date. rewrite Hres, Htr. auto.
Qed.

Lemma not_eligible (r : row) (s : string) :
  r !! "update_time" = Some (CStr s) -> s <> EmptyString -> s <> "-" ->
  eligible r = false.
Proof.
  intros Hs Hne Hd. unfold eligible. rewrite Hs. cbn.
  apply orb_false_iff. split.
  - apply String.eqb_neq, Hd.
  - destruct s; [congruence | reflexivity].
Qed.

(** C3.  After [update_csv_file] the table has the rows it had, and each
    row is either what it was or what it was with its update time
    overwritten by the date of the Resolved outcome of its own identifier,
    which happens only to a row that was eligible.  So a row whose update
    time was a non-empty string other than [-] is the same after the merge
    whatever the outcomes are, and a row whose identifier has no Resolved
    outcome (not found, failed, exception) is the same as well. *)
Theorem merge_overwrites_only_resolved
        (order : list nat) (rows rows' : list row) (st st' : state) :
  update_csv_file session_get fromisoformat BeautifulSoup now delay_range order rows st
  = (Ok rows', st') ->
  List.length rows' = List.length rows
  /\ forall i r,
      rows !! i = Some r ->
      exists r',
        rows' !! i = Some r'
        /\ (r' = r
            \/ exists model_name date,
                 eligible r = true /\ r !! "name" = Some model_name
                 /\ resolved_date model_name = Some date
                 /\ r' = <["update_time" := CStr date]> r)
        /\ (forall s, r !! "update_time" = Some (CStr s) ->
                      s <> EmptyString -> s <> "-" -> r' = r)
        /\ (forall model_name, r !! "name" = Some model_name ->
                               resolved_date model_name = None -> r' = r).
Proof.
  intros H. destruct (update_csv_file_rows _ _ _ _ _ H) as (tasks & Ht & ->).
  split; [apply length_merge_all |].
  intros i r Hr.
  destruct (merged_row tasks order rows i r Ht Hr)
    as [Hsame | (n & date & He & Hn & Hd & Hfinal)].
  - exists r. repeat split; auto.
  - eexists. split; [exact Hfinal |]. split; [| split].
    + right. eauto 10.
    + intros s Hs Hne Hds. rewrite (not_eligible r s Hs Hne Hds) in He. discriminate.
    + intros m Hm Hnone. congruence.
Qed.

(** C9.  When the structured source gives nothing for an identifier and
    fetching its page fails (the request raises a [requests] exception such
    as a connection error or a timeout, or the status is an error status),
    [fetch_model_update_time] returns [None] after reporting the failed
    request, the failure counter has grown by exactly one and the update
    counter is unchanged; handling the task's future leaves the table as it
    is; and in the table that [update_csv_file] returns, a row of that
    identifier is unchanged. *)
Theorem failed_page_fetch_counts_once (model_name : cell) (e : exn) (st : state) :
  fst (extract_api (fstr model_name) st) = Ok None ->
  page_failure (session_get (page_url (fstr model_name)) 15) e ->
  let st_failed :=
    State (updated_count st) (failed_count st + 1)
          (trace st ++ [Get (api_url (fstr model_name)) 10;
                        Sleep delay_range;
                        Get (page_url (fstr model_name)) 15;
                        Print (MsgRequestFailed (fstr model_name) e)]) in
  fetch model_name st = (Ok None, st_failed)
  /\ (forall index rows, complete_task (index, model_name) rows st = (Ok rows, st_failed))
  /\ (forall order rows rows' st1 st1' index r,
         update_csv_file session_get fromisoformat BeautifulSoup now delay_range
                         order rows st1 = (Ok rows', st1') ->
         rows !! index = Some r ->
         r !! "name" = Some model_name ->
         rows' !! index = Some r).
Proof.
  intros Hapi Hpage st_failed.
  pose proof (fetch_page_failure model_name e st Hapi Hpage) as Hfetch.
  fold st_failed in Hfetch.
  split; [exact Hfetch | split].
  - intros index rows. unfold complete, try_except, bind. rewrite Hfetch. reflexivity.
  - intros order rows rows' st1 st1' index r H Hr Hn.
    destruct (update_csv_file_rows _ _ _ _ _ H) as (tasks & Ht & ->).
    destruct (merged_row tasks order rows index r Ht Hr)
      as [Hsame | (n & date & He & Hn' & Hd & Hfinal)]; [exact Hsame |].
    exfalso. rewrite Hn in Hn'. injection Hn' as <-.
    unfold resolved_date in Hd. rewrite fetch_eq in Hfetch.
    injection Hfetch as Hres _. rewrite Hres in Hd. discriminate.
Qed.

(** C2, as the code has it.  The tasks of a run are the eligible rows: each
    eligible row is submitted once, under its own index, and no other row
    is.  When the futures complete in any order, the method returns, every
    task has made exactly one request to the API and has been given exactly
    one outcome line; so an identifier is processed as many times as there
    are eligible rows that carry it, and once at most when the identifiers
    of the eligible rows are pairwise distinct. *)
Theorem one_outcome_per_eligible_row
        (order : list nat) (rows : list row) (tasks : list (nat * cell)) (st : state) :
  models_to_update rows = Ok tasks ->
  order ≡ₚ seq 0 (List.length tasks) ->
  NoDup (tasks.*1)
  /\ (forall index model_name,
         (index, model_name) ∈ tasks
         <-> exists r, rows !! index = Some r
                       /\ eligible r = true /\ r !! "name" = Some model_name)
  /\ exists rows' st' evs,
      update_csv_file session_get fromisoformat BeautifulSoup now delay_range
                      order rows st = (Ok rows', st')
      /\ trace st' = trace st ++ evs
      /\ forall n,
          let carried := count (fun task => String.eqb (fstr (snd task)) n) tasks in
          count (is_api_request n) evs = carried
          /\ count (is_outcome n) evs = carried
          /\ (NoDup (map (fun task => fstr (snd task)) tasks) -> carried <= 1).
Proof.
  intros Ht Hperm.
  destruct (models_to_update_spec rows tasks Ht) as [Hmem Hnd].
  split; [exact Hnd | split; [exact Hmem |]].
  destruct (update_csv_file_eq order rows tasks st Ht) as (u & f & Heq).
  do 3 eexists. split; [exact Heq | split; [reflexivity |]].
  intros n carried.
  assert (processed tasks order ≡ₚ tasks) as Hp.
  { unfold processed. rewrite Hperm. rewrite omap_lookup_all. reflexivity. }
  assert (forall p : event -> bool,
             (forall m, p (Print (MsgToUpdate m)) = false) ->
             (forall a b, p (Print (MsgSummary a b)) = false) ->
             count p (Print (MsgToUpdate (List.length tasks))
                        :: flat_map task_events (processed tasks order)
                        ++ [Print (MsgSummary u f)])
             = count p (flat_map task_events tasks)) as Hcount.
  { intros p H1 H2. cbn [count]. rewrite H1, count_app. cbn [count].
    rewrite H2, (count_flat_map_perm p task_events _ _ Hp). lia. }
  split; [| split].
  - rewrite Hcount by reflexivity.
    apply count_flat_map. intros t _. apply task_events_count.
  - rewrite Hcount by reflexivity.
    apply count_flat_map. intros t _. apply task_events_count.
  - intros Hnames. unfold carried.
    apply (count_le_1_NoDup (fun task => fstr (snd task)) String.eqb tasks n);
      [apply String.eqb_eq | exact Hnames].
Qed.

End Resolver.

(* ===================================================================== *)
(** ** The document extractor on given documents *)
(* ===================================================================== *)

(** The parse of a document without markup: one string, the text itself. *)
Definition plain_text (html : string) : res soup := Ok [NavigableString html].

Lemma extract_html_of_body (BeautifulSoup : string -> res soup) (now : datetime)
      (html : string) (r : option string) (st : state) :
  extract_body BeautifulSoup now html = Ok r ->
  extract_update_time_from_html BeautifulSoup now html st = (Ok r, st).
Proof.
  intros H. unfold extract_update_time_from_html, try_except, lift. rewrite H.
  reflexivity.
Qed.

(** The second pattern of the first method keeps the word [ago] out of
    its group, so the test [if 'ago' in date_str.lower()] fails on what the
    pattern captures from a phrase like this one. *)
Example relative_phrase_group :
  option_map group1
    (search true (nth 1 keyword_patterns Eps) "Updated about 10 hours ago")
  = Some (Some "10 hours")
  /\ contains "ago" (lower "10 hours") = false.
Proof. split; vm_compute; reflexivity. Qed.

(** C4 (the code at the failing input).  For the document
    "Updated about 10 hours ago", parsed as one string, the extractor
    returns [None] whatever the current date is: the phrase is matched, but
    no branch of the first method accepts the captured text, and nothing
    else in the document parses as a date. *)
Theorem relative_phrase_not_resolved
        (BeautifulSoup : string -> res soup) (now : datetime) (st : state) :
  BeautifulSoup "Updated about 10 hours ago"
  = Ok [NavigableString "Updated about 10 hours ago"] ->
  extract_update_time_from_html BeautifulSoup now "Updated about 10 hours ago" st
  = (Ok None, st).
Proof.
  intros H. apply extract_html_of_body.
  unfold extract_body. rewrite H. vm_compute. reflexivity.
Qed.

(* ===================================================================== *)
(** ** [strptime] on the text that the extractor builds *)
(* ===================================================================== *)

Arguments digit : simpl never.

(** The canonical text of the date [y]-[m]-[d]. *)
Definition iso_text (y m d : Z) : string :=
  pad4 y +:+ "-" +:+ pad2 m +:+ "-" +:+ pad2 d.

Lemma make_strftime (y m d : Z) :
  (1000 <= y)%Z ->
  check_date_fields y m d = true ->
  option_map strftime (make y m d) = Some (iso_text y m d).
Proof.
  intros Hy H. unfold make.
  generalize (eq_refl (check_date_fields y m d)).
  generalize (check_date_fields y m d) at 2 3.
  intros [|] e; [| congruence].
  cbn [option_map]. f_equal.
  exact (strftime_four_digits (Datetime y m d e) Hy).
Qed.

Ltac digit_cases n :=
  unfold digit;
  let Hb := fresh in
  pose proof (Z.mod_pos_bound n 10 ltac:(lia)) as Hb;
  let k := fresh "k" in
  let Hk := fresh in
  remember (n mod 10)%Z as k eqn:Hk; clear Hk;
  let Hc := fresh in
  assert (k = 0 \/ k = 1 \/ k = 2 \/ k = 3 \/ k = 4 \/ k = 5 \/ k = 6
          \/ k = 7 \/ k = 8 \/ k = 9)%Z as Hc by lia;
  repeat (destruct Hc as [-> | Hc]; [vm_compute; reflexivity |]);
  subst k; vm_compute; reflexivity.

Lemma digit_not_space (n : Z) : in_set true Space (digit n) = false.
Proof. digit_cases n. Qed.

Lemma digit_in_digits (n : Z) : in_set true Digit (digit n) = true.
Proof. digit_cases n. Qed.

Lemma digit_value (n : Z) : (Z.of_N (code (digit n)) - 48 = n mod 10)%Z.
Proof.
  unfold digit.
  pose proof (Z.mod_pos_bound n 10 ltac:(lia)) as Hb.
  remember (n mod 10)%Z as k eqn:Hk. clear Hk.
  assert (k = 0 \/ k = 1 \/ k = 2 \/ k = 3 \/ k = 4 \/ k = 5 \/ k = 6
          \/ k = 7 \/ k = 8 \/ k = 9)%Z as Hc by lia.
  repeat (destruct Hc as [-> | Hc]; [reflexivity |]). subst k. reflexivity.
Qed.

Lemma int_pad4 (y : Z) : (0 <= y <= 9999)%Z -> int (pad4 y) = y.
Proof.
  intros Hy. unfold int, pad4, pad2. cbn [int_acc].
  rewrite !is_digit_digit, !digit_value.
  pose proof (Z.div_mod y 10 ltac:(lia)).
  pose proof (Z.div_mod (y / 10) 10 ltac:(lia)).
  pose proof (Z.div_mod (y / 100) 10 ltac:(lia)).
  pose proof (Z.div_mod (y / 1000) 10 ltac:(lia)).
  assert (y / 100 = y / 10 / 10)%Z by (rewrite Z.div_div by lia; reflexivity).
  assert (y / 1000 = y / 100 / 10)%Z by (rewrite Z.div_div by lia; reflexivity).
  assert (y / 1000 / 10 = 0)%Z
    by (rewrite Z.div_div by lia; apply Z.div_small; lia).
  lia.
Qed.

(** The month names as the site writes them, with their numbers. *)
Definition month_table : list (string * Z) :=
  [("Jan", 1); ("Feb", 2); ("Mar", 3); ("Apr", 4); ("May", 5); ("Jun", 6);
   ("Jul", 7); ("Aug", 8); ("Sep", 9); ("Oct", 10); ("Nov", 11); ("Dec", 12)]%Z.

(** What [%b] does with the name [mon] at the start of the text: it is
    matched and captured, and it is the month number [m]. *)
Definition month_fact (mon : string) (m : Z) : Prop :=
  String.length mon = 3
  /\ index_from 1 (lower mon) month_abbr = Some m
  /\ forall (k : nat -> string -> caps -> option found) rest c x,
      k 3 rest ((g_b, mon) :: c) = Some x ->
      exec true re_b 0 (mon +:+ rest) c k = Some x.

(** What [\s+%d] does with the day [d], written without padding between
    two spaces, after the month name. *)
Definition day_fact (d : Z) : Prop :=
  int (str_int d) = d
  /\ forall (k : nat -> string -> caps -> option found) rest c x,
      k (4 + String.length (str_int d)) (String " " rest) ((g_d, str_int d) :: c)
      = Some x ->
      exec true (Cat ws re_d) 3 (String " " (str_int d +:+ String " " rest)) c k
      = Some x.

Ltac table_fact :=
  let k := fresh "k" in
  let H := fresh "H" in
  repeat split;
  intros k ? ? ? H; vm_compute; vm_compute in H; rewrite H; reflexivity.

Lemma months_ok : Forall (fun p => month_fact (fst p) (snd p)) month_table.
Proof. repeat (constructor; [table_fact |]). constructor. Qed.

Lemma days_ok : Forall day_fact (seqZ 1 31).
Proof.
  change (seqZ 1 31) with
    [1; 2; 3; 4; 5; 6; 7; 8; 9; 10; 11; 12; 13; 14; 15; 16; 17; 18; 19; 20;
     21; 22; 23; 24; 25; 26; 27; 28; 29; 30; 31]%Z.
  repeat (constructor; [table_fact |]). constructor.
Qed.

Lemma year_suffix (i : nat) (y : Z) (c : caps) :
  exec true (Cat ws re_Y) i (String " " (pad4 y)) c (accept 0)
  = Some (Found 0 (i + 5) EmptyString ((g_Y, pad4 y) :: c)).
Proof.
  unfold pad4, pad2.
  cbn -[in_set digit Nat.sub].
  change (in_set true Space " ") with true. cbn -[in_set digit Nat.sub].
  rewrite !digit_not_space, !digit_in_digits.
  replace (S (S (S (S (S i)))) - S i) with 4 by lia.
  replace (S (S (S (S (S i))))) with (i + 5) by lia.
  reflexivity.
Qed.

(** [strptime] with "%b %d %Y" on a month name, a day and a four-digit
    year: the date with these fields, if there is one. *)
Lemma strptime_b_d_Y_text (mon : string) (m d y : Z) :
  month_fact mon m -> day_fact d -> (1000 <= y <= 9999)%Z ->
  strptime fmt_b_d_Y (mon +:+ " " +:+ str_int d +:+ " " +:+ str_int y)
  = make y m d.
Proof.
  intros (Hlen & Hidx & Hmon) (Hint & Hday) Hy.
  rewrite (str_int_year y Hy).
  change (mon +:+ " " +:+ str_int d +:+ " " +:+ pad4 y)
    with (mon +:+ String " " (str_int d +:+ String " " (pad4 y))).
  unfold strptime, rmatch.
  change (exec true fmt_b_d_Y 0 ?s [] (accept 0))
    with (exec true re_b 0 s []
            (fun i1 s1 c1 =>
               exec true (Cat ws re_d) i1 s1 c1
                    (fun i2 s2 c2 => exec true (Cat ws re_Y) i2 s2 c2 (accept 0)))).
  erewrite Hmon; [| apply Hday, year_suffix].
  cbn [m_end m_caps month_of group Nat.eqb g_b g_d g_Y g_m].
  rewrite !length_app_str. cbn [String.length]. rewrite !length_app_str.
  cbn [String.length]. rewrite Hlen.
  replace (3 + S (String.length (str_int d) + S (String.length (pad4 y))))
    with (4 + String.length (str_int d) + 5) by (cbn; lia).
  rewrite Nat.eqb_refl. cbn [negb].
  rewrite Hidx, Hint, int_pad4 by lia. reflexivity.
Qed.

Lemma app_assoc_str (a b c : string) : (a +:+ b) +:+ c = a +:+ (b +:+ c).
Proof.
  induction a as [| x a IH]; [reflexivity |].
  change (String x ((a +:+ b) +:+ c) = String x (a +:+ (b +:+ c))).
  rewrite IH. reflexivity.
Qed.

(* ===================================================================== *)
(** ** Month and day without a year *)
(* ===================================================================== *)

(** "Mon D" and "Updated Mon D", the day written without padding. *)
Definition bare_phrase (mon : string) (d : Z) : string :=
  mon +:+ " " +:+ str_int d.

Definition keyword_phrase (mon : string) (d : Z) : string :=
  "Updated " +:+ bare_phrase mon d.

(** The steps of the first method on "Updated Mon D" that do not look at
    the clock: the text is found by the keyword search, it is already
    stripped, the first pattern captures "Mon D", and the captured text
    takes the branch of a month and a day without a year. *)
Definition keyword_steps (mon : string) (d : Z) : bool :=
  let html := keyword_phrase mon d in
  bool_decide (find_all_string re_keyword [NavigableString html] = [html])
  && bool_decide (strip html = html)
  && bool_decide (option_map group1 (search true (nth 0 keyword_patterns Eps) html)
                  = Some (Some (bare_phrase mon d)))
  && matches (anchored mon_dd) (bare_phrase mon d).

(** The steps of the three methods on "Mon D" that do not look at the
    clock: no keyword, no ISO date, no date with a year, one match of the
    month-and-day shape, which takes the branch of that shape. *)
Definition scan_steps (mon : string) (d : Z) : bool :=
  let html := bare_phrase mon d in
  bool_decide (find_all_string re_keyword [NavigableString html] = [])
  && bool_decide (findall (Group 1 iso) html = [])
  && bool_decide (findall (Group 1 mon_dd_yyyy) html = [])
  && bool_decide (findall (Group 1 mon_dd) html = [html])
  && negb (matches (anchored iso) html)
  && negb (matches (anchored mon_dd_yyyy) html)
  && matches (anchored mon_dd) html.

Lemma steps_ok :
  forallb (fun p => forallb (fun d => keyword_steps (fst p) d && scan_steps (fst p) d)
                            (seqZ 1 31))
          month_table = true.
Proof. vm_compute. reflexivity. Qed.

Section MonthAndDay.

Variable BeautifulSoup : string -> res soup.
Variable now : datetime.



(** The branch of a month and a day without a year, in both methods: the
    date of the current year. *)
Lemma current_year_date (mon : string) (m d : Z) :
  month_fact mon m -> day_fact d ->
  (1 <= m <= 12)%Z ->
  (1 <= d <= days_in_month (year now) m)%Z ->
  (1000 <= year now)%Z ->
  match strptime fmt_b_d_Y (bare_phrase mon d +:+ " " +:+ str_int (year now)) with
  | Some parsed => Ok (Some (strftime parsed))
  | None => Ok None
  end = @Ok (option string) (Some (iso_text (year now) m d)).
Proof.
  intros Hmon Hday Hm Hd Hy. pose proof (year_range now) as Hr.
  unfold bare_phrase. rewrite !app_assoc_str.
  rewrite (strptime_b_d_Y_text mon m d (year now) Hmon Hday) by lia.
  assert (check_date_fields (year now) m d = true) as Hc.
  { unfold check_date_fields. repeat (apply andb_true_iff; split); lia. }
  pose proof (make_strftime _ _ _ Hy Hc) as Hs.
  destruct (make (year now) m d); cbn in Hs; [| discriminate].
  f_equal. exact Hs.
Qed.

Lemma table_facts (mon : string) (m d : Z) :
  (mon, m) ∈ month_table ->
  (1 <= d <= 31)%Z ->
  month_fact mon m /\ day_fact d /\ (1 <= m <= 12)%Z
  /\ keyword_steps mon d = true /\ scan_steps mon d = true.
Proof.
  intros Hin Hd.
  assert (d ∈ seqZ 1 31) as Hd' by (apply elem_of_seqZ; lia).
  pose proof months_ok as Hm. rewrite Forall_forall in Hm.
  pose proof days_ok as Hds. rewrite Forall_forall in Hds.
  pose proof steps_ok as Hs. rewrite forallb_forall in Hs.
  specialize (Hs _ (proj1 (list_elem_of_In _ _) Hin)). cbn [fst] in Hs.
  rewrite forallb_forall in Hs.
  specialize (Hs _ (proj1 (list_elem_of_In _ _) Hd')).
  apply andb_true_iff in Hs as [Hk Hsc].
  split; [exact (Hm _ Hin) | split; [exact (Hds _ Hd') |]].
  split; [| auto].
  unfold month_table in Hin.
  clear - Hin. unfold month_table in Hin.
  repeat (apply elem_of_cons in Hin as [Hin | Hin];
          [injection Hin as _ ->; lia |]).
  inversion Hin.
Qed.


End MonthAndDay.

(* ===================================================================== *)
(** ** The order of the heuristics *)
(* ===================================================================== *)



Lemma app_str_not_empty (w : string) (c : ascii) (s : string) :
  w +:+ String c s <> EmptyString.
Proof. destruct w; discriminate. Qed.

(** [rstrip] stops at a character that is not white space. *)
Lemma rstrip_app_nonspace (w : string) (c : ascii) (s : string) :
  is_space c = false ->
  rstrip (w +:+ String c s) = w +:+ String c (rstrip s).
Proof.
  intros Hc. induction w as [| a w IH].
  - change (rstrip (String c s) = String c (rstrip s)).
    cbn [rstrip]. rewrite Hc. destruct (rstrip s); reflexivity.
  - change (rstrip (String a (w +:+ String c s)) = String a (w +:+ String c (rstrip s))).
    cbn [rstrip]. rewrite IH.
    destruct (w +:+ String c (rstrip s)) eqn:E; [| reflexivity].
    exfalso. exact (app_str_not_empty _ _ _ E).
Qed.

Section Priority.

Variable BeautifulSoup : string -> res soup.
Variable now : datetime.


End Priority.

(* ===================================================================== *)
(** ** What a match can be *)
(* ===================================================================== *)

Fixpoint concat_str (ws : list string) : string :=
  match ws with
  | [] => EmptyString
  | w :: ws' => w +:+ concat_str ws'
  end.

(** The texts that an expression can match, read off its syntax.  The
    anchors match the empty text; where they stand is not recorded. *)
Fixpoint denotes (icase : bool) (r : regex) (w : string) : Prop :=
  match r with
  | Eps | Bol | Eol => w = EmptyString
  | Lit p => exists a, w = String a EmptyString /\ lit_eq icase p a = true
  | Set_ cs => exists a, w = String a EmptyString /\ in_set icase cs a = true
  | Cat r1 r2 =>
      exists w1 w2, w = w1 +:+ w2 /\ denotes icase r1 w1 /\ denotes icase r2 w2
  | Alt r1 r2 => denotes icase r1 w \/ denotes icase r2 w
  | Group _ r1 => denotes icase r1 w
  | Rep _ lo hi r1 =>
      exists ws, w = concat_str ws
                 /\ lo <= List.length ws
                 /\ (forall h, hi = Some h -> List.length ws <= h)
                 /\ Forall (denotes icase r1) ws
  end.

Section Soundness.

Context {R : Type}.
Variable icase : bool.

(** What [exec] promises for an expression: a success is a success of the
    continuation after a text that the expression can match. *)
Definition sound_for (r : regex) : Prop :=
  forall (i : nat) (s : string) (c : caps) (k : nat -> string -> caps -> option R) (x : R),
    exec icase r i s c k = Some x ->
    exists w s' c',
      s = w +:+ s' /\ denotes icase r w
      /\ k (i + String.length w) s' c' = Some x.

Lemma rep_sound (r : regex) (greedy : bool) (k : nat -> string -> caps -> option R) :
  sound_for r ->
  forall (n lo i : nat) (s : string) (c : caps) (x : R),
    rep (exec icase r) greedy k n lo i s c = Some x ->
    exists ws s' c',
      s = concat_str ws +:+ s'
      /\ lo <= List.length ws /\ List.length ws <= n
      /\ Forall (denotes icase r) ws
      /\ k (i + String.length (concat_str ws)) s' c' = Some x.
Proof.
  intros Hr. induction n as [| n IH]; intros lo i s c x H.
  - cbn in H. destruct (Nat.eqb lo 0) eqn:El; [| discriminate].
    apply Nat.eqb_eq in El. subst lo.
    exists [], s, c. cbn. rewrite Nat.add_0_r. auto.
  - cbn [rep] in H.
    assert (stop : (if Nat.eqb lo 0 then k i s c else None) = Some x ->
                   exists ws s' c',
                     s = concat_str ws +:+ s'
                     /\ lo <= List.length ws /\ List.length ws <= S n
                     /\ Forall (denotes icase r) ws
                     /\ k (i + String.length (concat_str ws)) s' c' = Some x).
    { intros Hs. destruct (Nat.eqb lo 0) eqn:El; [| discriminate].
      apply Nat.eqb_eq in El. subst lo.
      exists [], s, c. cbn. rewrite Nat.add_0_r. repeat split; auto; lia. }
    assert (more : exec icase r i s c (rep (exec icase r) greedy k n (pred lo)) = Some x ->
                   exists ws s' c',
                     s = concat_str ws +:+ s'
                     /\ lo <= List.length ws /\ List.length ws <= S n
                     /\ Forall (denotes icase r) ws
                     /\ k (i + String.length (concat_str ws)) s' c' = Some x).
    { intros Hm. apply Hr in Hm as (w1 & s1 & c1 & -> & Hw1 & Hm).
      apply IH in Hm as (ws & s' & c' & -> & Hlo & Hhi & Hall & Hk).
      exists (w1 :: ws), s', c'. cbn [concat_str List.length].
      rewrite app_assoc_str, length_app_str, Nat.add_assoc.
      repeat split; auto; lia. }
    destruct greedy.
    + destruct (exec icase r i s c _) eqn:E; [injection H as <-; auto | auto].
    + destruct (if Nat.eqb lo 0 then k i s c else None) eqn:E;
        [injection H as <-; auto | auto].
Qed.

Theorem exec_sound (r : regex) : sound_for r.
Proof.
  induction r as [| p | cs | r1 IH1 r2 IH2 | r1 IH1 r2 IH2 | g lo hi r1 IH1
                  | n r1 IH1 | |]; intros i s c k x H; cbn [exec] in H.
  - exists EmptyString, s, c. cbn. rewrite Nat.add_0_r. auto.
  - destruct s as [| a s']; [discriminate |].
    destruct (lit_eq icase p a) eqn:E; [| discriminate].
    exists (String a EmptyString), s', c. cbn.
    replace (i + 1) with (S i) by lia. eauto.
  - destruct s as [| a s']; [discriminate |].
    destruct (in_set icase cs a) eqn:E; [| discriminate].
    exists (String a EmptyString), s', c. cbn.
    replace (i + 1) with (S i) by lia. eauto.
  - apply IH1 in H as (w1 & s1 & c1 & -> & Hw1 & H).
    apply IH2 in H as (w2 & s2 & c2 & -> & Hw2 & H).
    exists (w1 +:+ w2), s2, c2. cbn [denotes].
    rewrite app_assoc_str, length_app_str, Nat.add_assoc. eauto 10.
  - destruct (exec icase r1 i s c k) eqn:E.
    + injection H as <-. apply IH1 in E as (w & s' & c' & -> & Hw & E).
      exists w, s', c'. cbn [denotes]. auto.
    + apply IH2 in H as (w & s' & c' & -> & Hw & H).
      exists w, s', c'. cbn [denotes]. auto.
  - apply (rep_sound r1 g k IH1) in H as (ws & s' & c' & -> & Hlo & Hhi & Hall & H).
    exists (concat_str ws), s', c'. cbn [denotes].
    repeat split; auto. exists ws. repeat split; auto.
    intros h ->. exact Hhi.
  - apply IH1 in H as (w & s' & c' & -> & Hw & H).
    exists w, s'. eexists. cbn [denotes]. repeat split; eauto.
  - destruct (Nat.eqb i 0); [| discriminate].
    exists EmptyString, s, c. cbn. rewrite Nat.add_0_r. auto.
  - destruct (at_end s); [| discriminate].
    exists EmptyString, s, c. cbn. rewrite Nat.add_0_r. auto.
Qed.

End Soundness.

Lemma take_str_app (w s : string) : take_str (String.length w) (w +:+ s) = w.
Proof.
  induction w as [| a w IH]; [reflexivity |].
  change (String a (take_str (String.length w) (w +:+ s)) = String a w).
  rewrite IH. reflexivity.
Qed.

(** The text of group 1 when the whole pattern is that group. *)
Lemma group_match_denotes (r : regex) (i : nat) (s : string) (m : found) :
  exec false (Group 1 r) i s [] (accept i) = Some m ->
  exists w, group1 m = Some w /\ denotes false r w.
Proof.
  intros H. cbn [exec] in H.
  apply exec_sound in H as (w & s' & c' & -> & Hw & H).
  unfold accept in H. injection H as <-.
  exists w. split; [| exact Hw].
  unfold group1. cbn.
  replace (i + String.length w - i) with (String.length w) by lia.
  rewrite take_str_app. reflexivity.
Qed.

Lemma search_from_denotes (r : regex) (i : nat) (s : string) (m : found) :
  search_from false (Group 1 r) i s = Some m ->
  exists w, group1 m = Some w /\ denotes false r w.
Proof.
  revert i. induction s as [| a s IH]; intros i H; cbn [search_from] in H.
  - destruct (exec false (Group 1 r) i EmptyString [] (accept i)) eqn:E;
      [| discriminate].
    injection H as <-. eapply group_match_denotes, E.
  - destruct (exec false (Group 1 r) i (String a s) [] (accept i)) eqn:E.
    + injection H as <-. eapply group_match_denotes, E.
    + eapply IH, H.
Qed.

Lemma findall_from_denotes (r : regex) (fuel i : nat) (s g : string) :
  g ∈ findall_from fuel (Group 1 r) i s -> denotes false r g.
Proof.
  revert i s. induction fuel as [| fuel IH]; intros i s H; cbn [findall_from] in H.
  - inversion H.
  - destruct (search_from false (Group 1 r) i s) as [m |] eqn:E; [| inversion H].
    apply search_from_denotes in E as (w & Hg & Hw). rewrite Hg in H.
    destruct (Nat.eqb (m_end m) (m_start m)).
    + destruct (m_rest m).
      * apply list_elem_of_singleton in H. subst g. exact Hw.
      * apply elem_of_cons in H as [-> | H]; [exact Hw | eapply IH, H].
    + apply elem_of_cons in H as [-> | H]; [exact Hw | eapply IH, H].
Qed.

Lemma findall_denotes (r : regex) (s g : string) :
  g ∈ findall (Group 1 r) s -> denotes false r g.
Proof. apply findall_from_denotes. Qed.

(** A fixed number of characters of one set. *)
Lemma denotes_times_S (g : bool) (n : nat) (cs : charset) (w : string) :
  denotes false (Rep g (S n) (Some (S n)) (Set_ cs)) w ->
  exists a w', w = String a w' /\ mem cs a = true
               /\ denotes false (Rep g n (Some n) (Set_ cs)) w'.
Proof.
  cbn [denotes]. intros (ws & -> & Hlo & Hhi & Hall).
  destruct ws as [| u ws]; [cbn in Hlo; lia |].
  apply Forall_cons in Hall as [(a & -> & Ha) Hall].
  exists a, (concat_str ws). repeat split; auto.
  exists ws. repeat split; auto.
  - cbn in Hlo. lia.
  - intros h [= <-]. specialize (Hhi _ eq_refl). cbn in Hhi. lia.
Qed.

Lemma denotes_times_0 (g : bool) (cs : charset) (w : string) :
  denotes false (Rep g 0 (Some 0) (Set_ cs)) w -> w = EmptyString.
Proof.
  cbn [denotes]. intros (ws & -> & _ & Hhi & _).
  specialize (Hhi _ eq_refl). destruct ws; [reflexivity | cbn in Hhi; lia].
Qed.

(** At least one character of one set: the first character is in it. *)
Lemma denotes_rep_first (g : bool) (lo : nat) (hi : option nat) (cs : charset) (w : string) :
  0 < lo ->
  denotes false (Rep g lo hi (Set_ cs)) w ->
  exists a w', w = String a w' /\ mem cs a = true.
Proof.
  cbn [denotes]. intros Hpos (ws & -> & Hlo & _ & Hall).
  destruct ws as [| u ws]; [cbn in Hlo; lia |].
  apply Forall_cons in Hall as [(a & -> & Ha) _].
  exists a, (concat_str ws). auto.
Qed.

Ltac times_inv H :=
  repeat (apply denotes_times_S in H as (? & ? & -> & ? & H));
  apply denotes_times_0 in H; subst.

Lemma denotes_lit (p : ascii) (w : string) :
  denotes false (Lit p) w -> w = String p EmptyString.
Proof.
  cbn. intros (a & -> & Ha). apply Ascii.eqb_eq in Ha. subst. reflexivity.
Qed.

(** What the ISO pattern matches has the canonical form. *)
Lemma denotes_iso_canonical (w : string) : denotes false iso w -> canonical w = true.
Proof.
  unfold iso, times. cbn [cat d].
  intros (w1 & r1 & -> & H1 & w2 & r2 & -> & H2 & w3 & r3 & -> & H3
          & w4 & w5 & -> & H4 & H5).
  apply denotes_lit in H2, H4. subst.
  times_inv H1. times_inv H3. times_inv H5.
  cbn [mem] in *. cbv [String.append canonical].
  repeat match goal with H : is_digit _ = true |- _ => rewrite H; clear H end.
  reflexivity.
Qed.

Lemma first_return_found {A B} (f : A -> res (option B)) (l : list A) (v : B) :
  first_return f l = Ok (Some v) -> exists x, x ∈ l /\ f x = Ok (Some v).
Proof.
  induction l as [| x l IH]; cbn; [discriminate |].
  destruct (f x) as [[u |] | e] eqn:E.
  - intros [= ->]. exists x. split; [left | exact E].
  - intros H. destruct (IH H) as (y & Hy & Hf). exists y. split; [right |]; auto.
  - discriminate.
Qed.

Lemma digit_not_letter (a : ascii) :
  is_digit a = true -> mem (Union (Range "A" "Z") (Range "a" "z")) a = false.
Proof.
  destruct a as [[|] [|] [|] [|] [|] [|] [|] [|]]; vm_compute; congruence.
Qed.

Lemma slash_not_digit : is_digit "/" = false.
Proof. reflexivity. Qed.

(** A text accepted by [^\d{4}-\d{2}-\d{2}$] begins with a canonical date. *)
Lemma anchored_iso_prefix (m : string) :
  matches (anchored iso) m = true ->
  exists g s', m = g +:+ s' /\ canonical g = true.
Proof.
  unfold matches, rmatch.
  destruct (exec false (anchored iso) 0 m [] (accept 0)) as [x |] eqn:E;
    [| discriminate].
  intros _. apply exec_sound in E as (w & s' & c' & -> & Hw & _).
  unfold anchored in Hw. cbn [cat denotes] in Hw.
  destruct Hw as (w1 & w2 & -> & -> & w3 & w4 & -> & Hiso & ->).
  exists w3, s'. split; [| apply denotes_iso_canonical, Hiso].
  rewrite !app_assoc_str. reflexivity.
Qed.

Lemma canonical_chars (g : string) :
  canonical g = true ->
  exists y1 y2 y3 y4 rest,
    g = String y1 (String y2 (String y3 (String y4 rest)))
    /\ is_digit y1 = true /\ is_digit y2 = true
    /\ is_digit y3 = true /\ is_digit y4 = true.
Proof.
  unfold canonical.
  do 10 (destruct g as [| ? g]; [discriminate |]).
  destruct g; [| discriminate]. intros H.
  do 9 (apply andb_true_iff in H as [H ?]).
  do 5 eexists. repeat split; eassumption.
Qed.

(** The texts that the patterns with a month name match begin with a
    letter. *)
Lemma denotes_mon_dd_letter (w : string) :
  denotes false mon_dd w \/ denotes false mon_dd_yyyy w ->
  exists a w', w = String a w'
               /\ mem (Union (Range "A" "Z") (Range "a" "z")) a = true.
Proof.
  unfold mon_dd, mon_dd_yyyy, times, letter. cbn [cat].
  intros [(w1 & r1 & -> & H1 & _) | (w1 & r1 & -> & H1 & _)];
    apply denotes_rep_first in H1 as (a & w' & -> & Ha); try lia;
    exists a, (w' +:+ r1); auto.
Qed.

(** The texts that the pattern with slashes matches have a slash in second
    or third place. *)
Lemma denotes_slashed_slash (w : string) :
  denotes false slashed w ->
  exists a w', w = String a (String "/" w')
               \/ exists b, w = String a (String b (String "/" w')).
Proof.
  unfold slashed, between. cbn [cat d].
  intros (w1 & r1 & -> & H1 & w2 & r2 & -> & H2 & _).
  apply denotes_lit in H2. subst w2.
  cbn [denotes] in H1. destruct H1 as (ws & -> & Hlo & Hhi & Hall).
  specialize (Hhi _ eq_refl).
  destruct ws as [| u1 ws]; [cbn in Hlo; lia |].
  apply Forall_cons in Hall as [(a & -> & _) Hall].
  destruct ws as [| u2 ws].
  - exists a, r2. left. reflexivity.
  - apply Forall_cons in Hall as [(b & -> & _) Hall].
    destruct ws; [| cbn in Hhi; lia].
    exists a, r2. right. exists b. reflexivity.
Qed.

(* ===================================================================== *)
(** ** The form of every date that is returned *)
(* ===================================================================== *)

Section Canonical.

Variable BeautifulSoup : string -> res soup.
Variable now : datetime.

Lemma keyword_date_text (date_str v : string) :
  keyword_date now date_str = Ok (Some v) -> date_text v.
Proof.
  unfold keyword_date.
  repeat match goal with
         | |- context [if ?b then _ else _] => destruct b
         | |- context [match strptime ?f ?s with _ => _ end] => destruct (strptime f s)
         end;
    intros [= <-]; apply date_text_strftime.
Qed.

Lemma method1_date_text (sp : soup) (v : string) :
  method1 now sp = Ok (Some v) -> date_text v.
Proof.
  unfold method1. intros H.
  apply first_return_found in H as (text & _ & H).
  unfold keyword_text in H.
  apply first_return_found in H as (pattern & _ & H).
  unfold keyword_pattern in H.
  destruct (search true pattern (strip text)) as [m |]; [| discriminate].
  destruct (group1_str m) as [date_str | e]; [| discriminate].
  eapply keyword_date_text, H.
Qed.

Lemma method2_canonical (sp : soup) (v : string) :
  method2 sp = Ok (Some v) -> canonical v = true.
Proof.
  unfold method2. intros H.
  apply first_return_found in H as (attrs & _ & H).
  unfold meta_tag, search in H.
  destruct (search_from false (Group 1 iso) 0 _) as [m |] eqn:E; [| discriminate].
  apply search_from_denotes in E as (w & Hg & Hw). rewrite Hg in H.
  injection H as <-. apply denotes_iso_canonical, Hw.
Qed.

(** A match of one of the scan patterns that passes the ISO test is a
    canonical date and nothing more. *)
Lemma scan_iso_canonical (pattern : regex) (html m : string) :
  pattern ∈ scan_patterns ->
  m ∈ findall pattern html ->
  matches (anchored iso) m = true ->
  canonical m = true.
Proof.
  intros Hp Hm Hiso. unfold scan_patterns in Hp.
  apply anchored_iso_prefix in Hiso as (g & s' & Heq & Hg).
  apply canonical_chars in Hg as (y1 & y2 & y3 & y4 & rest & -> & H1 & H2 & H3 & H4).
  change (String y1 (String y2 (String y3 (String y4 rest))) +:+ s')
    with (String y1 (String y2 (String y3 (String y4 (rest +:+ s'))))) in Heq.
  repeat (apply elem_of_cons in Hp as [-> | Hp]).
  - apply findall_denotes, denotes_iso_canonical in Hm. exact Hm.
  - apply findall_denotes in Hm.
    destruct (denotes_mon_dd_letter m (or_intror Hm)) as (a & w' & -> & Ha).
    injection Heq as -> _. rewrite (digit_not_letter _ H1) in Ha. discriminate.
  - apply findall_denotes in Hm.
    destruct (denotes_mon_dd_letter m (or_introl Hm)) as (a & w' & -> & Ha).
    injection Heq as -> _. rewrite (digit_not_letter _ H1) in Ha. discriminate.
  - apply findall_denotes in Hm.
    destruct (denotes_slashed_slash m Hm) as (a & w' & [-> | (b & ->)]).
    + injection Heq as _ <- _. rewrite slash_not_digit in H2. discriminate.
    + injection Heq as _ _ <- _. rewrite slash_not_digit in H3. discriminate.
  - inversion Hp.
Qed.

Lemma method3_date_text (html v : string) :
  method3 now html = Ok (Some v) -> date_text v.
Proof.
  unfold method3. intros H.
  apply first_return_found in H as (pattern & Hp & H).
  apply first_return_found in H as (m & Hm & H).
  unfold scan_match in H.
  destruct (matches (anchored iso) m) eqn:Eiso.
  { injection H as <-. left. eapply scan_iso_canonical; eauto. }
  repeat match type of H with
         | context [if ?b then _ else _] => destruct b
         | context [match strptime ?f ?s with _ => _ end] => destruct (strptime f s)
         end;
    try discriminate; injection H as <-; apply date_text_strftime.
Qed.

Lemma extract_body_date_text (html v : string) :
  extract_body BeautifulSoup now html = Ok (Some v) -> date_text v.
Proof.
  unfold extract_body.
  destruct (BeautifulSoup html) as [sp | e]; [| discriminate].
  destruct (method1 now sp) as [[v1 |] | e] eqn:E1.
  - intros [= <-]. eapply method1_date_text, E1.
  - destruct (method2 sp) as [[v2 |] | e] eqn:E2.
    + intros [= <-]. left. eapply method2_canonical, E2.
    + apply method3_date_text.
    + discriminate.
  - discriminate.
Qed.



End Canonical.

(* ===================================================================== *)
(** ** ISO-shaped texts are returned as they are *)
(* ===================================================================== *)

Lemma canonical_all (g : string) :
  canonical g = true ->
  exists y1 y2 y3 y4 m1 m2 d1 d2,
    g = String y1 (String y2 (String y3 (String y4 (String "-"
          (String m1 (String m2 (String "-" (String d1 (String d2 EmptyString)))))))))
    /\ is_digit y1 = true /\ is_digit y2 = true
    /\ is_digit y3 = true /\ is_digit y4 = true
    /\ is_digit m1 = true /\ is_digit m2 = true
    /\ is_digit d1 = true /\ is_digit d2 = true.
Proof.
  unfold canonical.
  do 10 (destruct g as [| ? g]; [discriminate |]).
  destruct g; [| discriminate]. intros H.
  do 9 (apply andb_true_iff in H as [H ?]).
  repeat match goal with
         | H : Ascii.eqb _ _ = true |- _ => apply Ascii.eqb_eq in H; subst
         end.
  do 8 eexists. repeat split; eassumption.
Qed.

Ltac canonical_run H :=
  let y1 := fresh "y" in
  apply canonical_all in H as (y1 & ? & ? & ? & ? & ? & ? & ? & -> & H);
  decompose [and] H; clear H.


(** A canonical text passes the ISO test of the third method. *)
Lemma iso_test_canonical (g : string) :
  canonical g = true -> matches (anchored iso) g = true.
Proof.
  intros H. canonical_run H.
  unfold matches, rmatch. cbn -[is_digit].
  repeat match goal with H : is_digit _ = true |- _ => rewrite H; clear H end.
  reflexivity.
Qed.

Lemma month_range (dt : datetime) : (1 <= month dt <= 12)%Z.
Proof.
  pose proof (date_ok dt) as H. unfold check_date_fields in H.
  repeat (apply andb_true_iff in H as [H ?]). lia.
Qed.

Lemma digit_is (n : Z) (c : ascii) :
  digit n = c -> (n mod 10 = Z.of_N (code c) - 48)%Z.
Proof. intros <-. symmetry. apply digit_value. Qed.


Section Unvalidated.

Variable BeautifulSoup : string -> res soup.
Variable now : datetime.


End Unvalidated.

(* ===================================================================== *)
(** ** A concrete run *)
(* ===================================================================== *)

(** A site on which the API knows one model and answers nothing else in
    time. *)
Definition site_get (url : string) (timeout : Z) : res response :=
  if String.eqb url (api_url "Qwen/Qwen2-7B") then
    Ok (Response 200 EmptyString
                 (Ok (JDict [("lastModified", JStr "2024-01-25T10:00:00Z")])))
  else Raise Timeout.

(** [fromisoformat] on the one timestamp of that site. *)
Definition site_fromisoformat (s : string) : option datetime :=
  if String.eqb s "2024-01-25T10:00:00+00:00" then make 2024 1 25 else None.

(** A site that is down. *)
Definition down_get (url : string) (timeout : Z) : res response :=
  Raise ConnectionError.

Definition now_2025 : datetime := Datetime 2025 11 4 eq_refl.



Definition row_of (name update_time : string) : row :=
  {[ "name" := CStr name; "update_time" := CStr update_time ]}.

(** A table with one row to update and one row that has its date. *)
Definition table_1 : list row :=
  [row_of "Qwen/Qwen2-7B" "-"; row_of "Qwen/Qwen3-8B" "2025-04-29"].

(** A table in which two rows to update carry the same identifier. *)
Definition table_2 : list row :=
  [row_of "Qwen/Qwen3-8B" "-"; row_of "Qwen/Qwen3-8B" EmptyString].



(* ===================================================================== *)
(** ** The theorems on the concrete run *)
(* ===================================================================== *)

Lemma structured_date_short_circuits_witness :
  fst (extract_update_time_from_api site_get site_fromisoformat
         (fstr (CStr "Qwen/Qwen2-7B")) st0)
  = Ok (Some "2024-01-25")
  /\ exists evs,
      fetch_model_update_time site_get site_fromisoformat plain_text now_2025 (3, 5)%Z
                              (CStr "Qwen/Qwen2-7B") st0
      = (Ok (Some "2024-01-25"),
         State (updated_count st0 + 1) (failed_count st0) (trace st0 ++ evs))
      /\ evs = [Get (api_url (fstr (CStr "Qwen/Qwen2-7B"))) 10;
                Print (MsgApi (fstr (CStr "Qwen/Qwen2-7B")) "2024-01-25")]
      /\ existsb document_event evs = false.
Proof.
  split; [vm_compute; reflexivity |].
  apply (structured_date_short_circuits
           site_get site_fromisoformat plain_text now_2025 (3, 5)%Z
           (CStr "Qwen/Qwen2-7B") "2024-01-25" st0).
  vm_compute; reflexivity.
Defined.

(** C2 as stated fails on [table_2]: the identifier of its two rows is
    requested twice and is given two outcome lines in one run. *)
Lemma duplicate_identifier_processed_twice :
  count (is_api_request "Qwen/Qwen3-8B")
        (trace (snd (update_csv_file down_get site_fromisoformat plain_text now_2025
                                     (3, 5)%Z [0; 1] table_2 st0))) = 2
  /\ count (is_outcome "Qwen/Qwen3-8B")
           (trace (snd (update_csv_file down_get site_fromisoformat plain_text now_2025
                                        (3, 5)%Z [0; 1] table_2 st0))) = 2.
Proof. split; vm_compute; reflexivity. Qed.

Lemma one_outcome_per_eligible_row_witness :
  models_to_update table_2
  = Ok [(0, CStr "Qwen/Qwen3-8B"); (1, CStr "Qwen/Qwen3-8B")]
  /\ [1; 0] ≡ₚ seq 0 (List.length [(0, CStr "Qwen/Qwen3-8B"); (1, CStr "Qwen/Qwen3-8B")])
  /\ NoDup ([(0, CStr "Qwen/Qwen3-8B"); (1, CStr "Qwen/Qwen3-8B")].*1).
Proof.
  assert (models_to_update table_2
          = Ok [(0, CStr "Qwen/Qwen3-8B"); (1, CStr "Qwen/Qwen3-8B")]) as Ht
    by (vm_compute; reflexivity).
  assert ([1; 0] ≡ₚ seq 0 (List.length [(0, CStr "Qwen/Qwen3-8B");
                                        (1, CStr "Qwen/Qwen3-8B")])) as Hp
    by (simpl; apply Permutation_swap).
  split; [exact Ht | split; [exact Hp |]].
  exact (proj1 (one_outcome_per_eligible_row
                  down_get site_fromisoformat plain_text now_2025 (3, 5)%Z
                  [1; 0] table_2 _ st0 Ht Hp)).
Defined.

Lemma merge_overwrites_only_resolved_witness :
  update_csv_file site_get site_fromisoformat plain_text now_2025 (3, 5)%Z
                  [0] table_1 st0
  = (Ok [<["update_time" := CStr "2024-01-25"]> (row_of "Qwen/Qwen2-7B" "-");
         row_of "Qwen/Qwen3-8B" "2025-04-29"],
     State 1 0 [Print (MsgToUpdate 1);
                Get (api_url "Qwen/Qwen2-7B") 10;
                Print (MsgApi "Qwen/Qwen2-7B" "2024-01-25");
                Print (MsgSummary 1 0)])
  /\ List.length [<["update_time" := CStr "2024-01-25"]> (row_of "Qwen/Qwen2-7B" "-");
                  row_of "Qwen/Qwen3-8B" "2025-04-29"]
     = List.length table_1.
Proof.
  assert (update_csv_file site_get site_fromisoformat plain_text now_2025 (3, 5)%Z
                          [0] table_1 st0
          = (Ok [<["update_time" := CStr "2024-01-25"]> (row_of "Qwen/Qwen2-7B" "-");
                 row_of "Qwen/Qwen3-8B" "2025-04-29"],
             State 1 0 [Print (MsgToUpdate 1);
                        Get (api_url "Qwen/Qwen2-7B") 10;
                        Print (MsgApi "Qwen/Qwen2-7B" "2024-01-25");
                        Print (MsgSummary 1 0)])) as H
    by (vm_compute; reflexivity).
  split; [exact H |].
  exact (proj1 (merge_overwrites_only_resolved
                  site_get site_fromisoformat plain_text now_2025 (3, 5)%Z
                  [0] table_1 _ st0 _ H)).
Defined.

Lemma relative_phrase_not_resolved_witness :
  plain_text "Updated about 10 hours ago"
  = Ok [NavigableString "Updated about 10 hours ago"]
  /\ extract_update_time_from_html plain_text now_2025 "Updated about 10 hours ago" st0
     = (Ok None, st0).
Proof.
  split; [reflexivity |].
  apply (relative_phrase_not_resolved plain_text now_2025 st0). reflexivity.
Defined.





Lemma api_degrades_to_absence_witness :
  api_failure site_fromisoformat (down_get (api_url "Qwen/Qwen3-8B") 10)
  /\ exists st',
      extract_update_time_from_api down_get site_fromisoformat "Qwen/Qwen3-8B" st0
      = (Ok None, st').
Proof.
  assert (api_failure site_fromisoformat (down_get (api_url "Qwen/Qwen3-8B") 10)) as H
    by (apply (api_fail_request site_fromisoformat ConnectionError)).
  split; [exact H |].
  exact (proj2 (api_degrades_to_absence down_get site_fromisoformat
                  "Qwen/Qwen3-8B" st0) H).
Defined.

Lemma failed_page_fetch_counts_once_witness :
  fst (extract_update_time_from_api site_get site_fromisoformat
         (fstr (CStr "Qwen/Qwen3-8B")) st0) = Ok None
  /\ page_failure (site_get (page_url (fstr (CStr "Qwen/Qwen3-8B"))) 15) Timeout
  /\ fetch_model_update_time site_get site_fromisoformat plain_text now_2025 (3, 5)%Z
                             (CStr "Qwen/Qwen3-8B") st0
     = (Ok None,
        State (updated_count st0) (failed_count st0 + 1)
              (trace st0 ++ [Get (api_url (fstr (CStr "Qwen/Qwen3-8B"))) 10;
                             Sleep (3, 5)%Z;
                             Get (page_url (fstr (CStr "Qwen/Qwen3-8B"))) 15;
                             Print (MsgRequestFailed (fstr (CStr "Qwen/Qwen3-8B")) Timeout)])).
Proof.
  assert (fst (extract_update_time_from_api site_get site_fromisoformat
                 (fstr (CStr "Qwen/Qwen3-8B")) st0) = Ok None) as Ha
    by (vm_compute; reflexivity).
  assert (page_failure (site_get (page_url (fstr (CStr "Qwen/Qwen3-8B"))) 15) Timeout)
    as Hp by (apply (page_fail_request Timeout); reflexivity).
  split; [exact Ha | split; [exact Hp |]].
  exact (proj1 (failed_page_fetch_counts_once
                  site_get site_fromisoformat plain_text now_2025 (3, 5)%Z
                  (CStr "Qwen/Qwen3-8B") Timeout st0 Ha Hp)).
Defined.


(* ===================================================================== *)
(** ** The resolver, path by path *)
(* ===================================================================== *)

Section ResolverPaths.

Variable session_get : string -> Z -> res response.
Variable fromisoformat : string -> option datetime.
Variable BeautifulSoup : string -> res soup.
Variable now : datetime.
Variable delay_range : Z * Z.

Local Abbreviation extract_api := (extract_update_time_from_api session_get fromisoformat).
Local Abbreviation extract_html := (extract_update_time_from_html BeautifulSoup now).
Local Abbreviation fetch :=
  (fetch_model_update_time session_get fromisoformat BeautifulSoup now delay_range).
Local Abbreviation complete_task :=
  (complete session_get fromisoformat BeautifulSoup now delay_range).

(** The events of the fall-back path up to the page request. *)
Definition page_prefix (n : string) : list event :=
  [Get (api_url n) 10; Sleep delay_range; Get (page_url n) 15].

Lemma fetch_falls_back (model_name : cell) (st : state) :
  fst (extract_api (fstr model_name) st) = Ok None ->
  fetch model_name st
  = try_except
      (bind (emit (Sleep delay_range))
            (fun _ =>
               bind (get session_get (page_url (fstr model_name)) 15)
                    (fun response =>
                       bind (raise_for_status response)
                            (fun _ =>
                               bind (extract_html (text response))
                                    (fun update_time =>
                                       bind (if truthy_opt update_time
                                             then bind incr_updated
                                                       (fun _ => print (MsgPage (fstr model_name)
                                                                          (default EmptyString update_time)))
                                             else bind incr_failed
                                                       (fun _ => print (MsgNotFound (fstr model_name))))
                                            (fun _ => ret update_time))))))
      is_request_exception
      (fun e => bind incr_failed
                     (fun _ => bind (print (MsgRequestFailed (fstr model_name) e))
                                    (fun _ => ret None)))
      (after_api (fstr model_name) st).
Proof.
  intros H.
  destruct (extract_api_returns session_get fromisoformat (fstr model_name) st)
    as [r [Hr _]].
  rewrite Hr in H. cbn in H. injection H as ->.
  unfold fetch_model_update_time, bind at 1. rewrite Hr. reflexivity.
Qed.

Lemma extract_html_value (html : string) (st : state) :
  extract_html html st
  = match extract_body BeautifulSoup now html with
    | Ok r => (Ok r, st)
    | Raise e =>
        (Ok None,
         State (updated_count st) (failed_count st) (trace st ++ [Print (MsgHtmlError e)]))
    end.
Proof.
  unfold extract_update_time_from_html, try_except, lift, bind, print, emit, ret.
  destruct (extract_body BeautifulSoup now html); reflexivity.
Qed.

(** X2.  The document path.  When the structured source gives nothing and
    the page is fetched without an error status, the resolver returns what
    the document extractor finds in [response.text]; it has slept once
    before the one page request, and it counts the identifier as updated
    when a date was found and as failed when none was. *)
Theorem document_path_outcome
        (model_name : cell) (resp : response) (v : option string) (st : state) :
  fst (extract_api (fstr model_name) st) = Ok None ->
  session_get (page_url (fstr model_name)) 15 = Ok resp ->
  (status_code resp < 400 \/ 600 <= status_code resp)%Z ->
  extract_body BeautifulSoup now (text resp) = Ok v ->
  fetch model_name st
  = (Ok v,
     match v with
     | Some date =>
         State (updated_count st + 1) (failed_count st)
               (trace st ++ page_prefix (fstr model_name)
                         ++ [Print (MsgPage (fstr model_name) date)])
     | None =>
         State (updated_count st) (failed_count st + 1)
               (trace st ++ page_prefix (fstr model_name)
                         ++ [Print (MsgNotFound (fstr model_name))])
     end).
Proof.
  intros Hapi Hget Hstatus Hbody.
  rewrite (fetch_falls_back model_name st Hapi).
  unfold try_except, bind, get, emit, lift, after_api, page_prefix. cbn.
  rewrite Hget. unfold raise_for_status.
  replace ((400 <=? status_code resp) && (status_code resp <? 600))%Z with false
    by (symmetry; apply andb_false_iff;
        destruct Hstatus; [left; apply Z.leb_gt | right; apply Z.ltb_ge]; lia).
  cbn. rewrite extract_html_value, Hbody.
  destruct v as [date |].
  - pose proof (extract_body_date_text BeautifulSoup now _ _ Hbody) as Hc.
    cbn [truthy_opt]. rewrite (date_text_truthy _ Hc).
    unfold incr_updated, print, emit, ret. cbn.
    rewrite <- !app_assoc. reflexivity.
  - cbn. unfold incr_failed, print, emit, ret. cbn.
    rewrite <- !app_assoc. reflexivity.
Qed.

(** X3.  An exception of the page request that is not one of the
    [requests] exceptions is not handled by the resolver: it leaves
    [fetch_model_update_time], and neither counter has moved.  The loop over
    the futures catches it: the line for the failed task is printed, the
    table stays as it is, and the loop goes on. *)
Theorem foreign_exception_escapes
        (model_name : cell) (e : exn) (st : state) :
  fst (extract_api (fstr model_name) st) = Ok None ->
  session_get (page_url (fstr model_name)) 15 = Raise e ->
  is_request_exception e = false ->
  fetch model_name st
  = (Raise e,
     State (updated_count st) (failed_count st)
           (trace st ++ page_prefix (fstr model_name)))
  /\ forall index rows,
      complete_task (index, model_name) rows st
      = (Ok rows,
         State (updated_count st) (failed_count st)
               (trace st ++ page_prefix (fstr model_name)
                         ++ [Print (MsgTaskError (fstr model_name) e)])).
Proof.
  intros Hapi Hget He.
  assert (fetch model_name st
          = (Raise e,
             State (updated_count st) (failed_count st)
                   (trace st ++ page_prefix (fstr model_name)))) as Hfetch.
  { rewrite (fetch_falls_back model_name st Hapi).
    unfold try_except, bind, get, emit, lift, after_api, page_prefix. cbn.
    rewrite Hget, He. rewrite <- !app_assoc. reflexivity. }
  split; [exact Hfetch |].
  intros index rows. unfold complete, try_except, bind. rewrite Hfetch.
  unfold print, emit, ret. cbn. rewrite <- !app_assoc. reflexivity.
Qed.

End ResolverPaths.

(* ===================================================================== *)
(** ** The counters and the table after a whole run *)
(* ===================================================================== *)

#[export] Instance cell_eq_dec : EqDecision cell.
Proof. solve_decision. Defined.

Section RunOutcome.

Variable session_get : string -> Z -> res response.
Variable fromisoformat : string -> option datetime.
Variable BeautifulSoup : string -> res soup.
Variable now : datetime.
Variable delay_range : Z * Z.

Local Abbreviation extract_api := (extract_update_time_from_api session_get fromisoformat).
Local Abbreviation extract_html := (extract_update_time_from_html BeautifulSoup now).
Local Abbreviation fetch :=
  (fetch_model_update_time session_get fromisoformat BeautifulSoup now delay_range).
Local Abbreviation result_of :=
  (fetch_result session_get fromisoformat BeautifulSoup now delay_range).
Local Abbreviation effect_of :=
  (fetch_effect session_get fromisoformat BeautifulSoup now delay_range).
Local Abbreviation resolved :=
  (resolved_date session_get fromisoformat BeautifulSoup now delay_range).
Local Abbreviation merged :=
  (merge_all session_get fromisoformat BeautifulSoup now delay_range).
Local Abbreviation effect_of_pool :=
  (pool_effect session_get fromisoformat BeautifulSoup now delay_range).
Local Abbreviation effect_of_task :=
  (task_effect session_get fromisoformat BeautifulSoup now delay_range).
Local Abbreviation update :=
  (update_csv_file session_get fromisoformat BeautifulSoup now delay_range).

(** What one call adds to the two counters, by its result. *)
Definition counted (r : res (option string)) : Z * Z :=
  match r with
  | Ok o => if truthy_opt o then (1, 0)%Z else (0, 1)%Z
  | Raise _ => (0, 0)%Z
  end.

(** One call from the initial state: its result, its counters, and where an
    exception and a date come from. *)
Lemma fetch_st0_outcome (model_name : cell) :
  exists r u f evs,
    fetch model_name st0 = (r, State u f evs)
    /\ (u, f) = counted r
    /\ (forall e, r = Raise e ->
                  is_request_exception e = false
                  /\ session_get (page_url (fstr model_name)) 15 = Raise e)
    /\ (forall date, r = Ok (Some date) -> date_text date).
Proof.
  destruct (extract_api_returns session_get fromisoformat (fstr model_name) st0)
    as [r [Hr Hdate]].
  unfold fetch_model_update_time, bind. rewrite Hr.
  destruct (truthy_opt r) eqn:Et.
  { cbn. do 4 eexists. split; [reflexivity |]. cbn. rewrite Et.
    split; [reflexivity | split; [discriminate |]].
    intros date [= ->]. destruct (Hdate date eq_refl) as [dt ->].
    apply date_text_strftime. }
  unfold try_except, get, bind, emit, lift, after_api. cbn.
  fold (page_url (fstr model_name)).
  destruct (session_get (page_url (fstr model_name)) 15) as [resp | e].
  2: { destruct (is_request_exception e) eqn:Ee; cbn.
       - do 4 eexists. split; [reflexivity |]. cbn.
         split; [reflexivity | split; discriminate].
       - do 4 eexists. split; [reflexivity |]. cbn.
         split; [reflexivity | split; [| discriminate]].
         intros e' [= <-]. auto. }
  unfold raise_for_status.
  destruct ((400 <=? status_code resp) && (status_code resp <? 600))%Z; cbn.
  { do 4 eexists. split; [reflexivity |]. cbn.
    split; [reflexivity | split; discriminate]. }
  match goal with
  | |- context [extract_html ?h ?s] => rewrite (extract_html_value BeautifulSoup now h s)
  end.
  destruct (extract_body BeautifulSoup now (text resp)) as [r' | e] eqn:Eb; cbn.
  - destruct (truthy_opt r') eqn:Et'; cbn.
    + do 4 eexists. split; [reflexivity |]. cbn. rewrite Et'.
      split; [reflexivity | split; [discriminate |]].
      intros date [= ->]. exact (extract_body_date_text BeautifulSoup now _ _ Eb).
    + do 4 eexists. split; [reflexivity |]. cbn. rewrite Et'.
      split; [reflexivity | split; [discriminate |]].
      intros date [= ->]. exact (extract_body_date_text BeautifulSoup now _ _ Eb).
  - do 4 eexists. split; [reflexivity |]. cbn.
    split; [reflexivity | split; discriminate].
Qed.

Lemma fetch_result_date_text (model_name : cell) (date : string) :
  result_of model_name = Ok (Some date) -> date_text date.
Proof.
  unfold fetch_result.
  destruct (fetch_st0_outcome model_name) as (r & u & f & evs & -> & _ & _ & Hc).
  cbn. apply Hc.
Qed.

Lemma fetch_effect_counters (model_name : cell) :
  (updated_count (effect_of model_name), failed_count (effect_of model_name))
  = counted (result_of model_name).
Proof.
  unfold fetch_result, fetch_effect.
  destruct (fetch_st0_outcome model_name) as (r & u & f & evs & -> & Hc & _).
  cbn. exact Hc.
Qed.

(** A delay range that [time.sleep] accepts whatever [random.uniform]
    draws from it: no bound is negative, and none is beyond a day. *)
Definition delay_accepted (range : Z * Z) : Prop :=
  (0 <= fst range <= 86400)%Z /\ (0 <= snd range <= 86400)%Z.

(** X1.  With a delay range that [time.sleep] accepts, every call of
    [fetch_model_update_time] that returns moves exactly one of the two
    counters by one: [updated_count] when it returns a date, which then has
    the form YYYY-MM-DD or is the text of a date before the year 1000, and
    [failed_count] when it returns [None].  A call that raises has moved
    neither, and what it raises is an exception of the page request that is
    not a [requests] one. *)
Theorem each_call_counts_once (model_name : cell) (st : state) :
  delay_accepted delay_range ->
  exists r st',
    fetch model_name st = (r, st')
    /\ match r with
       | Ok (Some date) =>
           date_text date
           /\ updated_count st' = (updated_count st + 1)%Z
           /\ failed_count st' = failed_count st
       | Ok None =>
           updated_count st' = updated_count st
           /\ failed_count st' = (failed_count st + 1)%Z
       | Raise e =>
           is_request_exception e = false
           /\ session_get (page_url (fstr model_name)) 15 = Raise e
           /\ updated_count st' = updated_count st
           /\ failed_count st' = failed_count st
       end.
Proof.
  intros _.
  rewrite (fetch_eq session_get fromisoformat BeautifulSoup now delay_range model_name st).
  do 2 eexists. split; [reflexivity |].
  unfold fetch_result, fetch_effect.
  destruct (fetch_st0_outcome model_name) as (r & u & f & evs & -> & Hc & He & Hd).
  cbn [fst snd updated_count failed_count].
  destruct r as [[date |] | e]; unfold counted, truthy_opt in Hc;
    cbn [plus_state updated_count failed_count].
  - pose proof (Hd date eq_refl) as Hcan. rewrite (date_text_truthy _ Hcan) in Hc.
    injection Hc as -> ->. split; [exact Hcan | lia].
  - injection Hc as -> ->. lia.
  - injection Hc as -> ->. destruct (He e eq_refl). repeat split; auto; lia.
Qed.

(** *** Reading the table *)

(** The identifier a row hands to the pool: the row's name, when the row is
    eligible. *)
Definition task_name (r : row) : option cell :=
  if eligible r then r !! "name" else None.

(** The row has the columns the loop of [update_csv_file] reads in it:
    [update_time], and [name] when it is eligible. *)
Definition readable (r : row) : bool :=
  match r !! "update_time" with
  | None => false
  | Some v =>
      if needs_update v
      then match r !! "name" with Some _ => true | None => false end
      else true
  end.

(** The list [models_to_update] of a table whose rows are readable;
    [i] is the index of the first row. *)
Fixpoint tasks_of (i : nat) (rows : list row) : list (nat * cell) :=
  match rows with
  | [] => []
  | r :: rows' =>
      match task_name r with
      | Some n => (i, n) :: tasks_of (S i) rows'
      | None => tasks_of (S i) rows'
      end
  end.

Lemma models_to_update_from_readable (i : nat) (rows : list row) :
  forallb readable rows = true ->
  models_to_update_from i rows = Ok (tasks_of i rows).
Proof.
  revert i. induction rows as [| r rows IH]; intros i H; [reflexivity |].
  cbn in H. apply andb_true_iff in H as [Hr H].
  cbn. unfold row_get, task_name, eligible. unfold readable in Hr.
  destruct (r !! "update_time") as [v |]; [| discriminate].
  destruct (needs_update v).
  - destruct (r !! "name") as [n |]; [| discriminate].
    rewrite (IH (S i) H). reflexivity.
  - apply IH, H.
Qed.

Lemma models_to_update_from_unreadable (i : nat) (rows : list row) :
  forallb readable rows = false ->
  exists key, (key = "update_time" \/ key = "name")
              /\ models_to_update_from i rows = Raise (KeyError key).
Proof.
  revert i. induction rows as [| r rows IH]; intros i H; [discriminate |].
  cbn in H. cbn. unfold row_get. unfold readable in H.
  destruct (r !! "update_time") as [v |]; [| eauto].
  destruct (needs_update v).
  - destruct (r !! "name") as [n |]; [| eauto].
    destruct (IH (S i) H) as (key & Hkey & ->). eauto.
  - apply IH, H.
Qed.

Lemma models_to_update_inv (rows : list row) (tasks : list (nat * cell)) :
  models_to_update rows = Ok tasks ->
  forallb readable rows = true /\ tasks = tasks_of 0 rows.
Proof.
  unfold models_to_update. intros H.
  destruct (forallb readable rows) eqn:E.
  - rewrite (models_to_update_from_readable 0 rows E) in H.
    injection H as <-. auto.
  - destruct (models_to_update_from_unreadable 0 rows E) as (key & _ & Hk).
    congruence.
Qed.

Lemma tasks_of_names (i : nat) (rows : list row) :
  (tasks_of i rows).*2 = omap task_name rows.
Proof.
  revert i. induction rows as [| r rows IH]; intros i; [reflexivity |].
  cbn. destruct (task_name r); cbn; rewrite IH; reflexivity.
Qed.

(** X4.  The loop of [update_csv_file] that selects the rows to update
    needs the column [update_time] in every row and the column [name] in
    every eligible row.  With them it selects the eligible rows, each with
    its index and its name, and the first thing the run prints is their
    number.  Without them the method raises [KeyError] for one of the two
    columns while it still reads the table: nothing has been printed, no
    request has been sent and no counter has moved. *)
Theorem selection_needs_its_columns (order : list nat) (rows : list row) (st : state) :
  if forallb readable rows
  then models_to_update rows = Ok (tasks_of 0 rows)
       /\ exists r st' evs,
           update order rows st = (r, st')
           /\ trace st' = trace st
                          ++ Print (MsgToUpdate (List.length (tasks_of 0 rows))) :: evs
  else exists key, (key = "update_time" \/ key = "name")
                   /\ models_to_update rows = Raise (KeyError key)
                   /\ update order rows st = (Raise (KeyError key), st).
Proof.
  destruct (forallb readable rows) eqn:E.
  - pose proof (models_to_update_from_readable 0 rows E) as Ht.
    split; [exact Ht |].
    destruct (update_csv_file_eq session_get fromisoformat BeautifulSoup now delay_range
                order rows _ st Ht) as (u & f & Heq).
    do 3 eexists. split; [exact Heq | reflexivity].
  - destruct (models_to_update_from_unreadable 0 rows E) as (key & Hkey & Hk).
    exists key. split; [exact Hkey |]. split; [exact Hk |].
    unfold update_csv_file, bind at 1, lift, models_to_update. rewrite Hk. reflexivity.
Qed.

(** *** The table that is written *)

(** The row as [update_csv_file] leaves it: an eligible row whose identifier
    was resolved carries the date, every other row is as it was read. *)
Definition updated_row (r : row) : row :=
  match task_name r with
  | Some n =>
      match resolved n with
      | Some date => <["update_time" := CStr date]> r
      | None => r
      end
  | None => r
  end.

Lemma processed_all (tasks : list (nat * cell)) (order : list nat) :
  order ≡ₚ seq 0 (List.length tasks) -> processed tasks order ≡ₚ tasks.
Proof.
  intros Hperm. unfold processed. rewrite Hperm, omap_lookup_all. reflexivity.
Qed.

Lemma merge_all_unlisted (done : list (nat * cell)) (rows : list row) (i : nat) :
  i ∉ done.*1 -> merged done rows !! i = rows !! i.
Proof.
  intros Hi.
  destruct (merge_all_lookup session_get fromisoformat BeautifulSoup now delay_range
              done rows i) as [H | (n & date & r & Hin & _)]; [exact H |].
  exfalso. apply Hi. apply list_elem_of_fmap. exists (i, n). auto.
Qed.

Lemma merge_all_resolved (done : list (nat * cell)) (rows : list row)
      (i : nat) (n : cell) (date : string) (r : row) :
  NoDup (done.*1) ->
  (i, n) ∈ done ->
  resolved n = Some date ->
  rows !! i = Some r ->
  merged done rows !! i = Some (<["update_time" := CStr date]> r).
Proof.
  revert rows. induction done as [| [j m] done IH]; intros rows Hnd Hin Hres Hr.
  - inversion Hin.
  - cbn in Hnd. apply NoDup_cons in Hnd as [Hj Hnd].
    change (merged ((j, m) :: done) rows)
      with (merged done (merge_result j (result_of m) rows)).
    apply elem_of_cons in Hin as [[= <- <-] | Hin].
    + rewrite merge_all_unlisted by exact Hj.
      unfold resolved_date in Hres.
      destruct (result_of n) as [[d |] | e]; try discriminate.
      destruct (truthy d) eqn:Et; [| discriminate]. injection Hres as ->.
      unfold merge_result. rewrite Et. unfold set_update_time.
      rewrite list_lookup_alter, Hr, decide_True by reflexivity. reflexivity.
    + apply IH; auto.
      destruct (merge_result_lookup j (result_of m) rows i)
        as [-> | (d & Hij & _)]; [exact Hr |].
      exfalso. apply Hj. apply list_elem_of_fmap. exists (i, n). auto.
Qed.

Lemma merge_all_updated_rows (tasks done : list (nat * cell)) (rows : list row) :
  models_to_update rows = Ok tasks ->
  done ≡ₚ tasks ->
  merged done rows = map updated_row rows.
Proof.
  intros Ht Hp.
  destruct (models_to_update_spec rows tasks Ht) as [Hmem Hnd].
  apply list_eq. intros i. rewrite list_lookup_fmap.
  destruct (rows !! i) as [r |] eqn:Er; cbn.
  2: { apply lookup_ge_None.
       rewrite (length_merge_all session_get fromisoformat BeautifulSoup now delay_range).
       apply lookup_ge_None, Er. }
  unfold updated_row, task_name.
  destruct (eligible r) eqn:Ee.
  - destruct (r !! "name") as [n |] eqn:En.
    + assert ((i, n) ∈ done) as Hin by (rewrite Hp; apply Hmem; eauto).
      destruct (resolved n) as [date |] eqn:Eres.
      * apply (merge_all_resolved done rows i n date r); auto.
        rewrite Hp. exact Hnd.
      * destruct (merge_all_lookup session_get fromisoformat BeautifulSoup now delay_range
                    done rows i) as [H | (m & date & r0 & Hin' & Hres & Htr & _)].
        -- rewrite H. exact Er.
        -- rewrite Hp in Hin'. apply Hmem in Hin' as (r1 & Hr1 & _ & Hn1).
           assert (m = n) as -> by congruence.
           unfold resolved_date in Eres. rewrite Hres, Htr in Eres. discriminate.
    + rewrite merge_all_unlisted; [exact Er |].
      intros Hin. apply list_elem_of_fmap in Hin as [[j m] [Hj Hin]]. cbn in Hj. subst j.
      rewrite Hp in Hin. apply Hmem in Hin as (r1 & Hr1 & _ & Hn1). congruence.
  - rewrite merge_all_unlisted; [exact Er |].
    intros Hin. apply list_elem_of_fmap in Hin as [[j m] [Hj Hin]]. cbn in Hj. subst j.
    rewrite Hp in Hin. apply Hmem in Hin as (r1 & Hr1 & He1 & _). congruence.
Qed.

(** X5.  Once every submitted task has completed, in whatever order, the
    table that is written is the table that was read with, in each eligible
    row whose identifier was resolved, the resolved date in [update_time]:
    no such row is left out, and the completion order has no influence. *)
Theorem written_table_is_exact
        (order : list nat) (rows : list row) (tasks : list (nat * cell)) (st : state) :
  models_to_update rows = Ok tasks ->
  order ≡ₚ seq 0 (List.length tasks) ->
  fst (update order rows st) = Ok (map updated_row rows).
Proof.
  intros Ht Hperm.
  destruct (update_csv_file_eq session_get fromisoformat BeautifulSoup now delay_range
              order rows tasks st Ht) as (u & f & ->).
  cbn [fst]. f_equal.
  apply (merge_all_updated_rows tasks); [exact Ht | apply processed_all, Hperm].
Qed.

(** *** The counters at the end of the run *)

(** The identifier was resolved; the call for it returned [None]. *)
Definition has_date (n : cell) : bool :=
  match resolved n with Some _ => true | None => false end.

Definition has_none (n : cell) : bool :=
  match result_of n with Ok None => true | _ => false end.

(** The same for the row that carries the identifier. *)
Definition row_resolved (r : row) : bool :=
  match task_name r with Some n => has_date n | None => false end.

Definition row_unresolved (r : row) : bool :=
  match task_name r with Some n => has_none n | None => false end.

Lemma counted_result (n : cell) :
  counted (result_of n)
  = ((if has_date n then 1 else 0)%Z, (if has_none n then 1 else 0)%Z).
Proof.
  unfold has_date, has_none, resolved_date, counted.
  destruct (result_of n) as [[date |] | e] eqn:E; cbn; try reflexivity.
  rewrite (date_text_truthy _ (fetch_result_date_text n date E)). reflexivity.
Qed.

Lemma count_perm {A} (p : A -> bool) (l1 l2 : list A) :
  l1 ≡ₚ l2 -> count p l1 = count p l2.
Proof.
  induction 1 as [| x l1 l2 _ IH | x y l | l1 l2 l3 _ IH1 _ IH2]; cbn; lia.
Qed.

Lemma count_fmap {A B} (p : B -> bool) (f : A -> B) (l : list A) :
  count p (f <$> l) = count (fun x => p (f x)) l.
Proof. induction l as [| x l IH]; cbn; [reflexivity | rewrite IH; reflexivity]. Qed.

Lemma count_omap {A B} (p : B -> bool) (f : A -> option B) (l : list A) :
  count p (omap f l)
  = count (fun x => match f x with Some y => p y | None => false end) l.
Proof.
  induction l as [| x l IH]; cbn; [reflexivity |].
  destruct (f x); cbn; rewrite IH; reflexivity.
Qed.

Lemma pool_effect_counters (done : list (nat * cell)) :
  updated_count (effect_of_pool done) = Z.of_nat (count (fun t => has_date (snd t)) done)
  /\ failed_count (effect_of_pool done) = Z.of_nat (count (fun t => has_none (snd t)) done).
Proof.
  induction done as [| t done [IHu IHf]]; [split; reflexivity |].
  unfold pool_effect. cbn [fold_left].
  rewrite (fold_plus_state session_get fromisoformat BeautifulSoup now delay_range).
  cbn [plus_state updated_count failed_count st0 count].
  rewrite IHu, IHf. unfold task_effect. cbn [updated_count failed_count].
  pose proof (fetch_effect_counters (snd t)) as Hc. rewrite counted_result in Hc.
  injection Hc as -> ->.
  destruct (has_date (snd t)), (has_none (snd t)); split; lia.
Qed.

Lemma count_tasks_rows (p : cell -> bool) (rows : list row) (tasks : list (nat * cell)) :
  models_to_update rows = Ok tasks ->
  count (fun t => p (snd t)) tasks
  = count (fun r => match task_name r with Some n => p n | None => false end) rows.
Proof.
  intros Ht. apply models_to_update_inv in Ht as [_ ->].
  rewrite <- (count_fmap p snd), tasks_of_names, count_omap. reflexivity.
Qed.

Lemma update_csv_file_state (order : list nat) (rows : list row) (tasks : list (nat * cell))
      (st : state) :
  models_to_update rows = Ok tasks ->
  let p := effect_of_pool (processed tasks order) in
  let u := (updated_count st + updated_count p)%Z in
  let f := (failed_count st + failed_count p)%Z in
  update order rows st
  = (Ok (merged (processed tasks order) rows),
     State u f
           (trace st
            ++ (Print (MsgToUpdate (List.length tasks)) :: trace p)
            ++ [Print (MsgSummary u f)])).
Proof.
  intros H p u f. unfold update_csv_file, bind at 1, lift. rewrite H.
  unfold bind at 1, print, emit. cbn [fst snd].
  unfold bind at 1.
  rewrite (pool_eq session_get fromisoformat BeautifulSoup now delay_range).
  unfold bind at 1. cbn [fst snd]. unfold bind, ret, plus_state. cbn.
  rewrite <- !app_assoc. reflexivity.
Qed.

Lemma needs_update_date_text (date : string) :
  date_text date -> needs_update (CStr date) = false.
Proof.
  intros H. destruct (date_text_first_digit date H) as (c & r & -> & Hc).
  cbn. destruct (Ascii.eqb_spec c "-") as [-> | _]; [discriminate Hc |].
  reflexivity.
Qed.

Lemma resolved_not_eligible (n : cell) (date : string) :
  resolved n = Some date -> needs_update (CStr date) = false.
Proof.
  unfold resolved_date. destruct (result_of n) as [[d |] | e] eqn:E; try discriminate.
  destruct (truthy d); [| discriminate]. intros [= ->].
  apply needs_update_date_text, (fetch_result_date_text n), E.
Qed.

Lemma updated_row_changes (r : row) :
  updated_row r <> r <-> row_resolved r = true.
Proof.
  unfold updated_row, row_resolved, has_date.
  destruct (task_name r) as [n |] eqn:En; [| split; [congruence | discriminate]].
  destruct (resolved n) as [date |] eqn:Eres; [| split; [congruence | discriminate]].
  split; [reflexivity |]. intros _ Heq.
  unfold task_name, eligible in En.
  destruct (r !! "update_time") as [v |] eqn:Ev; [| discriminate].
  destruct (needs_update v) eqn:Ne; [| discriminate].
  assert ((<["update_time" := CStr date]> r) !! "update_time" = Some v) as Hl
    by (rewrite Heq; exact Ev).
  rewrite lookup_insert_eq in Hl. injection Hl as <-.
  rewrite (resolved_not_eligible n date Eres) in Ne. discriminate.
Qed.

Lemma row_outcome_le (r : row) :
  (if row_resolved r then 1 else 0) + (if row_unresolved r then 1 else 0)
  <= match task_name r with Some _ => 1 | None => 0 end.
Proof.
  unfold row_resolved, row_unresolved.
  destruct (task_name r) as [n |]; [| lia].
  unfold has_date, has_none, resolved_date.
  destruct (result_of n) as [[d |] | e]; cbn; try lia.
  destruct (truthy d); lia.
Qed.

(** X6.  The two counters at the end of a run in which every task
    completed: [updated_count] has grown by the number of eligible rows whose
    identifier was resolved, which is the number of rows the run changed,
    and [failed_count] by the number of eligible rows whose call returned
    [None]; a row whose call raised is in neither.  The summary is the last
    thing printed and shows these two counters. *)
Theorem summary_counts_are_exact
        (order : list nat) (rows : list row) (tasks : list (nat * cell)) (st : state) :
  models_to_update rows = Ok tasks ->
  order ≡ₚ seq 0 (List.length tasks) ->
  exists rows' st' evs,
    update order rows st = (Ok rows', st')
    /\ updated_count st' = (updated_count st + Z.of_nat (count row_resolved rows))%Z
    /\ failed_count st' = (failed_count st + Z.of_nat (count row_unresolved rows))%Z
    /\ count row_resolved rows
       = count (fun r => bool_decide (updated_row r <> r)) rows
    /\ count row_resolved rows + count row_unresolved rows <= List.length tasks
    /\ trace st'
       = trace st ++ evs ++ [Print (MsgSummary (updated_count st') (failed_count st'))].
Proof.
  intros Ht Hperm.
  pose proof (update_csv_file_state order rows tasks st Ht) as Heq. cbn zeta in Heq.
  destruct (pool_effect_counters (processed tasks order)) as [Hu Hf].
  rewrite (count_perm _ _ _ (processed_all tasks order Hperm)) in Hu.
  rewrite (count_perm _ _ _ (processed_all tasks order Hperm)) in Hf.
  rewrite (count_tasks_rows has_date rows tasks Ht) in Hu.
  rewrite (count_tasks_rows has_none rows tasks Ht) in Hf.
  rewrite Hu, Hf in Heq.
  do 3 eexists. split; [exact Heq |]. cbn [updated_count failed_count trace].
  split; [reflexivity | split; [reflexivity | split; [| split; [| reflexivity]]]].
  - clear. induction rows as [| r rows IH]; [reflexivity |].
    cbn [count]. rewrite IH. f_equal.
    destruct (row_resolved r) eqn:E.
    + rewrite bool_decide_eq_true_2; [reflexivity | apply updated_row_changes, E].
    + rewrite bool_decide_eq_false_2; [reflexivity |].
      rewrite updated_row_changes, E. discriminate.
  - apply models_to_update_inv in Ht as [_ ->]. clear.
    generalize 0. induction rows as [| r rows IH]; intros i; [cbn; lia |].
    cbn [count tasks_of]. specialize (IH (S i)).
    pose proof (row_outcome_le r) as Hr.
    destruct (task_name r) as [n |]; cbn [List.length]; lia.
Qed.

(** X7.  A date written by the run takes the row out of the next run: read
    again, the written table asks for the identifiers of the rows that were
    eligible and were not resolved, and for no other. *)
Theorem resolved_rows_are_not_retried (rows : list row) (tasks : list (nat * cell)) :
  models_to_update rows = Ok tasks ->
  models_to_update (map updated_row rows)
  = Ok (List.filter (fun t => negb (has_date (snd t))) tasks).
Proof.
  intros Ht. apply models_to_update_inv in Ht as [Hr ->].
  unfold models_to_update. generalize 0.
  induction rows as [| r rows IH]; intros i; [reflexivity |].
  cbn in Hr. apply andb_true_iff in Hr as [Hr Hrows].
  cbn [map tasks_of]. unfold readable in Hr.
  destruct (r !! "update_time") as [v |] eqn:Ev; [| discriminate].
  destruct (needs_update v) eqn:Ne.
  - destruct (r !! "name") as [n |] eqn:En; [| discriminate].
    assert (task_name r = Some n) as Htn
      by (unfold task_name, eligible; rewrite Ev, Ne; exact En).
    rewrite Htn. cbn [List.filter snd]. unfold has_date at 1.
    destruct (resolved n) as [date |] eqn:Eres; cbn [negb].
    + assert (updated_row r = <["update_time" := CStr date]> r) as ->
        by (unfold updated_row; rewrite Htn, Eres; reflexivity).
      cbn [models_to_update_from]. unfold row_get.
      rewrite lookup_insert_eq, (resolved_not_eligible n date Eres). apply IH, Hrows.
    + assert (updated_row r = r) as ->
        by (unfold updated_row; rewrite Htn, Eres; reflexivity).
      cbn [models_to_update_from]. unfold row_get.
      rewrite Ev, Ne, En, (IH Hrows (S i)). reflexivity.
  - assert (task_name r = None) as Htn
      by (unfold task_name, eligible; rewrite Ev, Ne; reflexivity).
    rewrite Htn.
    assert (updated_row r = r) as -> by (unfold updated_row; rewrite Htn; reflexivity).
    cbn [models_to_update_from]. unfold row_get. rewrite Ev, Ne. apply IH, Hrows.
Qed.

End RunOutcome.

(* ===================================================================== *)
(** ** The two timestamp fields of the structured source *)
(* ===================================================================== *)

Section StructuredFields.

Variable session_get : string -> Z -> res response.
Variable fromisoformat : string -> option datetime.

Local Abbreviation extract_api := (extract_update_time_from_api session_get fromisoformat).

(** The date a field of a JSON object gives: the field is there, is a
    string, and [fromisoformat] accepts it once [Z] is replaced. *)
Definition field_date (key : string) (l : list (string * json)) : option string :=
  match find (fun kv => String.eqb (fst kv) key) l with
  | Some (_, JStr s) =>
      match fromisoformat (replace_char "Z" "+00:00" s) with
      | Some dt => Some (strftime dt)
      | None => None
      end
  | _ => None
  end.

Lemma existsb_find {A} (p : A -> bool) (l : list A) :
  existsb p l = match find p l with Some _ => true | None => false end.
Proof.
  induction l as [| x l IH]; [reflexivity |].
  cbn. destruct (p x); [reflexivity | exact IH].
Qed.

Lemma try_field_dict (key : string) (l : list (string * json)) :
  try_field fromisoformat key (JDict l) = Ok (field_date key l).
Proof.
  unfold try_field, py_in, py_getitem, iso_field_date, field_date.
  rewrite existsb_find.
  destruct (find (fun kv => String.eqb (fst kv) key) l) as [[k v] |]; [| reflexivity].
  cbn [snd]. destruct v; try reflexivity.
  destruct (fromisoformat _); reflexivity.
Qed.

(** X8.  On an answer with status 200 whose body decodes to a JSON object,
    the structured source returns the date of [lastModified] whenever that
    field gives one, whatever [createdAt] holds; it returns the date of
    [createdAt] only when [lastModified] is absent, is not a string or does
    not parse; and it returns [None] when neither field gives a date. *)
Theorem last_modified_before_created_at
        (model_name : string) (resp : response) (l : list (string * json)) (st : state) :
  session_get (api_url model_name) 10 = Ok resp ->
  status_code resp = 200%Z ->
  json_body resp = Ok (JDict l) ->
  extract_api model_name st
  = (Ok (match field_date "lastModified" l with
         | Some date => Some date
         | None => field_date "createdAt" l
         end),
     after_api model_name st).
Proof.
  intros Hget Hs Hj.
  unfold extract_update_time_from_api, try_except, bind, get, emit, lift, ret, after_api.
  cbn. fold (api_url model_name). rewrite Hget. cbn. rewrite Hs, Hj.
  cbn -[try_field]. rewrite !try_field_dict.
  destruct (field_date "lastModified" l); [reflexivity |].
  destruct (field_date "createdAt" l); reflexivity.
Qed.

End StructuredFields.

(* ===================================================================== *)
(** ** Groups that take part in every match *)
(* ===================================================================== *)

(** Group [n] lies on every path through the expression. *)
Fixpoint binds (n : nat) (r : regex) : bool :=
  match r with
  | Group m r1 => Nat.eqb n m || binds n r1
  | Cat r1 r2 => binds n r1 || binds n r2
  | Alt r1 r2 => binds n r1 && binds n r2
  | Rep _ lo _ r1 => negb (Nat.eqb lo 0) && binds n r1
  | Eps | Lit _ | Set_ _ | Bol | Eol => false
  end.

Section Captures.

Context {R : Type}.
Variable icase : bool.
Variable n : nat.

(** What [exec] promises about group [n]: a success is a success of the
    continuation on groups that still hold [n] when they held it before,
    and that hold it when [must] is set. *)
Definition keeps (must : bool) (c : caps) (k : nat -> string -> caps -> option R) (x : R)
  : Prop :=
  exists i' s' c',
    k i' s' c' = Some x
    /\ (is_Some (group n c) -> is_Some (group n c'))
    /\ (must = true -> is_Some (group n c')).

Definition binding_for (r : regex) : Prop :=
  forall i s c k x, exec icase r i s c k = Some x -> keeps (binds n r) c k x.

Lemma keeps_here (c : caps) (k : nat -> string -> caps -> option R) (x : R)
      (i : nat) (s : string) :
  k i s c = Some x -> keeps false c k x.
Proof. intros H. exists i, s, c. split; [exact H | split; [auto | discriminate]]. Qed.

Lemma rep_binding (r : regex) (greedy : bool) (k : nat -> string -> caps -> option R) :
  binding_for r ->
  forall (m lo i : nat) (s : string) (c : caps) (x : R),
    rep (exec icase r) greedy k m lo i s c = Some x ->
    keeps (negb (Nat.eqb lo 0) && binds n r) c k x.
Proof.
  intros Hr. induction m as [| m IH]; intros lo i s c x H.
  - cbn in H. destruct (Nat.eqb lo 0) eqn:El; [| discriminate].
    cbn. eapply keeps_here, H.
  - cbn [rep] in H.
    assert (stop : (if Nat.eqb lo 0 then k i s c else None) = Some x ->
                   keeps (negb (Nat.eqb lo 0) && binds n r) c k x).
    { intros Hs. destruct (Nat.eqb lo 0) eqn:El; [| discriminate].
      cbn. eapply keeps_here, Hs. }
    assert (more : exec icase r i s c (rep (exec icase r) greedy k m (pred lo)) = Some x ->
                   keeps (negb (Nat.eqb lo 0) && binds n r) c k x).
    { intros Hm. apply Hr in Hm as (i1 & s1 & c1 & Hm & Hkeep1 & Hmust1).
      apply IH in Hm as (i2 & s2 & c2 & Hk & Hkeep2 & _).
      exists i2, s2, c2. split; [exact Hk | split; [auto |]].
      intros Hb. apply andb_true_iff in Hb as [_ Hb]. auto. }
    destruct greedy.
    + destruct (exec icase r i s c _) eqn:E; [injection H as <-; auto | auto].
    + destruct (if Nat.eqb lo 0 then k i s c else None) eqn:E;
        [injection H as <-; auto | auto].
Qed.

Lemma exec_binding (r : regex) : binding_for r.
Proof.
  induction r as [| p | cs | r1 IH1 r2 IH2 | r1 IH1 r2 IH2 | g lo hi r1 IH1
                  | m r1 IH1 | |]; intros i s c k x H; cbn [exec] in H; cbn [binds].
  - eapply keeps_here, H.
  - destruct s as [| a s']; [discriminate |].
    destruct (lit_eq icase p a); [| discriminate]. eapply keeps_here, H.
  - destruct s as [| a s']; [discriminate |].
    destruct (in_set icase cs a); [| discriminate]. eapply keeps_here, H.
  - apply IH1 in H as (i1 & s1 & c1 & H & Hkeep1 & Hmust1).
    apply IH2 in H as (i2 & s2 & c2 & H & Hkeep2 & Hmust2).
    exists i2, s2, c2. split; [exact H | split; [auto |]].
    intros Hb. apply orb_true_iff in Hb as [Hb | Hb]; auto.
  - destruct (exec icase r1 i s c k) eqn:E.
    + injection H as <-. apply IH1 in E as (i1 & s1 & c1 & E & Hkeep & Hmust).
      exists i1, s1, c1. split; [exact E | split; [auto |]].
      intros Hb. apply andb_true_iff in Hb as [Hb _]. auto.
    + apply IH2 in H as (i1 & s1 & c1 & H & Hkeep & Hmust).
      exists i1, s1, c1. split; [exact H | split; [auto |]].
      intros Hb. apply andb_true_iff in Hb as [_ Hb]. auto.
  - eapply (rep_binding r1 g k IH1), H.
  - apply IH1 in H as (i1 & s1 & c1 & H & Hkeep & Hmust).
    do 3 eexists. split; [exact H |]. cbn [group].
    destruct (Nat.eqb n m) eqn:E; cbn [orb].
    + split; eauto.
    + split; auto.
  - destruct (Nat.eqb i 0); [| discriminate]. eapply keeps_here, H.
  - destruct (at_end s); [| discriminate]. eapply keeps_here, H.
Qed.

End Captures.

(** A match of an expression on every path of which group 1 lies has a
    group 1. *)
Lemma search_from_group1 (icase : bool) (r : regex) (i : nat) (s : string) (m : found) :
  binds 1 r = true ->
  search_from icase r i s = Some m ->
  is_Some (group1 m).
Proof.
  intros Hb. revert i. induction s as [| a s IH]; intros i H; cbn [search_from] in H.
  - destruct (exec icase r i EmptyString [] (accept i)) eqn:E; [| discriminate].
    injection H as <-.
    apply (exec_binding icase 1) in E as (i' & s' & c' & E & _ & Hmust).
    injection E as <-. apply Hmust, Hb.
  - destruct (exec icase r i (String a s) [] (accept i)) eqn:E.
    + injection H as <-.
      apply (exec_binding icase 1) in E as (i' & s' & c' & E & _ & Hmust).
      injection E as <-. apply Hmust, Hb.
    + eapply IH, H.
Qed.

(* ===================================================================== *)
(** ** The document extractor: errors and the scan *)
(* ===================================================================== *)

Section ExtractorMore.

Variable BeautifulSoup : string -> res soup.
Variable now : datetime.

Local Abbreviation extract_html := (extract_update_time_from_html BeautifulSoup now).

Lemma first_return_returns {A B} (f : A -> res (option B)) (l : list A) :
  (forall x, x ∈ l -> exists r, f x = Ok r) ->
  exists r, first_return f l = Ok r.
Proof.
  induction l as [| x l IH]; intros H; cbn; [eauto |].
  destruct (H x) as [[v |] ->]; [left | eauto |].
  apply IH. intros y Hy. apply H. right. exact Hy.
Qed.

Lemma keyword_date_returns (date_str : string) :
  exists r, keyword_date now date_str = Ok r.
Proof.
  unfold keyword_date.
  destruct (matches (anchored mon_dd) date_str).
  { destruct (strptime fmt_b_d_Y _); eauto. }
  destruct (matches (anchored mon_dd_yyyy) date_str).
  { destruct (strptime fmt_b_d_comma_Y _); eauto. }
  destruct (contains "ago" (lower date_str)); eauto.
Qed.

Lemma keyword_patterns_bind :
  forallb (binds 1) keyword_patterns = true.
Proof. reflexivity. Qed.

Lemma keyword_pattern_returns (text : string) (pattern : regex) :
  pattern ∈ keyword_patterns ->
  exists r, keyword_pattern now text pattern = Ok r.
Proof.
  intros Hin. unfold keyword_pattern.
  destruct (search true pattern text) as [m |] eqn:E; [| eauto].
  assert (binds 1 pattern = true) as Hb.
  { pose proof keyword_patterns_bind as Hall.
    rewrite forallb_forall in Hall. apply Hall, list_elem_of_In, Hin. }
  destruct (search_from_group1 true pattern 0 text m Hb E) as [g Hg].
  unfold group1_str. rewrite Hg. apply keyword_date_returns.
Qed.

Lemma method1_returns (sp : soup) : exists r, method1 now sp = Ok r.
Proof.
  apply first_return_returns. intros text _.
  apply first_return_returns. intros pattern Hin.
  apply keyword_pattern_returns, Hin.
Qed.

Lemma method2_returns (sp : soup) : exists r, method2 sp = Ok r.
Proof.
  apply first_return_returns. intros attrs _. unfold meta_tag.
  destruct (search false (Group 1 iso) _) as [m |]; [| eauto].
  destruct (group1 m); eauto.
Qed.

Lemma scan_match_returns (m : string) : exists r, scan_match now m = Ok r.
Proof.
  unfold scan_match.
  destruct (matches (anchored iso) m); [eauto |].
  destruct (matches (anchored mon_dd_yyyy) m).
  { destruct (strptime fmt_b_d_comma_Y m); eauto. }
  destruct (matches (anchored mon_dd) m).
  { destruct (strptime fmt_b_d_Y _); eauto. }
  destruct (matches (anchored slashed) m); [| eauto].
  destruct (strptime fmt_m_d_Y m); eauto.
Qed.

Lemma method3_returns (html : string) : exists r, method3 now html = Ok r.
Proof.
  apply first_return_returns. intros pattern _.
  apply first_return_returns. intros m _. apply scan_match_returns.
Qed.

(** X9.  The extractor never raises, and the line for a document error is
    printed exactly when the parser itself raises: then the result is
    [None].  Once the document is parsed none of the three methods raises;
    in particular group 1 takes part in every match of the four keyword
    patterns, so [match.group(1)] is never [None].  The result is then
    returned with nothing printed. *)
Theorem document_error_only_from_parser (html : string) (st : state) :
  match BeautifulSoup html with
  | Raise e =>
      extract_html html st
      = (Ok None,
         State (updated_count st) (failed_count st) (trace st ++ [Print (MsgHtmlError e)]))
  | Ok sp =>
      exists r, extract_body BeautifulSoup now html = Ok r
                /\ extract_html html st = (Ok r, st)
  end.
Proof.
  rewrite extract_html_value. unfold extract_body.
  destruct (BeautifulSoup html) as [sp | e]; [| reflexivity].
  destruct (method1_returns sp) as [[v |] ->]; [eauto |].
  destruct (method2_returns sp) as [[v |] ->]; [eauto |].
  destruct (method3_returns html) as [r ->]. eauto.
Qed.

(** X10.  When the keyword texts and the [meta] tags give nothing, the
    first text of the form YYYY-MM-DD in the document is the result,
    wherever it stands and whatever other date shapes come before it: the
    scan tries that shape first over the whole document, and returns its
    first match as it is. *)
Theorem first_iso_text_wins
        (html : string) (sp : soup) (g : string) (others : list string) (st : state) :
  BeautifulSoup html = Ok sp ->
  method1 now sp = Ok None ->
  method2 sp = Ok None ->
  findall (Group 1 iso) html = g :: others ->
  extract_html html st = (Ok (Some g), st).
Proof.
  intros Hsoup H1 H2 Hall.
  apply extract_html_of_body. unfold extract_body. rewrite Hsoup, H1, H2.
  unfold method3, scan_patterns. cbn [first_return]. rewrite Hall. cbn [first_return].
  assert (canonical g = true) as Hc.
  { apply denotes_iso_canonical, (findall_denotes iso html). rewrite Hall. left. }
  unfold scan_match. rewrite (iso_test_canonical g Hc). reflexivity.
Qed.

End ExtractorMore.

(* ===================================================================== *)
(** ** Days the month does not have, and the other keyword phrases *)
(* ===================================================================== *)

(** "Last updated Mon D" and "Modified Mon D" *)
Definition last_updated_phrase (mon : string) (d : Z) : string :=
  "Last updated " +:+ bare_phrase mon d.

Definition modified_phrase (mon : string) (d : Z) : string :=
  "Modified " +:+ bare_phrase mon d.

(** The pattern is not found in the text; it is found and its group 1 is
    [g]; the text is a keyword text that [strip] leaves as it is. *)
Definition no_match (p : regex) (text : string) : bool :=
  match search true p text with Some _ => false | None => true end.

Definition captured (p : regex) (text g : string) : bool :=
  bool_decide (option_map group1 (search true p text) = Some (Some g)).

Definition keyword_text_of (html : string) : bool :=
  bool_decide (find_all_string re_keyword [NavigableString html] = [html])
  && bool_decide (strip html = html).

(** The steps on "Updated Mon D" and on "Mon D" that come after the branch
    of a month and a day has given nothing. *)
Definition rejected_steps (mon : string) (d : Z) : bool :=
  let html := keyword_phrase mon d in
  forallb (fun p => no_match p html) (tl keyword_patterns)
  && bool_decide (findall (Group 1 iso) html = [])
  && bool_decide (findall (Group 1 mon_dd_yyyy) html = [])
  && bool_decide (findall (Group 1 mon_dd) html = [bare_phrase mon d])
  && bool_decide (findall (Group 1 slashed) html = [])
  && bool_decide (findall (Group 1 slashed) (bare_phrase mon d) = []).

(** The steps of the first method on the two other phrases. *)
Definition other_keyword_steps (mon : string) (d : Z) : bool :=
  keyword_text_of (last_updated_phrase mon d)
  && captured (nth 0 keyword_patterns Eps) (last_updated_phrase mon d) (bare_phrase mon d)
  && keyword_text_of (modified_phrase mon d)
  && forallb (fun p => no_match p (modified_phrase mon d)) (firstn 3 keyword_patterns)
  && captured (nth 3 keyword_patterns Eps) (modified_phrase mon d) (bare_phrase mon d).

Lemma more_steps_ok :
  forallb (fun p => forallb (fun d => rejected_steps (fst p) d
                                      && other_keyword_steps (fst p) d)
                            (seqZ 1 31))
          month_table = true.
Proof. vm_compute. reflexivity. Qed.

Lemma more_table_facts (mon : string) (m d : Z) :
  (mon, m) ∈ month_table ->
  (1 <= d <= 31)%Z ->
  rejected_steps mon d = true /\ other_keyword_steps mon d = true.
Proof.
  intros Hin Hd.
  assert (d ∈ seqZ 1 31) as Hd' by (apply elem_of_seqZ; lia).
  pose proof more_steps_ok as Hs. rewrite forallb_forall in Hs.
  specialize (Hs _ (proj1 (list_elem_of_In _ _) Hin)). cbn [fst] in Hs.
  rewrite forallb_forall in Hs.
  specialize (Hs _ (proj1 (list_elem_of_In _ _) Hd')).
  apply andb_true_iff in Hs. exact Hs.
Qed.

Lemma make_none (y m d : Z) :
  check_date_fields y m d = false -> make y m d = None.
Proof.
  intros H. unfold make.
  generalize (eq_refl (check_date_fields y m d)).
  generalize (check_date_fields y m d) at 2 3.
  intros [|] e; [congruence | reflexivity].
Qed.

Section OtherPhrases.

Variable BeautifulSoup : string -> res soup.
Variable now : datetime.

Local Abbreviation extract_html := (extract_update_time_from_html BeautifulSoup now).

Lemma keyword_pattern_captured (p : regex) (text g : string) :
  captured p text g = true ->
  keyword_pattern now text p = keyword_date now g.
Proof.
  unfold captured, keyword_pattern. intros H. apply bool_decide_eq_true in H.
  destruct (search true p text) as [mt |]; [| discriminate].
  cbn in H. injection H as Hg. unfold group1_str. rewrite Hg. reflexivity.
Qed.

Lemma keyword_pattern_no_match (p : regex) (text : string) :
  no_match p text = true -> keyword_pattern now text p = Ok None.
Proof.
  unfold no_match, keyword_pattern.
  destruct (search true p text); [discriminate | reflexivity].
Qed.

Lemma method1_keyword_text (html : string) :
  keyword_text_of html = true ->
  method1 now [NavigableString html]
  = match first_return (keyword_pattern now html) keyword_patterns with
    | Ok None => Ok None
    | r => r
    end.
Proof.
  unfold keyword_text_of. intros H. apply andb_true_iff in H as [Hf Hs].
  apply bool_decide_eq_true in Hf. apply bool_decide_eq_true in Hs.
  unfold method1. rewrite Hf. cbn [first_return]. unfold keyword_text. rewrite Hs.
  reflexivity.
Qed.

(** The branch of a month and a day without a year on a day that the month
    does not have in the current year: nothing, by [ValueError]. *)
Lemma current_year_no_date (mon : string) (m d : Z) :
  month_fact mon m -> day_fact d ->
  (days_in_month (year now) m < d)%Z ->
  (1000 <= year now)%Z ->
  match strptime fmt_b_d_Y (bare_phrase mon d +:+ " " +:+ str_int (year now)) with
  | Some parsed => Ok (Some (strftime parsed))
  | None => Ok None
  end = @Ok (option string) None.
Proof.
  intros Hmon Hday Hd Hy. pose proof (year_range now) as Hr.
  unfold bare_phrase. rewrite !app_assoc_str.
  rewrite (strptime_b_d_Y_text mon m d (year now) Hmon Hday) by lia.
  rewrite make_none; [reflexivity |].
  unfold check_date_fields. apply andb_false_iff. right. apply Z.leb_gt. exact Hd.
Qed.

(** X11.  A day that the month does not have in the current year is not
    turned into a date: for each month name and each day up to 31 beyond the
    month's length in the year of [datetime.now()] ("Feb 30", "Apr 31",
    "Feb 29" outside a leap year), the documents "Updated Mon D" and
    "Mon D" give [None], with nothing printed; no neighbouring date is
    substituted and no exception leaves the extractor. *)
Theorem nonexistent_day_gives_nothing (mon : string) (m d : Z) (st : state) :
  (mon, m) ∈ month_table ->
  (days_in_month (year now) m < d <= 31)%Z ->
  (1000 <= year now)%Z ->
  (BeautifulSoup (keyword_phrase mon d) = Ok [NavigableString (keyword_phrase mon d)] ->
   extract_html (keyword_phrase mon d) st = (Ok None, st))
  /\ (BeautifulSoup (bare_phrase mon d) = Ok [NavigableString (bare_phrase mon d)] ->
      extract_html (bare_phrase mon d) st = (Ok None, st)).
Proof.
  intros Hin Hd Hy.
  assert (1 <= d <= 31)%Z as Hd31.
  { unfold days_in_month in Hd.
    repeat match type of Hd with context [if ?b then _ else _] => destruct b end; lia. }
  destruct (table_facts mon m d Hin Hd31) as (Hmon & Hday & Hm & Hk & Hs).
  destruct (more_table_facts mon m d Hin Hd31) as [Hrej _].
  pose proof (current_year_no_date mon m d Hmon Hday (proj1 Hd) Hy) as Hdate.
  unfold rejected_steps in Hrej. unfold scan_steps in Hs. unfold keyword_steps in Hk.
  do 5 (apply andb_true_iff in Hrej as [Hrej ?]).
  repeat (apply andb_true_iff in Hs as [Hs ?]).
  repeat (apply andb_true_iff in Hk as [Hk ?]).
  repeat match goal with
         | H : bool_decide _ = true |- _ => apply bool_decide_eq_true in H
         | H : negb _ = true |- _ => apply negb_true_iff in H
         end.
  assert (scan_match now (bare_phrase mon d) = Ok None) as Hscan.
  { unfold scan_match.
    repeat match goal with H : matches _ (bare_phrase mon d) = _ |- _ => rewrite H end.
    exact Hdate. }
  split; intros Hparse; apply extract_html_of_body; unfold extract_body;
    rewrite Hparse.
  - assert (method1 now [NavigableString (keyword_phrase mon d)] = Ok None) as ->.
    { rewrite method1_keyword_text
        by (unfold keyword_text_of; apply andb_true_iff; split;
            apply bool_decide_eq_true; assumption).
      match goal with H : option_map _ _ = _ |- _ => rename H into Hcap end.
      apply (bool_decide_eq_true_2 _) in Hcap.
      rewrite forallb_forall in Hrej.
      unfold keyword_patterns at 1. cbn [first_return].
      rewrite (keyword_pattern_captured _ _ (bare_phrase mon d)) by exact Hcap.
      unfold keyword_date.
      match goal with H : matches (anchored mon_dd) _ = true |- _ => rewrite H end.
      rewrite Hdate.
      rewrite !keyword_pattern_no_match by (apply Hrej; cbn; auto 10).
      reflexivity. }
    cbn [method2 find_all_tag first_return].
    unfold method3, scan_patterns. cbn [first_return].
    repeat match goal with
           | H : findall _ (keyword_phrase mon d) = _ |- _ => rewrite H
           end.
    cbn [first_return]. rewrite Hscan. reflexivity.
  - unfold method1.
    match goal with H : find_all_string _ _ = [] |- _ => rewrite H end.
    cbn [method2 find_all_tag first_return].
    unfold method3, scan_patterns. cbn [first_return].
    repeat match goal with
           | H : findall _ (bare_phrase mon d) = _ |- _ => rewrite H
           end.
    cbn [first_return]. rewrite Hscan. reflexivity.
Qed.

(** X12.  "Last updated Mon D" and "Modified Mon D" are read like
    "Updated Mon D": for each month name, each day the month has in the
    current year and a current year of four digits, either document gives the
    date of that month and day in the year of [datetime.now()].  The first is
    caught by the first pattern already, which ignores case and finds
    "updated Mon D" inside it; the second by the fourth pattern. *)
Theorem other_keywords_in_current_year (mon : string) (m d : Z) (html : string) (st : state) :
  (mon, m) ∈ month_table ->
  (1 <= d <= days_in_month (year now) m)%Z ->
  (1000 <= year now)%Z ->
  html = last_updated_phrase mon d \/ html = modified_phrase mon d ->
  BeautifulSoup html = Ok [NavigableString html] ->
  extract_html html st = (Ok (Some (iso_text (year now) m d)), st).
Proof.
  intros Hin Hd Hy Hhtml Hparse.
  assert (1 <= d <= 31)%Z as Hd31.
  { unfold days_in_month in Hd.
    repeat match type of Hd with context [if ?b then _ else _] => destruct b end; lia. }
  destruct (table_facts mon m d Hin Hd31) as (Hmon & Hday & Hm & Hk & _).
  destruct (more_table_facts mon m d Hin Hd31) as [_ Hoth].
  pose proof (current_year_date now mon m d Hmon Hday Hm Hd Hy) as Hdate.
  assert (keyword_date now (bare_phrase mon d) = Ok (Some (iso_text (year now) m d)))
    as Hkd.
  { unfold keyword_steps in Hk. apply andb_true_iff in Hk as [_ Hbranch].
    unfold keyword_date. rewrite Hbranch. exact Hdate. }
  unfold other_keyword_steps in Hoth.
  apply andb_true_iff in Hoth as [Hoth Hcap4].
  apply andb_true_iff in Hoth as [Hoth Hno].
  apply andb_true_iff in Hoth as [Hoth Htext2].
  apply andb_true_iff in Hoth as [Htext1 Hcap1].
  rewrite forallb_forall in Hno.
  unfold keyword_patterns in Hcap1, Hcap4. cbn [nth] in Hcap1, Hcap4.
  apply extract_html_of_body. unfold extract_body. rewrite Hparse.
  destruct Hhtml as [-> | ->].
  - rewrite (method1_keyword_text _ Htext1).
    unfold keyword_patterns at 1. cbn [first_return].
    rewrite (keyword_pattern_captured _ _ _ Hcap1), Hkd. reflexivity.
  - rewrite (method1_keyword_text _ Htext2).
    unfold keyword_patterns at 1. cbn [first_return].
    rewrite !keyword_pattern_no_match by (apply Hno; cbn; auto 10).
    rewrite (keyword_pattern_captured _ _ _ Hcap4), Hkd. reflexivity.
Qed.

End OtherPhrases.

(* ===================================================================== *)
(** ** Requests and delays *)
(* ===================================================================== *)

(** The delay; the request for the page (timeout 15); the request to the
    API (timeout 10). *)
Definition is_delay (ev : event) : bool :=
  match ev with Sleep _ => true | _ => false end.

Definition is_page_get (ev : event) : bool :=
  match ev with Get _ t => (t =? 15)%Z | _ => false end.

Definition is_api_get (ev : event) : bool :=
  match ev with Get _ t => (t =? 10)%Z | _ => false end.

(** Every delay is followed at once by a page request, and there is no
    page request without the delay before it. *)
Fixpoint paced (evs : list event) : bool :=
  match evs with
  | [] => true
  | Sleep _ :: evs' =>
      match evs' with
      | Get _ t :: evs'' => (t =? 15)%Z && paced evs''
      | _ => false
      end
  | Get _ t :: evs' => negb (t =? 15)%Z && paced evs'
  | Print _ :: evs' => paced evs'
  end.

Lemma paced_app (l1 l2 : list event) :
  paced l1 = true -> paced l2 = true -> paced (l1 ++ l2) = true.
Proof.
  intros H1 H2. remember (List.length l1) as n eqn:Hn.
  assert (List.length l1 <= n) as Hle by lia. clear Hn.
  revert l1 H1 Hle. induction n as [| n IH]; intros l1 H1 Hle.
  - destruct l1; [exact H2 | cbn in Hle; lia].
  - destruct l1 as [| ev l1]; [exact H2 |]. cbn in Hle.
    destruct ev as [url t | dr | m]; cbn [paced app] in *.
    + apply andb_true_iff in H1 as [Ht H1]. rewrite Ht. apply IH; [exact H1 | lia].
    + destruct l1 as [| [url t | dr' | m] l1]; try discriminate.
      cbn [app] in *. apply andb_true_iff in H1 as [Ht H1]. rewrite Ht.
      cbn in Hle. apply IH; [exact H1 | lia].
    + apply IH; [exact H1 | lia].
Qed.

Lemma paced_prints (l : list event) :
  Forall (fun ev => exists m, ev = Print m) l -> paced l = true.
Proof.
  induction 1 as [| ev l [m ->] _ IH]; [reflexivity | exact IH].
Qed.

Lemma count_prints (p : event -> bool) (l : list event) :
  (forall m, p (Print m) = false) ->
  Forall (fun ev => exists m, ev = Print m) l -> count p l = 0.
Proof.
  intros Hp. induction 1 as [| ev l [m ->] _ IH]; [reflexivity |].
  cbn. rewrite Hp, IH. reflexivity.
Qed.

Lemma count_flat_map_le {A B} (p : B -> bool) (f : A -> list B) (l : list A) :
  (forall x, count p (f x) <= 1) -> count p (flat_map f l) <= List.length l.
Proof.
  intros H. induction l as [| x l IH]; [cbn; lia |].
  cbn. rewrite count_app. specialize (H x). lia.
Qed.

Lemma count_flat_map_eq {A B} (p q : B -> bool) (f : A -> list B) (l : list A) :
  (forall x, count p (f x) = count q (f x)) ->
  count p (flat_map f l) = count q (flat_map f l).
Proof.
  intros H. induction l as [| x l IH]; [reflexivity |].
  cbn. rewrite !count_app, H, IH. reflexivity.
Qed.

Lemma count_flat_map_one {A B} (p : B -> bool) (f : A -> list B) (l : list A) :
  (forall x, count p (f x) = 1) -> count p (flat_map f l) = List.length l.
Proof.
  intros H. induction l as [| x l IH]; [reflexivity |].
  cbn. rewrite count_app, H, IH. reflexivity.
Qed.

Section Requests.

Variable session_get : string -> Z -> res response.
Variable fromisoformat : string -> option datetime.
Variable BeautifulSoup : string -> res soup.
Variable now : datetime.
Variable delay_range : Z * Z.

Local Abbreviation fetch :=
  (fetch_model_update_time session_get fromisoformat BeautifulSoup now delay_range).
Local Abbreviation events_of_task :=
  (task_events session_get fromisoformat BeautifulSoup now delay_range).
Local Abbreviation update :=
  (update_csv_file session_get fromisoformat BeautifulSoup now delay_range).

(** What the events of one call and of one task have in common. *)
Definition budgeted (n : string) (evs : list event) : Prop :=
  (exists evs', evs = Get (api_url n) 10 :: evs')
  /\ paced evs = true
  /\ count is_api_get evs = 1
  /\ count is_delay evs = count is_page_get evs
  /\ count is_page_get evs <= 1.

Lemma fetch_st0_budget (model_name : cell) :
  budgeted (fstr model_name) (trace (snd (fetch model_name st0))).
Proof.
  destruct (fetch_st0_cases session_get fromisoformat BeautifulSoup now delay_range
              model_name) as (r & u & f & evs & -> & Hc).
  cbn [snd trace]. unfold budgeted. split; [eauto |].
  destruct Hc as [(date & v & -> & _) | [(mid & m & v & -> & _ & Hmid & _) | (e & -> & _)]].
  - cbn. auto.
  - assert (Forall (fun ev => exists m, ev = Print m) (mid ++ [Print m])) as Hp.
    { apply Forall_app. split; [| repeat constructor; eauto].
      destruct Hmid as [-> | [e ->]]; repeat constructor; eauto. }
    cbn [paced count is_api_get is_delay is_page_get Z.eqb Pos.eqb negb andb].
    rewrite (paced_prints _ Hp), (count_prints is_api_get _ (fun _ => eq_refl) Hp),
      (count_prints is_delay _ (fun _ => eq_refl) Hp),
      (count_prints is_page_get _ (fun _ => eq_refl) Hp).
    cbn. auto.
  - cbn. auto.
Qed.

Lemma task_events_budget (task : nat * cell) :
  budgeted (fstr (snd task)) (events_of_task task).
Proof.
  unfold task_events, fetch_effect.
  destruct (fetch_st0_budget (snd task)) as ([evs' Hev] & Hp & Ha & Hd & Hg).
  assert (exists tail, Forall (fun ev => exists m, ev = Print m) tail
                       /\ match fetch_result session_get fromisoformat BeautifulSoup now
                                             delay_range (snd task) with
                          | Raise e => [Print (MsgTaskError (fstr (snd task)) e)]
                          | Ok _ => []
                          end = tail) as (tail & Ht & ->).
  { destruct (fetch_result _ _ _ _ _ _) as [o | e].
    - exists []. split; [constructor | reflexivity].
    - eexists. split; [| reflexivity]. repeat constructor. eauto. }
  unfold budgeted.
  rewrite !count_app, (count_prints is_api_get _ (fun _ => eq_refl) Ht),
    (count_prints is_delay _ (fun _ => eq_refl) Ht),
    (count_prints is_page_get _ (fun _ => eq_refl) Ht), !Nat.add_0_r.
  split; [rewrite Hev; cbn; eauto |].
  split; [apply paced_app; [exact Hp | apply paced_prints, Ht] | auto].
Qed.

(** X13.  One call of [fetch_model_update_time] sends the API request
    first and without a delay, and at most one page request; a page request
    comes directly after the delay, and there is no delay without the page
    request after it.  Nothing is retried. *)
Theorem page_request_follows_delay (model_name : cell) (st : state) :
  exists evs,
    trace (snd (fetch model_name st))
    = trace st ++ Get (api_url (fstr model_name)) 10 :: evs
    /\ paced evs = true
    /\ count is_api_get evs = 0
    /\ count is_delay evs = count is_page_get evs
    /\ count is_page_get evs <= 1.
Proof.
  rewrite (fetch_eq session_get fromisoformat BeautifulSoup now delay_range model_name st).
  cbn [snd plus_state trace]. unfold fetch_effect.
  destruct (fetch_st0_budget model_name) as ([evs Hev] & Hp & Ha & Hd & Hg).
  rewrite Hev in *. exists evs. cbn in Hp, Ha, Hd, Hg.
  repeat split; auto; lia.
Qed.

(** X14.  The requests of a whole run in which every task completed: one
    API request per eligible row, at most one page request per eligible
    row, and as many delays as page requests. *)
Theorem run_request_budget
        (order : list nat) (rows : list row) (tasks : list (nat * cell)) (st : state) :
  models_to_update rows = Ok tasks ->
  order ≡ₚ seq 0 (List.length tasks) ->
  exists rows' st' evs,
    update order rows st = (Ok rows', st')
    /\ trace st' = trace st ++ evs
    /\ count is_api_get evs = List.length tasks
    /\ count is_delay evs = count is_page_get evs
    /\ count is_page_get evs <= List.length tasks.
Proof.
  intros Ht Hperm.
  destruct (update_csv_file_eq session_get fromisoformat BeautifulSoup now delay_range
              order rows tasks st Ht) as (u & f & Heq).
  do 3 eexists. split; [exact Heq | split; [reflexivity |]].
  pose proof (processed_all tasks order Hperm) as Hp.
  assert (forall p : event -> bool,
             (forall m, p (Print m) = false) ->
             count p (Print (MsgToUpdate (List.length tasks))
                        :: flat_map events_of_task (processed tasks order)
                        ++ [Print (MsgSummary u f)])
             = count p (flat_map events_of_task tasks)) as Hcount.
  { intros p Hpr. cbn [count]. rewrite Hpr, count_app. cbn [count].
    rewrite Hpr, (count_flat_map_perm p events_of_task _ _ Hp). lia. }
  rewrite !Hcount by reflexivity.
  split; [| split].
  - apply count_flat_map_one. intros t. apply (task_events_budget t).
  - apply count_flat_map_eq. intros t. apply (task_events_budget t).
  - apply count_flat_map_le. intros t. apply (task_events_budget t).
Qed.

End Requests.

(* ===================================================================== *)
(** ** A keyword phrase with a year *)
(* ===================================================================== *)

(** "Mon D, YYYY" and "Updated Mon D, YYYY" *)
Definition dated_phrase (mon : string) (d y : Z) : string :=
  mon +:+ String " " (str_int d +:+ String "," (String " " (pad4 y))).

Definition updated_dated_phrase (mon : string) (d y : Z) : string :=
  "Updated" +:+ String " " (dated_phrase mon d y).

(** [(?:,\s+\d{4})?] *)
Definition year_opt : regex := opt (cat [Lit ","; ws; times 4 Re.d]).

(** The month name under the patterns of the source: three letters, and
    white space before it ends at its first letter. *)
Definition letters_fact (mon : string) : Prop :=
  (forall (ic : bool) (i : nat) (rest : string) (c : caps)
          (k : nat -> string -> caps -> option found),
      exec ic (times 3 letter) i (mon +:+ rest) c k = k (3 + i) rest c)
  /\ (forall (i : nat) (rest : string) (c : caps)
             (k : nat -> string -> caps -> option found) (x : found),
         k (S i) (mon +:+ rest) c = Some x ->
         exec true ws i (String " " (mon +:+ rest)) c k = Some x).

Ltac letters_table :=
  split;
  [ intros [|] ? ? ? k; vm_compute; destruct (k _ _ _); reflexivity
  | intros ? ? ? k ? H; vm_compute; vm_compute in H; rewrite H; reflexivity ].

Lemma letters_ok : Forall (fun p => letters_fact (fst p)) month_table.
Proof. repeat (constructor; [letters_table |]). constructor. Qed.

(** The day before a comma: under [\s+\d{1,2}] in a search and in an
    anchored test that goes on, under the anchored test that ends there,
    and under [\s+] and the day of [strptime]. *)
Definition day_comma_fact (d : Z) : Prop :=
  (forall (ic : bool) (i : nat) (rest : string) (c : caps)
          (k : nat -> string -> caps -> option found) (x : found),
      k (1 + String.length (str_int d) + i) (String "," rest) c = Some x ->
      exec ic (Cat ws (between 1 2 Re.d)) i (String " " (str_int d +:+ String "," rest)) c k
      = Some x)
  /\ (forall (i : nat) (rest : string) (c : caps)
             (k : nat -> string -> caps -> option found),
         exec false (Cat ws (between 1 2 Re.d)) i
              (String " " (str_int d +:+ String "," rest)) c
              (fun i' s' c' => exec false Eol i' s' c' k) = None)
  /\ (forall (k : nat -> string -> caps -> option found) (rest : string) (c : caps)
             (x : found),
         k (4 + String.length (str_int d)) (String "," rest) ((g_d, str_int d) :: c)
         = Some x ->
         exec true (Cat ws re_d) 3 (String " " (str_int d +:+ String "," rest)) c k
         = Some x).

Ltac day_comma_table :=
  split; [| split];
  [ intros [|] ? ? ? k ? H; vm_compute; vm_compute in H; rewrite H; reflexivity
  | intros ? [|] ? k; vm_compute; reflexivity
  | intros k ? ? ? H; vm_compute; vm_compute in H; rewrite H; reflexivity ].

Lemma days_comma_ok : Forall day_comma_fact (seqZ 1 31).
Proof.
  change (seqZ 1 31) with
    [1; 2; 3; 4; 5; 6; 7; 8; 9; 10; 11; 12; 13; 14; 15; 16; 17; 18; 19; 20;
     21; 22; 23; 24; 25; 26; 27; 28; 29; 30; 31]%Z.
  repeat (constructor; [day_comma_table |]). constructor.
Qed.

Lemma digit_in_digits_cs (n : Z) : in_set false Digit (digit n) = true.
Proof. digit_cases n. Qed.

Lemma digit_not_space_cs (n : Z) : in_set false Space (digit n) = false.
Proof. digit_cases n. Qed.

Lemma is_space_digit (n : Z) : is_space (digit n) = false.
Proof. digit_cases n. Qed.

(** The year at the end of the text, under the three expressions that
    read it. *)
Lemma year_opt_tail (i : nat) (y : Z) (c : caps)
      (k : nat -> string -> caps -> option found) (x : found) :
  k (6 + i) EmptyString c = Some x ->
  exec true year_opt i (String "," (String " " (pad4 y))) c k = Some x.
Proof.
  intros H. unfold pad4, pad2, year_opt.
  cbn -[in_set digit Nat.sub].
  change (in_set true Space " ") with true. cbn -[in_set digit Nat.sub].
  rewrite !digit_not_space, !digit_in_digits.
  cbn in H. rewrite H. reflexivity.
Qed.

Lemma year_anchored_tail (i : nat) (y : Z) (c : caps)
      (k : nat -> string -> caps -> option found) (x : found) :
  k (6 + i) EmptyString c = Some x ->
  exec false (Cat (Lit ",") (Cat ws (times 4 Re.d))) i (String "," (String " " (pad4 y))) c
       (fun i' s' c' => exec false Eol i' s' c' k) = Some x.
Proof.
  intros H. unfold pad4, pad2.
  cbn -[in_set digit Nat.sub].
  change (in_set false Space " ") with true. cbn -[in_set digit Nat.sub].
  rewrite !digit_not_space_cs, !digit_in_digits_cs.
  cbn in H. rewrite H. reflexivity.
Qed.

Lemma year_comma_suffix (i : nat) (y : Z) (c : caps) :
  exec true (Cat (Lit ",") (Cat ws re_Y)) i (String "," (String " " (pad4 y))) c (accept 0)
  = Some (Found 0 (i + 6) EmptyString ((g_Y, pad4 y) :: c)).
Proof.
  unfold pad4, pad2.
  cbn -[in_set digit Nat.sub].
  change (in_set true Space " ") with true. cbn -[in_set digit Nat.sub].
  rewrite !digit_not_space, !digit_in_digits.
  replace (S (S (S (S (S (S i))))) - S (S i)) with 4 by lia.
  replace (S (S (S (S (S (S i)))))) with (i + 6) by lia.
  reflexivity.
Qed.

Lemma length_dated_phrase (mon : string) (d y : Z) :
  String.length mon = 3 ->
  String.length (dated_phrase mon d y) = 10 + String.length (str_int d).
Proof.
  intros H. unfold dated_phrase, pad4, pad2.
  rewrite length_app_str, H. cbn [String.length]. rewrite length_app_str.
  cbn [String.length]. lia.
Qed.

Lemma app_empty_str (s : string) : s +:+ EmptyString = s.
Proof.
  induction s as [| a s IH]; [reflexivity |].
  change (String a (s +:+ EmptyString) = String a s). rewrite IH. reflexivity.
Qed.

Lemma take_str_all (s : string) : take_str (String.length s) s = s.
Proof.
  rewrite <- (app_empty_str s) at 2. rewrite take_str_app. reflexivity.
Qed.

(** The first keyword pattern on "Updated Mon D, YYYY": group 1 is
    "Mon D, YYYY". *)
Lemma search_hit (ic : bool) (r : regex) (s : string) (m : found) :
  exec ic r 0 s [] (accept 0) = Some m -> search ic r s = Some m.
Proof. unfold search. destruct s; cbn [search_from]; intros ->; reflexivity. Qed.

Lemma dated_phrase_captured (mon : string) (d y : Z) :
  String.length mon = 3 -> letters_fact mon -> day_comma_fact d ->
  option_map group1 (search true (nth 0 keyword_patterns Eps) (updated_dated_phrase mon d y))
  = Some (Some (dated_phrase mon d y)).
Proof.
  intros Hlen [Hletters Hws] (Hday & _ & _).
  assert (exec true (nth 0 keyword_patterns Eps) 0
               (updated_dated_phrase mon d y) [] (accept 0)
          = Some (Found 0 (18 + String.length (str_int d)) EmptyString
                        [(1, dated_phrase mon d y)])) as H.
  { change (exec true (nth 0 keyword_patterns Eps) 0
                 (updated_dated_phrase mon d y) [] (accept 0))
      with (exec true ws 7 (String " " (dated_phrase mon d y)) []
              (fun i0 s0 c0 =>
                 exec true (times 3 letter) i0 s0 c0
                      (fun i1 s1 c1 =>
                         exec true (Cat ws (between 1 2 Re.d)) i1 s1 c1
                              (fun i2 s2 c2 =>
                                 exec true year_opt i2 s2 c2
                                      (fun i' s' c' =>
                                         accept 0 i' s'
                                                ((1, take_str (i' - i0) s0) :: c')))))).
    unfold dated_phrase at 1.
    apply Hws. rewrite Hletters. apply Hday. apply year_opt_tail.
    unfold accept. f_equal. f_equal; [lia |].
    f_equal. f_equal.
    replace (6 + (1 + String.length (str_int d) + (3 + 8)) - 8)
      with (String.length (dated_phrase mon d y))
      by (rewrite (length_dated_phrase mon d y Hlen); lia).
    apply take_str_all. }
  rewrite (search_hit _ _ _ _ H). reflexivity.
Qed.

(** "Mon D, YYYY" is not of the shape without a year, and is of the shape
    with one. *)
Lemma dated_phrase_shape (mon : string) (d y : Z) :
  letters_fact mon -> day_comma_fact d ->
  matches (anchored mon_dd) (dated_phrase mon d y) = false
  /\ matches (anchored mon_dd_yyyy) (dated_phrase mon d y) = true.
Proof.
  intros [Hletters _] (Hday & Hend & _). unfold matches, rmatch. split.
  - change (exec false (anchored mon_dd) 0 (dated_phrase mon d y) [] (accept 0))
      with (exec false (times 3 letter) 0 (dated_phrase mon d y) []
              (fun i1 s1 c1 =>
                 exec false (Cat ws (between 1 2 Re.d)) i1 s1 c1
                      (fun i2 s2 c2 => exec false Eol i2 s2 c2 (accept 0)))).
    unfold dated_phrase. rewrite Hletters, Hend. reflexivity.
  - change (exec false (anchored mon_dd_yyyy) 0 (dated_phrase mon d y) [] (accept 0))
      with (exec false (times 3 letter) 0 (dated_phrase mon d y) []
              (fun i1 s1 c1 =>
                 exec false (Cat ws (between 1 2 Re.d)) i1 s1 c1
                      (fun i2 s2 c2 =>
                         exec false (Cat (Lit ",") (Cat ws (times 4 Re.d))) i2 s2 c2
                              (fun i3 s3 c3 => exec false Eol i3 s3 c3 (accept 0))))).
    unfold dated_phrase. rewrite Hletters.
    erewrite Hday; [reflexivity |]. apply year_anchored_tail. reflexivity.
Qed.

(** [strptime] with "%b %d, %Y" on "Mon D, YYYY". *)
Lemma strptime_b_d_comma_Y_text (mon : string) (m d y : Z) :
  month_fact mon m -> day_fact d -> day_comma_fact d -> (0 <= y <= 9999)%Z ->
  strptime fmt_b_d_comma_Y (dated_phrase mon d y) = make y m d.
Proof.
  intros (Hlen & Hidx & Hmon) (Hint & _) (_ & _ & Hday) Hy.
  unfold strptime, rmatch.
  change (exec true fmt_b_d_comma_Y 0 ?s [] (accept 0))
    with (exec true re_b 0 s []
            (fun i1 s1 c1 =>
               exec true (Cat ws re_d) i1 s1 c1
                    (fun i2 s2 c2 =>
                       exec true (Cat (Lit ",") (Cat ws re_Y)) i2 s2 c2 (accept 0)))).
  unfold dated_phrase at 1.
  erewrite Hmon; [| apply Hday, year_comma_suffix].
  cbn [m_end m_caps month_of group Nat.eqb g_b g_d g_Y g_m].
  rewrite (length_dated_phrase mon d y Hlen).
  replace (4 + String.length (str_int d) + 6) with (10 + String.length (str_int d)) by lia.
  rewrite Nat.eqb_refl. cbn [negb].
  rewrite Hidx, Hint, int_pad4 by lia. reflexivity.
Qed.

Lemma rstrip_app_fixed (a b : string) :
  rstrip b = b -> b <> EmptyString ->
  rstrip (a +:+ b) = a +:+ b /\ a +:+ b <> EmptyString.
Proof.
  intros Hb Hne. induction a as [| x a [IH IHne]]; [auto |].
  change (String x a +:+ b) with (String x (a +:+ b)). split; [| discriminate].
  cbn [rstrip]. rewrite IH. destruct (a +:+ b); [congruence | reflexivity].
Qed.

Lemma rstrip_pad4 (y : Z) : rstrip (pad4 y) = pad4 y /\ pad4 y <> EmptyString.
Proof.
  split; [| discriminate]. unfold pad4, pad2. cbn [rstrip].
  rewrite !is_space_digit. reflexivity.
Qed.

Lemma keyword_found (rest : string) :
  exists m, search true re_keyword ("Updated" +:+ rest) = Some m.
Proof. eexists. apply search_hit. vm_compute. reflexivity. Qed.

(** "Updated Mon D, YYYY" is a keyword text that [strip] leaves as it is. *)
Lemma dated_phrase_keyword_text (mon : string) (d y : Z) :
  keyword_text_of (updated_dated_phrase mon d y) = true.
Proof.
  unfold keyword_text_of. apply andb_true_iff. split; apply bool_decide_eq_true.
  - cbn [find_all_string].
    destruct (keyword_found (String " " (dated_phrase mon d y))) as [m Hm].
    unfold updated_dated_phrase. rewrite Hm. reflexivity.
  - unfold strip, updated_dated_phrase.
    change (lstrip ("Updated" +:+ ?s)) with ("Updated" +:+ s).
    unfold dated_phrase.
    destruct (rstrip_pad4 y) as [H1 H2].
    apply (rstrip_app_fixed "Updated").
    + apply (rstrip_app_fixed (String " " mon)).
      * apply (rstrip_app_fixed (String " " (str_int d))).
        -- apply (rstrip_app_fixed ", "); assumption.
        -- discriminate.
      * discriminate.
    + discriminate.
Qed.

Section ExplicitYear.

Variable BeautifulSoup : string -> res soup.
Variable now : datetime.

Lemma dated_facts (mon : string) (m d : Z) :
  (mon, m) ∈ month_table ->
  (1 <= d <= 31)%Z ->
  letters_fact mon /\ day_comma_fact d.
Proof.
  intros Hin Hd.
  assert (d ∈ seqZ 1 31) as Hd' by (apply elem_of_seqZ; lia).
  pose proof letters_ok as Hl. rewrite Forall_forall in Hl.
  pose proof days_comma_ok as Hds. rewrite Forall_forall in Hds.
  split; [exact (Hl _ Hin) | exact (Hds _ Hd')].
Qed.

(** X15.  A keyword phrase with a year is read with that year, whatever
    the clock says: for each month name, each year of four digits and each
    day the month has in that year, the document "Updated Mon D, YYYY" gives
    the date of that month and day in the year YYYY. *)
Theorem explicit_year_is_kept (mon : string) (m d y : Z) (st : state) :
  (mon, m) ∈ month_table ->
  (1 <= d <= days_in_month y m)%Z ->
  (1000 <= y <= 9999)%Z ->
  BeautifulSoup (updated_dated_phrase mon d y)
  = Ok [NavigableString (updated_dated_phrase mon d y)] ->
  extract_update_time_from_html BeautifulSoup now (updated_dated_phrase mon d y) st
  = (Ok (Some (iso_text y m d)), st).
Proof.
  intros Hin Hd Hy Hparse.
  assert (1 <= d <= 31)%Z as Hd31.
  { unfold days_in_month in Hd.
    repeat match type of Hd with context [if ?b then _ else _] => destruct b end; lia. }
  destruct (table_facts mon m d Hin Hd31) as (Hmon & Hday & Hm & _ & _).
  destruct (dated_facts mon m d Hin Hd31) as [Hletters Hcomma].
  pose proof (proj1 Hmon) as Hlen.
  destruct (dated_phrase_shape mon d y Hletters Hcomma) as [Hno Hyes].
  apply extract_html_of_body. unfold extract_body. rewrite Hparse.
  rewrite (method1_keyword_text now _ (dated_phrase_keyword_text mon d y)).
  unfold keyword_patterns at 1. cbn [first_return].
  rewrite (keyword_pattern_captured now _ _ (dated_phrase mon d y))
    by (apply bool_decide_eq_true_2, dated_phrase_captured; assumption).
  unfold keyword_date. rewrite Hno, Hyes.
  rewrite (strptime_b_d_comma_Y_text mon m d y Hmon Hday Hcomma) by lia.
  assert (check_date_fields y m d = true) as Hc.
  { unfold check_date_fields. repeat (apply andb_true_iff; split); lia. }
  pose proof (make_strftime _ _ _ (proj1 Hy) Hc) as Hs.
  destruct (make y m d) as [dt |]; cbn in Hs; [| discriminate].
  assert (strftime dt = iso_text y m d) as -> by congruence.
  reflexivity.
Qed.

End ExplicitYear.

(* ===================================================================== *)
(** ** [convert_csv_to_json.py]: the sort key of the timeline *)
(* ===================================================================== *)

(** A text handed to [standardize_time].  The source compares it with the
    one-character string U+2014, which lies outside the code points below
    256: the text is that string, or a [string]. *)
Inductive field : Type :=
| EmDash
| Text (s : string).

(** [%B] of [_strptime] (C locale): the month names in lower case, and the
    order in which its expression lists them, longest first. *)
Definition g_B : nat := 5.

Definition month_full : list string :=
  ["january"; "february"; "march"; "april"; "may"; "june";
   "july"; "august"; "september"; "october"; "november"; "december"].

Definition re_B : regex :=
  Group g_B (alt (map word ["september"; "february"; "november"; "december";
                            "january"; "october"; "august"; "march"; "april";
                            "june"; "july"; "may"])).

(** The five formats of [standardize_time], in the order of the list. *)
Definition fmt_Y_m_d : regex := cat [re_Y; Lit "-"; re_m; Lit "-"; re_d].
Definition fmt_B_d_comma_Y : regex := cat [re_B; ws; re_d; Lit ","; ws; re_Y].
Definition fmt_d_b_Y : regex := cat [re_d; ws; re_b; ws; re_Y].
Definition fmt_d_B_Y : regex := cat [re_d; ws; re_B; ws; re_Y].

Definition date_formats : list regex :=
  [fmt_Y_m_d; fmt_b_d_comma_Y; fmt_B_d_comma_Y; fmt_d_b_Y; fmt_d_B_Y].

(** The month of a match: [%B], [%b] or [%m]. *)
Definition month_of_any (m : found) : option Z :=
  match group g_B (m_caps m) with
  | Some B => index_from 1 (lower B) month_full
  | None => month_of m
  end.

(** [datetime.strptime(s, format)] for the formats above; [None] stands
    for [ValueError]. *)
Definition strptime_any (format : regex) (s : string) : option datetime :=
  match rmatch true format s with
  | None => None
  | Some m =>
      if negb (Nat.eqb (String.length s) (m_end m)) then None
      else
        match month_of_any m, group g_d (m_caps m), group g_Y (m_caps m) with
        | Some mo, Some dd, Some yy => make (int yy) mo (int dd)
        | _, _, _ => None
        end
  end.

(** The loop over the formats: the first one that parses wins. *)
Fixpoint first_format (formats : list regex) (s : string) : option datetime :=
  match formats with
  | [] => None
  | fmt :: formats' =>
      match strptime_any fmt s with
      | Some parsed_date => Some parsed_date
      | None => first_format formats' s
      end
  end.

Definition standardize_time (time_str : field) : string :=
  match time_str with
  | EmDash => "9999-99-99"
  | Text s =>
      if negb (truthy s) || String.eqb s "nan" then "9999-99-99"
      else
        let time_str := strip s in
        match first_format date_formats time_str with
        | Some parsed_date => strftime parsed_date
        | None => time_str
        end
  end.


(* --------------------------------------------------------------------- *)
(** *** A text without a digit *)

Fixpoint has_digit (s : string) : bool :=
  match s with
  | EmptyString => false
  | String a s' => is_digit a || has_digit s'
  end.

(** Every text the expression matches holds a digit. *)
Fixpoint needs_digit (r : regex) : bool :=
  match r with
  | Set_ Digit => true
  | Cat r1 r2 => needs_digit r1 || needs_digit r2
  | Alt r1 r2 => needs_digit r1 && needs_digit r2
  | Group _ r1 => needs_digit r1
  | Rep _ lo _ r1 => negb (Nat.eqb lo 0) && needs_digit r1
  | _ => false
  end.

Lemma has_digit_app (a b : string) :
  has_digit (a +:+ b) = has_digit a || has_digit b.
Proof.
  induction a as [| x a IH]; [reflexivity |].
  change (has_digit (String x (a +:+ b)) = has_digit (String x a) || has_digit b).
  cbn [has_digit]. rewrite IH, orb_assoc. reflexivity.
Qed.

Lemma in_set_digit (ic : bool) (a : ascii) :
  in_set ic Digit a = true -> is_digit a = true.
Proof.
  destruct ic; [| exact (fun H => H)].
  destruct a as [[|] [|] [|] [|] [|] [|] [|] [|]]; vm_compute; intros H; congruence.
Qed.

Lemma denotes_has_digit (ic : bool) (r : regex) (w : string) :
  needs_digit r = true -> denotes ic r w -> has_digit w = true.
Proof.
  revert w. induction r as [| p | cs | r1 IH1 r2 IH2 | r1 IH1 r2 IH2 | g lo hi r1 IH1
                            | n r1 IH1 | |]; intros w Hn Hw; cbn [needs_digit denotes] in *;
    try discriminate.
  - destruct cs; try discriminate. destruct Hw as (a & -> & Ha).
    cbn. rewrite (in_set_digit ic a Ha). reflexivity.
  - destruct Hw as (w1 & w2 & -> & Hw1 & Hw2). rewrite has_digit_app.
    apply orb_true_iff in Hn as [Hn | Hn]; apply orb_true_iff; auto.
  - apply andb_true_iff in Hn as [Hn1 Hn2]. destruct Hw as [Hw | Hw]; auto.
  - apply andb_true_iff in Hn as [Hlo Hn].
    destruct Hw as (ws & -> & Hle & _ & Hall).
    destruct ws as [| w1 ws].
    + cbn in Hle. destruct lo; [discriminate | lia].
    + cbn [concat_str]. rewrite has_digit_app.
      apply Forall_cons in Hall as [H1 _]. rewrite (IH1 w1 Hn H1). reflexivity.
  - auto.
Qed.

Lemma has_digit_lstrip (s : string) : has_digit (lstrip s) = true -> has_digit s = true.
Proof.
  induction s as [| a s IH]; [auto |]. cbn [lstrip].
  destruct (is_space a); [| auto]. intros H. cbn. rewrite (IH H). apply orb_true_r.
Qed.

Lemma has_digit_rstrip (s : string) : has_digit (rstrip s) = true -> has_digit s = true.
Proof.
  induction s as [| a s IH]; [auto |]. cbn [rstrip has_digit].
  destruct (rstrip s) as [| b t] eqn:E.
  - destruct (is_space a); cbn; [discriminate |]. rewrite orb_false_r. intros ->. reflexivity.
  - cbn [has_digit]. intros H. apply orb_true_iff in H as [-> | H]; [reflexivity |].
    rewrite (IH H). apply orb_true_r.
Qed.

Lemma strptime_any_has_digit (fmt : regex) (s : string) :
  needs_digit fmt = true ->
  has_digit s = false ->
  strptime_any fmt s = None.
Proof.
  intros Hn Hs. unfold strptime_any, rmatch.
  destruct (exec true fmt 0 s [] (accept 0)) as [m |] eqn:E; [| reflexivity].
  apply (exec_sound true) in E as (w & s' & c' & -> & Hw & _).
  rewrite has_digit_app, (denotes_has_digit true fmt w Hn Hw) in Hs. discriminate.
Qed.

(** X16.  A text without a digit is no date for [standardize_time]: unless
    it is empty or "nan", it comes back as it is, stripped of surrounding
    white space.  The placeholder "-" that [update_qwen_models.py] leaves in
    rows it could not resolve is such a text: it is not taken for a missing
    time, which here is the one-character text U+2014. *)
Theorem text_without_digit_is_kept (s : string) :
  has_digit s = false ->
  standardize_time (Text s)
  = if negb (truthy s) || String.eqb s "nan" then "9999-99-99" else strip s.
Proof.
  intros Hs. unfold standardize_time.
  destruct (negb (truthy s) || String.eqb s "nan"); [reflexivity |].
  assert (has_digit (strip s) = false) as Hd.
  { destruct (has_digit (strip s)) eqn:E; [| reflexivity].
    unfold strip in E. apply has_digit_rstrip, has_digit_lstrip in E. congruence. }
  unfold date_formats, first_format.
  rewrite !strptime_any_has_digit by (reflexivity || exact Hd). reflexivity.
Qed.

(* --------------------------------------------------------------------- *)
(** *** A date in canonical form *)

(** The year at the start of the text, under [%Y]. *)
Lemma year_prefix (y : Z) (rest : string) (c : caps)
      (k : nat -> string -> caps -> option found) (x : found) :
  k 4 rest ((g_Y, pad4 y) :: c) = Some x ->
  exec true re_Y 0 (pad4 y +:+ rest) c k = Some x.
Proof.
  intros H. unfold pad4, pad2. cbv [String.append].
  cbn -[in_set digit Nat.sub].
  rewrite !digit_in_digits. exact H.
Qed.

(** The month and the day of a canonical text, under [-%m] and [-%d]. *)
Definition month_dash_fact (m : Z) : Prop :=
  int (pad2 m) = m
  /\ forall (k : nat -> string -> caps -> option found) (rest : string) (c : caps)
            (x : found),
      k 7 rest ((g_m, pad2 m) :: c) = Some x ->
      exec true (Cat (Lit "-") re_m) 4 (String "-" (pad2 m +:+ rest)) c k = Some x.

Definition day_end_fact (d : Z) : Prop :=
  int (pad2 d) = d
  /\ forall (c : caps),
      exec true (Cat (Lit "-") re_d) 7 (String "-" (pad2 d)) c (accept 0)
      = Some (Found 0 10 EmptyString ((g_d, pad2 d) :: c)).

Lemma months_dash_ok : Forall month_dash_fact (seqZ 1 12).
Proof.
  change (seqZ 1 12) with [1; 2; 3; 4; 5; 6; 7; 8; 9; 10; 11; 12]%Z.
  repeat (constructor;
          [split; [reflexivity |];
           intros k ? ? ? H; vm_compute; vm_compute in H; rewrite H; reflexivity |]).
  constructor.
Qed.

Lemma days_end_ok : Forall day_end_fact (seqZ 1 31).
Proof.
  change (seqZ 1 31) with
    [1; 2; 3; 4; 5; 6; 7; 8; 9; 10; 11; 12; 13; 14; 15; 16; 17; 18; 19; 20;
     21; 22; 23; 24; 25; 26; 27; 28; 29; 30; 31]%Z.
  repeat (constructor; [split; [reflexivity | intros c; vm_compute; reflexivity] |]).
  constructor.
Qed.

Lemma strptime_iso_text (y m d : Z) :
  (0 <= y <= 9999)%Z -> (1 <= m <= 12)%Z -> (1 <= d <= 31)%Z ->
  strptime_any fmt_Y_m_d (iso_text y m d) = make y m d.
Proof.
  intros Hy Hm Hd.
  pose proof months_dash_ok as Hms. rewrite Forall_forall in Hms.
  destruct (Hms m ltac:(apply elem_of_seqZ; lia)) as [Hmi Hmx].
  pose proof days_end_ok as Hds. rewrite Forall_forall in Hds.
  destruct (Hds d ltac:(apply elem_of_seqZ; lia)) as [Hdi Hdx].
  unfold strptime_any, rmatch.
  assert (exec true fmt_Y_m_d 0 (iso_text y m d) [] (accept 0)
          = Some (Found 0 10 EmptyString [(g_d, pad2 d); (g_m, pad2 m); (g_Y, pad4 y)]))
    as ->.
  { change (exec true fmt_Y_m_d 0 (iso_text y m d) [] (accept 0))
      with (exec true re_Y 0 (pad4 y +:+ String "-" (pad2 m +:+ String "-" (pad2 d))) []
              (fun i1 s1 c1 =>
                 exec true (Cat (Lit "-") re_m) i1 s1 c1
                      (fun i2 s2 c2 => exec true (Cat (Lit "-") re_d) i2 s2 c2 (accept 0)))).
    apply year_prefix. apply Hmx. apply Hdx. }
  cbn [m_end m_caps]. unfold month_of_any, month_of.
  cbn [m_caps group Nat.eqb g_b g_d g_Y g_m g_B].
  replace (String.length (iso_text y m d)) with 10 by reflexivity.
  cbn [Nat.eqb negb]. rewrite Hmi, Hdi, int_pad4 by lia. reflexivity.
Qed.

Lemma day_range (dt : datetime) : (1 <= day dt <= 31)%Z.
Proof.
  pose proof (date_ok dt) as H. unfold check_date_fields in H.
  repeat (apply andb_true_iff in H as [H ?]).
  assert (days_in_month (year dt) (month dt) <= 31)%Z.
  { unfold days_in_month.
    repeat match goal with |- context [if ?b then _ else _] => destruct b end; lia. }
  lia.
Qed.

Lemma strftime_iso_text (dt : datetime) :
  (1000 <= year dt)%Z -> strftime dt = iso_text (year dt) (month dt) (day dt).
Proof. exact (strftime_four_digits dt). Qed.

Lemma strip_iso_text (y m d : Z) : strip (iso_text y m d) = iso_text y m d.
Proof.
  unfold strip.
  assert (lstrip (iso_text y m d) = iso_text y m d) as ->.
  { cbv [iso_text pad4 pad2 String.append]. cbn [lstrip].
    rewrite is_space_digit. reflexivity. }
  change (iso_text y m d)
    with ((pad4 y +:+ "-" +:+ pad2 m +:+ "-"
           +:+ String (digit (d / 10)) EmptyString)
          +:+ String (digit d) EmptyString).
  rewrite rstrip_app_nonspace by apply is_space_digit. reflexivity.
Qed.

(** X17.  A date in the form the updater writes it is its own sort key:
    [standardize_time] gives back the text YYYY-MM-DD of every calendar date
    with a year of four digits. *)
Theorem written_date_is_its_own_key (dt : datetime) :
  (1000 <= year dt)%Z ->
  standardize_time (Text (strftime dt)) = strftime dt.
Proof.
  intros Hy. unfold standardize_time.
  rewrite (canonical_truthy _ (strftime_canonical dt Hy)).
  assert (String.eqb (strftime dt) "nan" = false) as ->.
  { apply String.eqb_neq. intros E.
    pose proof (canonical_length _ (strftime_canonical dt Hy)) as Hl.
    rewrite E in Hl. discriminate. }
  cbn [negb orb]. cbv zeta. rewrite (strftime_iso_text dt Hy), strip_iso_text.
  unfold date_formats. cbn [first_format].
  pose proof (year_range dt). pose proof (month_range dt). pose proof (day_range dt).
  rewrite strptime_iso_text by lia.
  pose proof (make_strftime _ _ _ Hy (date_ok dt)) as Hs.
  destruct (make (year dt) (month dt) (day dt)) as [dt' |]; cbn in Hs; [| discriminate].
  congruence.
Qed.

(* --------------------------------------------------------------------- *)
(** *** A date written with a month name *)

(** The month name at the start of a text: [lstrip] keeps it, and the
    format "%Y-%m-%d" does not match there. *)
Definition month_start_fact (mon : string) : Prop :=
  forall rest : string,
    lstrip (mon +:+ rest) = mon +:+ rest
    /\ rmatch true fmt_Y_m_d (mon +:+ rest) = None.

Lemma months_start_ok : Forall (fun p => month_start_fact (fst p)) month_table.
Proof.
  repeat (constructor; [intros rest; split; vm_compute; reflexivity |]). constructor.
Qed.

Lemma rmatch_b_d_comma_Y_text (mon : string) (m d y : Z) :
  month_fact mon m -> day_comma_fact d ->
  rmatch true fmt_b_d_comma_Y (dated_phrase mon d y)
  = Some (Found 0 (4 + String.length (str_int d) + 6) EmptyString
                [(g_Y, pad4 y); (g_d, str_int d); (g_b, mon)]).
Proof.
  intros (Hlen & Hidx & Hmon) (_ & _ & Hday).
  unfold rmatch.
  change (exec true fmt_b_d_comma_Y 0 ?s [] (accept 0))
    with (exec true re_b 0 s []
            (fun i1 s1 c1 =>
               exec true (Cat ws re_d) i1 s1 c1
                    (fun i2 s2 c2 =>
                       exec true (Cat (Lit ",") (Cat ws re_Y)) i2 s2 c2 (accept 0)))).
  unfold dated_phrase.
  apply Hmon, Hday, year_comma_suffix.
Qed.

Lemma strip_dated_phrase (mon : string) (d y : Z) :
  month_start_fact mon -> strip (dated_phrase mon d y) = dated_phrase mon d y.
Proof.
  intros Hstart. unfold strip, dated_phrase.
  rewrite (proj1 (Hstart _)).
  destruct (rstrip_pad4 y) as [H1 H2].
  apply (rstrip_app_fixed mon).
  - apply (rstrip_app_fixed (String " " (str_int d))).
    + apply (rstrip_app_fixed ", "); assumption.
    + discriminate.
  - discriminate.
Qed.

(** X18.  [standardize_time] turns "Mon D, YYYY" into YYYY-MM-DD: for each
    of the twelve month names, each year of four digits and each day the
    month has in that year. *)
Theorem month_name_date_is_normalized (mon : string) (m d y : Z) :
  (mon, m) ∈ month_table ->
  (1 <= d <= days_in_month y m)%Z ->
  (1000 <= y <= 9999)%Z ->
  standardize_time (Text (dated_phrase mon d y)) = iso_text y m d.
Proof.
  intros Hin Hd Hy.
  assert (1 <= d <= 31)%Z as Hd31.
  { unfold days_in_month in Hd.
    repeat match type of Hd with context [if ?b then _ else _] => destruct b end; lia. }
  destruct (table_facts mon m d Hin Hd31) as (Hmon & Hday & Hm & _ & _).
  destruct (dated_facts mon m d Hin Hd31) as [Hletters Hcomma].
  pose proof months_start_ok as Hst. rewrite Forall_forall in Hst.
  specialize (Hst _ Hin). cbn [fst] in Hst.
  pose proof (length_dated_phrase mon d y (proj1 Hmon)) as Hlen.
  unfold standardize_time.
  assert (negb (truthy (dated_phrase mon d y)) || String.eqb (dated_phrase mon d y) "nan"
          = false) as ->.
  { apply orb_false_iff. split.
    - destruct (dated_phrase mon d y); [cbn in Hlen; lia | reflexivity].
    - apply String.eqb_neq. intros E. rewrite E in Hlen. cbn in Hlen. lia. }
  cbv zeta. rewrite (strip_dated_phrase mon d y Hst).
  unfold date_formats. cbn [first_format].
  assert (strptime_any fmt_Y_m_d (dated_phrase mon d y) = None) as ->.
  { unfold strptime_any, dated_phrase. rewrite (proj2 (Hst _)). reflexivity. }
  assert (strptime_any fmt_b_d_comma_Y (dated_phrase mon d y) = make y m d) as ->.
  { unfold strptime_any. rewrite (rmatch_b_d_comma_Y_text mon m d y Hmon Hcomma).
    cbn [m_end m_caps]. unfold month_of_any, month_of.
    cbn [m_caps group Nat.eqb g_b g_d g_Y g_m g_B].
    rewrite Hlen.
    replace (4 + String.length (str_int d) + 6) with (10 + String.length (str_int d)) by lia.
    rewrite Nat.eqb_refl. cbn [negb].
    destruct Hmon as (_ & Hidx & _). destruct Hday as [Hint _].
    rewrite Hidx, Hint, int_pad4 by lia. reflexivity. }
  assert (check_date_fields y m d = true) as Hc.
  { unfold check_date_fields. repeat (apply andb_true_iff; split); lia. }
  pose proof (make_strftime _ _ _ (proj1 Hy) Hc) as Hs.
  destruct (make y m d) as [dt |]; cbn in Hs; [| discriminate].
  congruence.
Qed.

(* ===================================================================== *)
(** ** [convert_csv_to_json.py]: the statistics *)
(* ===================================================================== *)

(** [a < b] on [str]: the order of the code points, a proper prefix first. *)
Fixpoint str_ltb (a b : string) : bool :=
  match a, b with
  | _, EmptyString => false
  | EmptyString, String _ _ => true
  | String x a', String y b' =>
      if (code x <? code y)%N then true
      else if (code y <? code x)%N then false
      else str_ltb a' b'
  end.

(** [min(l)] and [max(l)] of a list that is not empty, whose first element
    is [x]: the first of the smallest, the first of the largest. *)
Definition py_min (x : string) (l : list string) : string :=
  fold_left (fun cur item => if str_ltb item cur then item else cur) l x.

Definition py_max (x : string) (l : list string) : string :=
  fold_left (fun cur item => if str_ltb cur item then item else cur) l x.

(** [d[k] = d.get(k, 0) + 1] on a dict, whose items keep the order in which
    their keys were first set. *)
Fixpoint count_key {K : Type} (eqb : K -> K -> bool) (k : K) (d : list (K * nat))
  : list (K * nat) :=
  match d with
  | [] => [(k, 1)]
  | (k', n) :: d' =>
      if eqb k' k then (k', n + 1) :: d' else (k', n) :: count_key eqb k d'
  end.

(** One entry of [models]: the dict built by [convert_csv_to_json]. *)
Module Model.
Record t (float : Type) : Type := Make {
  name : string;
  size : option float;
  type : string;
  update_time : string;
  update_time_standardized : string;
  downloads : string;
  downloads_number : Z;
  huggingface_url : string
}.
Arguments Make {float}.
Arguments name {float}.
Arguments size {float}.
Arguments type {float}.
Arguments update_time {float}.
Arguments update_time_standardized {float}.
Arguments downloads {float}.
Arguments downloads_number {float}.
Arguments huggingface_url {float}.
End Model.

Section Statistics.

(** Python's [float] lies outside the repository: its values, [==] on
    them as keys of a dict, their truth value, and [/] on two [int]. *)
Variable float : Type.
Variable float_eqb : float -> float -> bool.
Variable float_truthy : float -> bool.
Variable truediv : Z -> Z -> float.

Local Abbreviation model := (Model.t float).

(** The result of [generate_statistics]. *)
Record statistics : Type := Statistics {
  time_range : option string * option string;
  types : list (string * nat);
  sizes : list (float * nat);
  total_downloads : Z;
  avg_downloads : Z + float;
  models_with_time : nat;
  models_with_size : nat
}.

Definition generate_statistics (models : list model) : statistics :=
  let times :=
    map Model.update_time_standardized
        (List.filter (fun m => negb (String.eqb (Model.update_time_standardized m)
                                                "9999-99-99")
                               && negb (prefix "0" (Model.update_time_standardized m)))
                     models) in
  let time_range :=
    (match times with [] => None | x :: l => Some (py_min x l) end,
     match times with [] => None | x :: l => Some (py_max x l) end) in
  let types :=
    fold_left (fun types model => count_key String.eqb (Model.type model) types)
              models [] in
  let sizes :=
    fold_left (fun sizes model =>
                 match Model.size model with
                 | Some size => if float_truthy size then count_key float_eqb size sizes
                                else sizes
                 | None => sizes
                 end)
              models [] in
  let total_downloads := fold_left Z.add (map Model.downloads_number models) 0%Z in
  let avg_downloads :=
    match models with
    | [] => inl 0%Z
    | _ => inr (truediv total_downloads (Z.of_nat (List.length models)))
    end in
  Statistics
    time_range types sizes total_downloads avg_downloads
    (List.length (List.filter (fun m => negb (String.eqb (Model.update_time_standardized m)
                                                         "9999-99-99")) models))
    (List.length (List.filter (fun m => match Model.size m with Some _ => true | None => false end)
                              models)).

End Statistics.

Arguments time_range {float}.
Arguments types {float}.
Arguments sizes {float}.
Arguments total_downloads {float}.
Arguments avg_downloads {float}.
Arguments models_with_time {float}.
Arguments models_with_size {float}.

(** [d.get(k)] *)
Fixpoint dict_get {K : Type} (eqb : K -> K -> bool) (k : K) (d : list (K * nat))
  : option nat :=
  match d with
  | [] => None
  | (k', n) :: d' => if eqb k' k then Some n else dict_get eqb k d'
  end.

Lemma dict_get_count_key (k t : string) (d : list (string * nat)) :
  dict_get String.eqb t (count_key String.eqb k d)
  = if String.eqb k t then Some (default 0 (dict_get String.eqb t d) + 1)
    else dict_get String.eqb t d.
Proof.
  induction d as [| [k' n] d IH]; cbn.
  - destruct (String.eqb_spec k t); reflexivity.
  - destruct (String.eqb_spec k' k) as [-> | Hk]; cbn.
    + destruct (String.eqb_spec k t); reflexivity.
    + destruct (String.eqb_spec k' t) as [-> | Ht].
      * destruct (String.eqb_spec k t); [congruence | reflexivity].
      * exact IH.
Qed.

Lemma sum_count_key (k : string) (d : list (string * nat)) :
  list_sum (map snd (count_key String.eqb k d)) = list_sum (map snd d) + 1.
Proof.
  unfold list_sum. induction d as [| [k' n] d IH]; cbn; [reflexivity |].
  destruct (String.eqb k' k); cbn; rewrite ?IH; lia.
Qed.

(** The order of the dates, and the earliest and the latest of a list that
    is not empty. *)
Definition date_ltb (a b : datetime) : bool :=
  (year a <? year b)%Z
  || (year a =? year b)%Z
     && ((month a <? month b)%Z
         || (month a =? month b)%Z && (day a <? day b)%Z).

Definition earliest (x : datetime) (l : list datetime) : datetime :=
  fold_left (fun cur item => if date_ltb item cur then item else cur) l x.

Definition latest (x : datetime) (l : list datetime) : datetime :=
  fold_left (fun cur item => if date_ltb cur item then item else cur) l x.

(** [L x y r]: [x] before [y], or equal and then [r]. *)
Definition lex (x y : Z) (r : bool) : bool := (x <? y)%Z || (x =? y)%Z && r.

Lemma lex_digits (h h' l l' : Z) (r : bool) :
  (0 <= l <= 9)%Z -> (0 <= l' <= 9)%Z ->
  lex h h' (lex l l' r) = lex (10 * h + l) (10 * h' + l') r.
Proof.
  intros Hl Hl'. unfold lex.
  destruct (Z.ltb_spec h h'), (Z.eqb_spec h h'), (Z.ltb_spec l l'), (Z.eqb_spec l l'),
    (Z.ltb_spec (10 * h + l) (10 * h' + l')), (Z.eqb_spec (10 * h + l) (10 * h' + l'));
    cbn; try lia; reflexivity.
Qed.

Lemma code_digit (n : Z) : code (digit n) = Z.to_N (48 + n mod 10).
Proof.
  unfold code, digit. apply N_ascii_embedding.
  pose proof (Z.mod_pos_bound n 10 ltac:(lia)). lia.
Qed.

Lemma str_ltb_digit (a b : Z) (r1 r2 : string) :
  str_ltb (String (digit a) r1) (String (digit b) r2)
  = lex (a mod 10) (b mod 10) (str_ltb r1 r2).
Proof.
  cbn [str_ltb]. rewrite !code_digit. unfold lex.
  pose proof (Z.mod_pos_bound a 10 ltac:(lia)).
  pose proof (Z.mod_pos_bound b 10 ltac:(lia)).
  destruct (N.ltb_spec (Z.to_N (48 + a mod 10)) (Z.to_N (48 + b mod 10))),
    (N.ltb_spec (Z.to_N (48 + b mod 10)) (Z.to_N (48 + a mod 10))),
    (Z.ltb_spec (a mod 10) (b mod 10)), (Z.eqb_spec (a mod 10) (b mod 10));
    cbn; try lia; reflexivity.
Qed.

Lemma str_ltb_pad2 (x y : Z) (r1 r2 : string) :
  (0 <= x <= 99)%Z -> (0 <= y <= 99)%Z ->
  str_ltb (pad2 x +:+ r1) (pad2 y +:+ r2) = lex x y (str_ltb r1 r2).
Proof.
  intros Hx Hy. unfold pad2. cbv [String.append].
  rewrite !str_ltb_digit.
  rewrite (Z.mod_small (x / 10) 10) by (split; [apply Z.div_pos; lia | apply Z.div_lt_upper_bound; lia]).
  rewrite (Z.mod_small (y / 10) 10) by (split; [apply Z.div_pos; lia | apply Z.div_lt_upper_bound; lia]).
  rewrite lex_digits by (match goal with |- (0 <= ?z mod 10 <= 9)%Z => pose proof (Z.mod_pos_bound z 10 ltac:(lia)); lia end).
  rewrite <- !Z.div_mod by lia. reflexivity.
Qed.

Lemma str_ltb_pad4 (x y : Z) (r1 r2 : string) :
  (0 <= x <= 9999)%Z -> (0 <= y <= 9999)%Z ->
  str_ltb (pad4 x +:+ r1) (pad4 y +:+ r2) = lex x y (str_ltb r1 r2).
Proof.
  intros Hx Hy. unfold pad4, pad2. cbv [String.append].
  rewrite !str_ltb_digit.
  assert (forall z, (0 <= z <= 9999)%Z ->
                    (z / 1000) mod 10 = z / 1000
                    /\ z / 100 = 10 * (z / 1000) + (z / 100) mod 10
                    /\ z / 10 = 10 * (z / 100) + (z / 10) mod 10
                    /\ z = 10 * (z / 10) + z mod 10)%Z as Hdec.
  { intros z Hz.
    pose proof (Z.div_mod z 10 ltac:(lia)).
    pose proof (Z.div_mod (z / 10) 10 ltac:(lia)).
    pose proof (Z.div_mod (z / 100) 10 ltac:(lia)).
    assert (z / 100 = z / 10 / 10)%Z by (rewrite Z.div_div by lia; reflexivity).
    assert (z / 1000 = z / 100 / 10)%Z by (rewrite Z.div_div by lia; reflexivity).
    assert (0 <= z / 1000 < 10)%Z
      by (split; [apply Z.div_pos; lia | apply Z.div_lt_upper_bound; lia]).
    rewrite (Z.mod_small (z / 1000) 10) by lia. lia. }
  destruct (Hdec x Hx) as (Hx3 & Hx2 & Hx1 & Hx0).
  destruct (Hdec y Hy) as (Hy3 & Hy2 & Hy1 & Hy0).
  rewrite Hx3, Hy3.
  rewrite lex_digits by (match goal with |- (0 <= ?z mod 10 <= 9)%Z => pose proof (Z.mod_pos_bound z 10 ltac:(lia)); lia end). rewrite <- Hx2, <- Hy2.
  rewrite lex_digits by (match goal with |- (0 <= ?z mod 10 <= 9)%Z => pose proof (Z.mod_pos_bound z 10 ltac:(lia)); lia end). rewrite <- Hx1, <- Hy1.
  rewrite lex_digits by (match goal with |- (0 <= ?z mod 10 <= 9)%Z => pose proof (Z.mod_pos_bound z 10 ltac:(lia)); lia end). rewrite <- Hx0, <- Hy0.
  reflexivity.
Qed.

(** The texts YYYY-MM-DD are ordered like the dates. *)
Lemma str_ltb_strftime (a b : datetime) :
  (1000 <= year a)%Z -> (1000 <= year b)%Z ->
  str_ltb (strftime a) (strftime b) = date_ltb a b.
Proof.
  intros Ha Hb.
  pose proof (year_range a). pose proof (year_range b).
  pose proof (month_range a). pose proof (month_range b).
  pose proof (day_range a). pose proof (day_range b).
  rewrite (strftime_four_digits a Ha), (strftime_four_digits b Hb).
  rewrite str_ltb_pad4 by lia.
  change ("-" +:+ ?s) with (String "-" s). cbn [str_ltb].
  change (code "-" <? code "-")%N with false. cbv iota.
  rewrite str_ltb_pad2 by lia.
  change ("-" +:+ ?s) with (String "-" s). cbn [str_ltb].
  change (code "-" <? code "-")%N with false. cbv iota.
  rewrite <- (app_empty_str (pad2 (day a))), <- (app_empty_str (pad2 (day b))).
  rewrite str_ltb_pad2 by lia.
  unfold lex, date_ltb. cbn [str_ltb]. rewrite andb_false_r, orb_false_r. reflexivity.
Qed.

(** The dates as numbers, in the same order. *)
Definition date_key (a : datetime) : Z := (year a * 10000 + month a * 100 + day a)%Z.

Lemma date_ltb_key (a b : datetime) : date_ltb a b = (date_key a <? date_key b)%Z.
Proof.
  pose proof (month_range a). pose proof (month_range b).
  pose proof (day_range a). pose proof (day_range b).
  unfold date_ltb, date_key.
  destruct (Z.ltb_spec (year a) (year b)), (Z.eqb_spec (year a) (year b)),
    (Z.ltb_spec (month a) (month b)), (Z.eqb_spec (month a) (month b)),
    (Z.ltb_spec (day a) (day b)),
    (Z.ltb_spec (year a * 10000 + month a * 100 + day a)
                (year b * 10000 + month b * 100 + day b));
    cbn; try lia; reflexivity.
Qed.

Lemma earliest_spec (x : datetime) (l : list datetime) :
  earliest x l ∈ x :: l
  /\ forall d, d ∈ x :: l -> (date_key (earliest x l) <= date_key d)%Z.
Proof.
  unfold earliest. revert x. induction l as [| y l IH]; intros x; cbn [fold_left].
  - split; [left |]. intros d Hd. apply list_elem_of_singleton in Hd. subst. lia.
  - destruct (IH (if date_ltb y x then y else x)) as [Hin Hle].
    split.
    + apply elem_of_cons in Hin as [-> | Hin].
      * destruct (date_ltb y x); [right; left | left].
      * right; right; exact Hin.
    + intros d Hd.
      assert (date_key (if date_ltb y x then y else x) <= date_key x
              /\ date_key (if date_ltb y x then y else x) <= date_key y)%Z as [Hx Hy].
      { rewrite date_ltb_key. destruct (Z.ltb_spec (date_key y) (date_key x)); lia. }
      pose proof (Hle _ ltac:(left)) as H0.
      apply elem_of_cons in Hd as [-> | Hd]; [lia |].
      apply elem_of_cons in Hd as [-> | Hd]; [lia |].
      apply Hle. right. exact Hd.
Qed.

Lemma latest_spec (x : datetime) (l : list datetime) :
  latest x l ∈ x :: l
  /\ forall d, d ∈ x :: l -> (date_key d <= date_key (latest x l))%Z.
Proof.
  unfold latest. revert x. induction l as [| y l IH]; intros x; cbn [fold_left].
  - split; [left |]. intros d Hd. apply list_elem_of_singleton in Hd. subst. lia.
  - destruct (IH (if date_ltb x y then y else x)) as [Hin Hle].
    split.
    + apply elem_of_cons in Hin as [-> | Hin].
      * destruct (date_ltb x y); [right; left | left].
      * right; right; exact Hin.
    + intros d Hd.
      assert (date_key x <= date_key (if date_ltb x y then y else x)
              /\ date_key y <= date_key (if date_ltb x y then y else x))%Z as [Hx Hy].
      { rewrite date_ltb_key. destruct (Z.ltb_spec (date_key x) (date_key y)); lia. }
      pose proof (Hle _ ltac:(left)) as H0.
      apply elem_of_cons in Hd as [-> | Hd]; [lia |].
      apply elem_of_cons in Hd as [-> | Hd]; [lia |].
      apply Hle. right. exact Hd.
Qed.

Lemma py_min_strftime (x : datetime) (l : list datetime) :
  Forall (fun dt => (1000 <= year dt)%Z) (x :: l) ->
  py_min (strftime x) (map strftime l) = strftime (earliest x l).
Proof.
  unfold py_min, earliest. revert x.
  induction l as [| y l IH]; intros x Hall; [reflexivity |].
  apply Forall_cons in Hall as [Hx Hall]. apply Forall_cons in Hall as [Hy Hall].
  cbn [map fold_left]. rewrite str_ltb_strftime by assumption.
  destruct (date_ltb y x); apply IH; apply Forall_cons; split; assumption.
Qed.

Lemma py_max_strftime (x : datetime) (l : list datetime) :
  Forall (fun dt => (1000 <= year dt)%Z) (x :: l) ->
  py_max (strftime x) (map strftime l) = strftime (latest x l).
Proof.
  unfold py_max, latest. revert x.
  induction l as [| y l IH]; intros x Hall; [reflexivity |].
  apply Forall_cons in Hall as [Hx Hall]. apply Forall_cons in Hall as [Hy Hall].
  cbn [map fold_left]. rewrite str_ltb_strftime by assumption.
  destruct (date_ltb x y); apply IH; apply Forall_cons; split; assumption.
Qed.

(** The text of a date of four digits is not "9999-99-99" and does not
    start with "0". *)
Lemma strftime_is_time (dt : datetime) :
  (1000 <= year dt)%Z ->
  String.eqb (strftime dt) "9999-99-99" = false
  /\ prefix "0" (strftime dt) = false.
Proof.
  intros Hy. pose proof (year_range dt). pose proof (month_range dt).
  rewrite (strftime_four_digits dt Hy). split.
  - apply String.eqb_neq. unfold pad4, pad2. cbv [String.append].
    intros E. injection E as _ _ _ _ E1 E2 _.
    apply digit_is in E1, E2. cbn in E1, E2.
    pose proof (Z.div_mod (month dt) 10 ltac:(lia)).
    assert (0 <= month dt / 10 < 10)%Z
      by (split; [apply Z.div_pos; lia | apply Z.div_lt_upper_bound; lia]).
    rewrite (Z.mod_small (month dt / 10) 10) in E1 by lia. lia.
  - unfold pad4. cbv [String.append]. cbn [prefix].
    destruct (ascii_dec "0" (digit (year dt / 1000))) as [E |]; [| reflexivity].
    exfalso. symmetry in E. apply digit_is in E. cbn in E.
    assert (0 <= year dt / 1000 < 10)%Z
      by (split; [apply Z.div_pos; lia | apply Z.div_lt_upper_bound; lia]).
    rewrite (Z.mod_small (year dt / 1000) 10) in E by lia.
    assert (1 <= year dt / 1000)%Z by (apply Z.div_le_lower_bound; lia). lia.
Qed.

Section StatisticsFacts.

Variable float : Type.
Variable float_eqb : float -> float -> bool.
Variable float_truthy : float -> bool.
Variable truediv : Z -> Z -> float.

Local Abbreviation model := (Model.t float).
Local Abbreviation statistics_of := (generate_statistics float float_eqb float_truthy truediv).

Lemma types_fold (models : list model) (d : list (string * nat)) (t : string) :
  let d' := fold_left (fun types model => count_key String.eqb (Model.type model) types)
                      models d in
  dict_get String.eqb t d'
  = match dict_get String.eqb t d, count (fun m => String.eqb (Model.type m) t) models with
    | None, 0 => None
    | o, c => Some (default 0 o + c)
    end
  /\ list_sum (map snd d') = list_sum (map snd d) + List.length models.
Proof.
  revert d. induction models as [| m models IH]; intros d; cbn [fold_left count List.length].
  - cbn zeta. cbn [fold_left]. split; [| lia].
    destruct (dict_get String.eqb t d) as [n |]; cbn; [f_equal; lia | reflexivity].
  - destruct (IH (count_key String.eqb (Model.type m) d)) as [Hn Hsum]. cbn zeta in *.
    rewrite Hn, Hsum, dict_get_count_key, sum_count_key. split; [| lia].
    destruct (String.eqb (Model.type m) t).
    + cbn [default]. destruct (dict_get String.eqb t d) as [n |]; cbn; f_equal; lia.
    + reflexivity.
Qed.

(** X19.  The type statistics of [generate_statistics]: the entry of a
    type is the number of models of that type, a type that no model has
    has no entry, and the entries add up to the number of models. *)
Theorem types_are_counted (models : list model) (t : string) :
  dict_get String.eqb t (types (statistics_of models))
  = match count (fun m => String.eqb (Model.type m) t) models with
    | 0 => None
    | n => Some n
    end
  /\ list_sum (map snd (types (statistics_of models))) = List.length models.
Proof.
  destruct (types_fold models [] t) as [Hn Hsum].
  cbn zeta in *. cbn [types generate_statistics]. split; [| exact Hsum].
  rewrite Hn. cbn [dict_get default].
  destruct (count _ models); reflexivity.
Qed.

(** The standardized time of a model: the text of a date of four digits,
    or the mark of a missing time. *)
Definition time_of (o : option datetime) : string :=
  match o with
  | Some dt => strftime dt
  | None => "9999-99-99"
  end.

Definition dated_as (m : model) (o : option datetime) : Prop :=
  Model.update_time_standardized m = time_of o
  /\ forall dt, o = Some dt -> (1000 <= year dt)%Z.

Lemma times_of_dates (models : list model) (dates : list (option datetime)) :
  Forall2 dated_as models dates ->
  map Model.update_time_standardized
      (List.filter (fun m => negb (String.eqb (Model.update_time_standardized m)
                                              "9999-99-99")
                             && negb (prefix "0" (Model.update_time_standardized m)))
                   models)
  = map strftime (omap id dates)
  /\ List.length (List.filter (fun m => negb (String.eqb (Model.update_time_standardized m)
                                                         "9999-99-99")) models)
     = List.length (omap id dates).
Proof.
  induction 1 as [| m o models dates [Hm Hy] _ [IH1 IH2]]; [split; reflexivity |].
  cbn [List.filter omap]. rewrite Hm. destruct o as [dt |]; cbn [time_of id].
  - destruct (strftime_is_time dt (Hy dt eq_refl)) as [-> ->]. cbn.
    rewrite IH1, IH2, Hm. split; reflexivity.
  - cbn. split; assumption.
Qed.

Lemma dated_years (models : list model) (dates : list (option datetime)) :
  Forall2 dated_as models dates ->
  Forall (fun dt => (1000 <= year dt)%Z) (omap id dates).
Proof.
  induction 1 as [| m o models dates [_ Hy] _ IH]; [constructor |].
  cbn [omap]. destruct o as [dt |]; cbn [id]; [| exact IH].
  constructor; [exact (Hy dt eq_refl) | exact IH].
Qed.

(** X20.  The time range of [generate_statistics] on models whose
    standardized times are dates of four digits or the mark of a missing
    time: when no model has a date the range is empty; otherwise its start
    is the text of a date of the list that no date of the list precedes,
    and its end the text of a date of the list that precedes no other: the
    order of the texts is the order of the dates.  The models counted as
    having a time are those with a date. *)
Theorem time_range_of_dates (models : list model) (dates : list (option datetime)) :
  Forall2 dated_as models dates ->
  models_with_time (statistics_of models) = List.length (omap id dates)
  /\ match omap id dates with
     | [] => time_range (statistics_of models) = (None, None)
     | d0 :: ds =>
         exists a b,
           a ∈ d0 :: ds /\ b ∈ d0 :: ds
           /\ time_range (statistics_of models) = (Some (strftime a), Some (strftime b))
           /\ forall d, d ∈ d0 :: ds -> date_ltb d a = false /\ date_ltb b d = false
     end.
Proof.
  intros H. destruct (times_of_dates models dates H) as [Ht Hn].
  pose proof (dated_years models dates H) as Hys.
  cbn [models_with_time time_range generate_statistics]. rewrite Ht.
  split; [exact Hn |].
  destruct (omap id dates) as [| d0 ds]; [reflexivity |].
  cbn [map]. rewrite py_min_strftime, py_max_strftime by exact Hys.
  destruct (earliest_spec d0 ds) as [Hin1 Hle1].
  destruct (latest_spec d0 ds) as [Hin2 Hle2].
  exists (earliest d0 ds), (latest d0 ds).
  split; [exact Hin1 | split; [exact Hin2 | split; [reflexivity |]]].
  intros d Hd. rewrite !date_ltb_key.
  specialize (Hle1 d Hd). specialize (Hle2 d Hd).
  split; apply Z.ltb_ge; assumption.
Qed.

End StatisticsFacts.

(* ===================================================================== *)
(** ** The further properties on concrete runs *)
(* ===================================================================== *)

(** A site whose API does not answer in time and whose pages do: one page
    carries a dated phrase, the request for another is interrupted. *)
Definition page_site_get (url : string) (timeout : Z) : res response :=
  if String.eqb url (page_url "Qwen/Qwen3-8B") then
    Ok (Response 200 "Updated Aug 6" (Raise JSONDecodeError))
  else if String.eqb url (page_url "Qwen/Qwen3-4B") then
    Raise (RuntimeError "interrupted")
  else Raise Timeout.

(** An API answer with both timestamp fields. *)
Definition both_fields : list (string * json) :=
  [("createdAt", JStr "2023-06-01T00:00:00Z");
   ("lastModified", JStr "2024-01-25T10:00:00Z")].

Definition both_get (url : string) (timeout : Z) : res response :=
  Ok (Response 200 EmptyString (Ok (JDict both_fields))).

Lemma each_call_counts_once_witness :
  delay_accepted (3, 5)%Z
  /\ exists r st',
      fetch_model_update_time page_site_get site_fromisoformat plain_text now_2025 (3, 5)%Z
                              (CStr "Qwen/Qwen3-8B") st0 = (r, st')
      /\ match r with
         | Ok (Some date) =>
             date_text date
             /\ updated_count st' = (updated_count st0 + 1)%Z
             /\ failed_count st' = failed_count st0
         | Ok None =>
             updated_count st' = updated_count st0
             /\ failed_count st' = (failed_count st0 + 1)%Z
         | Raise e =>
             is_request_exception e = false
             /\ page_site_get (page_url (fstr (CStr "Qwen/Qwen3-8B"))) 15 = Raise e
             /\ updated_count st' = updated_count st0
             /\ failed_count st' = failed_count st0
         end.
Proof.
  assert (delay_accepted (3, 5)%Z) as H by (unfold delay_accepted; simpl; lia).
  split; [exact H |].
  exact (each_call_counts_once
           page_site_get site_fromisoformat plain_text now_2025 (3, 5)%Z
           (CStr "Qwen/Qwen3-8B") st0 H).
Defined.

Lemma document_path_outcome_witness :
  fst (extract_update_time_from_api page_site_get site_fromisoformat
         (fstr (CStr "Qwen/Qwen3-8B")) st0) = Ok None
  /\ fetch_model_update_time page_site_get site_fromisoformat plain_text now_2025 (3, 5)%Z
                             (CStr "Qwen/Qwen3-8B") st0
     = (Ok (Some "2025-08-06"),
        State 1 0 [Get (api_url "Qwen/Qwen3-8B") 10; Sleep (3, 5)%Z;
                   Get (page_url "Qwen/Qwen3-8B") 15;
                   Print (MsgPage "Qwen/Qwen3-8B" "2025-08-06")]).
Proof.
  assert (fst (extract_update_time_from_api page_site_get site_fromisoformat
                 (fstr (CStr "Qwen/Qwen3-8B")) st0) = Ok None) as Ha
    by (vm_compute; reflexivity).
  split; [exact Ha |].
  apply (document_path_outcome
           page_site_get site_fromisoformat plain_text now_2025 (3, 5)%Z
           (CStr "Qwen/Qwen3-8B")
           (Response 200 "Updated Aug 6" (Raise JSONDecodeError))
           (Some "2025-08-06") st0 Ha).
  - vm_compute; reflexivity.
  - left. simpl. lia.
  - vm_compute; reflexivity.
Defined.

Lemma foreign_exception_escapes_witness :
  is_request_exception (RuntimeError "interrupted") = false
  /\ fetch_model_update_time page_site_get site_fromisoformat plain_text now_2025 (3, 5)%Z
                             (CStr "Qwen/Qwen3-4B") st0
     = (Raise (RuntimeError "interrupted"),
        State 0 0 [Get (api_url "Qwen/Qwen3-4B") 10; Sleep (3, 5)%Z;
                   Get (page_url "Qwen/Qwen3-4B") 15]).
Proof.
  split; [reflexivity |].
  apply (proj1 (foreign_exception_escapes
                  page_site_get site_fromisoformat plain_text now_2025 (3, 5)%Z
                  (CStr "Qwen/Qwen3-4B") (RuntimeError "interrupted") st0
                  ltac:(vm_compute; reflexivity)
                  ltac:(vm_compute; reflexivity)
                  ltac:(reflexivity))).
Defined.

Lemma written_table_is_exact_witness :
  models_to_update table_1 = Ok [(0, CStr "Qwen/Qwen2-7B")]
  /\ [0] ≡ₚ seq 0 (List.length [(0, CStr "Qwen/Qwen2-7B")])
  /\ fst (update_csv_file site_get site_fromisoformat plain_text now_2025 (3, 5)%Z
                          [0] table_1 st0)
     = Ok (map (updated_row site_get site_fromisoformat plain_text now_2025 (3, 5)%Z)
               table_1).
Proof.
  assert (models_to_update table_1 = Ok [(0, CStr "Qwen/Qwen2-7B")]) as Ht
    by (vm_compute; reflexivity).
  assert ([0] ≡ₚ seq 0 (List.length [(0, CStr "Qwen/Qwen2-7B")])) as Hp
    by (simpl; reflexivity).
  split; [exact Ht | split; [exact Hp |]].
  exact (written_table_is_exact
           site_get site_fromisoformat plain_text now_2025 (3, 5)%Z
           [0] table_1 _ st0 Ht Hp).
Defined.

Lemma summary_counts_are_exact_witness :
  models_to_update table_2
  = Ok [(0, CStr "Qwen/Qwen3-8B"); (1, CStr "Qwen/Qwen3-8B")]
  /\ count (row_unresolved down_get site_fromisoformat plain_text now_2025 (3, 5)%Z)
           table_2 = 2
  /\ count (row_resolved down_get site_fromisoformat plain_text now_2025 (3, 5)%Z)
           table_2
     = count (fun r => bool_decide
                         (updated_row down_get site_fromisoformat plain_text now_2025
                                      (3, 5)%Z r <> r))
             table_2.
Proof.
  assert (models_to_update table_2
          = Ok [(0, CStr "Qwen/Qwen3-8B"); (1, CStr "Qwen/Qwen3-8B")]) as Ht
    by (vm_compute; reflexivity).
  assert ([1; 0] ≡ₚ seq 0 (List.length [(0, CStr "Qwen/Qwen3-8B");
                                        (1, CStr "Qwen/Qwen3-8B")])) as Hp
    by (simpl; apply Permutation_swap).
  split; [exact Ht | split; [vm_compute; reflexivity |]].
  destruct (summary_counts_are_exact
              down_get site_fromisoformat plain_text now_2025 (3, 5)%Z
              [1; 0] table_2 _ st0 Ht Hp) as (rows' & st' & evs & _ & _ & _ & H & _).
  exact H.
Defined.

Lemma resolved_rows_are_not_retried_witness :
  models_to_update table_1 = Ok [(0, CStr "Qwen/Qwen2-7B")]
  /\ models_to_update
       (map (updated_row site_get site_fromisoformat plain_text now_2025 (3, 5)%Z) table_1)
     = Ok (List.filter
             (fun t => negb (has_date site_get site_fromisoformat plain_text now_2025
                                      (3, 5)%Z (snd t)))
             [(0, CStr "Qwen/Qwen2-7B")]).
Proof.
  assert (models_to_update table_1 = Ok [(0, CStr "Qwen/Qwen2-7B")]) as Ht
    by (vm_compute; reflexivity).
  split; [exact Ht |].
  exact (resolved_rows_are_not_retried
           site_get site_fromisoformat plain_text now_2025 (3, 5)%Z table_1 _ Ht).
Defined.

Lemma last_modified_before_created_at_witness :
  both_get (api_url "Qwen/Qwen2-7B") 10
  = Ok (Response 200 EmptyString (Ok (JDict both_fields)))
  /\ extract_update_time_from_api both_get site_fromisoformat "Qwen/Qwen2-7B" st0
     = (Ok (match field_date site_fromisoformat "lastModified" both_fields with
            | Some date => Some date
            | None => field_date site_fromisoformat "createdAt" both_fields
            end),
        after_api "Qwen/Qwen2-7B" st0).
Proof.
  split; [reflexivity |].
  apply (last_modified_before_created_at
           both_get site_fromisoformat "Qwen/Qwen2-7B"
           (Response 200 EmptyString (Ok (JDict both_fields))) both_fields st0);
    reflexivity.
Defined.

Lemma first_iso_text_wins_witness :
  findall (Group 1 iso) "Sep 24, 2025 (first released 2023-12-31)" = ["2023-12-31"]
  /\ extract_update_time_from_html plain_text now_2025
       "Sep 24, 2025 (first released 2023-12-31)" st0
     = (Ok (Some "2023-12-31"), st0).
Proof.
  assert (findall (Group 1 iso) "Sep 24, 2025 (first released 2023-12-31)"
          = ["2023-12-31"]) as Hf by (vm_compute; reflexivity).
  split; [exact Hf |].
  apply (first_iso_text_wins plain_text now_2025
           "Sep 24, 2025 (first released 2023-12-31)"
           [NavigableString "Sep 24, 2025 (first released 2023-12-31)"]
           "2023-12-31" [] st0).
  - reflexivity.
  - vm_compute; reflexivity.
  - vm_compute; reflexivity.
  - exact Hf.
Defined.

Lemma nonexistent_day_gives_nothing_witness :
  ("Feb", 2%Z) ∈ month_table
  /\ (days_in_month (year now_2025) 2 < 30 <= 31)%Z
  /\ extract_update_time_from_html plain_text now_2025 "Updated Feb 30" st0
     = (Ok None, st0).
Proof.
  assert (("Feb", 2%Z) ∈ month_table) as Hin
    by (unfold month_table; apply list_elem_of_further; apply list_elem_of_here).
  assert (days_in_month (year now_2025) 2 < 30 <= 31)%Z as Hd
    by (vm_compute; split; [reflexivity | discriminate]).
  assert (1000 <= year now_2025)%Z as Hy by (vm_compute; discriminate).
  split; [exact Hin | split; [exact Hd |]].
  apply (proj1 (nonexistent_day_gives_nothing plain_text now_2025 "Feb" 2 30 st0
                  Hin Hd Hy)).
  reflexivity.
Defined.

Lemma other_keywords_in_current_year_witness :
  ("Aug", 8%Z) ∈ month_table
  /\ (1 <= 6 <= days_in_month (year now_2025) 8)%Z
  /\ extract_update_time_from_html plain_text now_2025 "Modified Aug 6" st0
     = (Ok (Some "2025-08-06"), st0).
Proof.
  assert (("Aug", 8%Z) ∈ month_table) as Hin
    by (unfold month_table; do 7 apply list_elem_of_further; apply list_elem_of_here).
  assert (1 <= 6 <= days_in_month (year now_2025) 8)%Z as Hd
    by (vm_compute; intuition discriminate).
  assert (1000 <= year now_2025)%Z as Hy by (vm_compute; discriminate).
  split; [exact Hin | split; [exact Hd |]].
  apply (other_keywords_in_current_year plain_text now_2025 "Aug" 8 6
           "Modified Aug 6" st0 Hin Hd Hy).
  - right. reflexivity.
  - reflexivity.
Defined.

Lemma run_request_budget_witness :
  models_to_update table_2
  = Ok [(0, CStr "Qwen/Qwen3-8B"); (1, CStr "Qwen/Qwen3-8B")]
  /\ [1; 0] ≡ₚ seq 0 (List.length [(0, CStr "Qwen/Qwen3-8B"); (1, CStr "Qwen/Qwen3-8B")])
  /\ exists rows' st' evs,
      update_csv_file down_get site_fromisoformat plain_text now_2025 (3, 5)%Z
                      [1; 0] table_2 st0 = (Ok rows', st')
      /\ trace st' = trace st0 ++ evs
      /\ count is_api_get evs
         = List.length [(0, CStr "Qwen/Qwen3-8B"); (1, CStr "Qwen/Qwen3-8B")]
      /\ count is_delay evs = count is_page_get evs
      /\ count is_page_get evs
         <= List.length [(0, CStr "Qwen/Qwen3-8B"); (1, CStr "Qwen/Qwen3-8B")].
Proof.
  assert (models_to_update table_2
          = Ok [(0, CStr "Qwen/Qwen3-8B"); (1, CStr "Qwen/Qwen3-8B")]) as Ht
    by (vm_compute; reflexivity).
  assert ([1; 0] ≡ₚ seq 0 (List.length [(0, CStr "Qwen/Qwen3-8B");
                                        (1, CStr "Qwen/Qwen3-8B")])) as Hp
    by (simpl; apply Permutation_swap).
  split; [exact Ht | split; [exact Hp |]].
  exact (run_request_budget
           down_get site_fromisoformat plain_text now_2025 (3, 5)%Z
           [1; 0] table_2 _ st0 Ht Hp).
Defined.

Lemma explicit_year_is_kept_witness :
  ("Sep", 9%Z) ∈ month_table
  /\ (1 <= 24 <= days_in_month 2023 9)%Z
  /\ extract_update_time_from_html plain_text now_2025 "Updated Sep 24, 2023" st0
     = (Ok (Some "2023-09-24"), st0).
Proof.
  assert (("Sep", 9%Z) ∈ month_table) as Hin
    by (unfold month_table; do 8 apply list_elem_of_further; apply list_elem_of_here).
  assert (1 <= 24 <= days_in_month 2023 9)%Z as Hd
    by (vm_compute; intuition discriminate).
  split; [exact Hin | split; [exact Hd |]].
  apply (explicit_year_is_kept plain_text now_2025 "Sep" 9 24 2023 st0 Hin Hd).
  - lia.
  - reflexivity.
Defined.

Lemma text_without_digit_is_kept_witness :
  has_digit "-" = false
  /\ standardize_time (Text "-") = "-".
Proof.
  split; [reflexivity |].
  exact (text_without_digit_is_kept "-" eq_refl).
Defined.

Lemma written_date_is_its_own_key_witness :
  (1000 <= year now_2025)%Z
  /\ standardize_time (Text "2025-11-04") = "2025-11-04".
Proof.
  assert (1000 <= year now_2025)%Z as Hy by (vm_compute; discriminate).
  split; [exact Hy |].
  exact (written_date_is_its_own_key now_2025 Hy).
Defined.

Lemma month_name_date_is_normalized_witness :
  ("Jan", 1%Z) ∈ month_table
  /\ (1 <= 25 <= days_in_month 2024 1)%Z
  /\ standardize_time (Text "Jan 25, 2024") = "2024-01-25".
Proof.
  assert (("Jan", 1%Z) ∈ month_table) as Hin
    by (unfold month_table; apply list_elem_of_here).
  assert (1 <= 25 <= days_in_month 2024 1)%Z as Hd
    by (vm_compute; intuition discriminate).
  split; [exact Hin | split; [exact Hd |]].
  apply (month_name_date_is_normalized "Jan" 1 25 2024 Hin Hd). lia.
Defined.

(** Two entries of [models] on which sizes are absent, so that any type
    can stand for [float], and their dates. *)
Definition entry (name time : string) : Model.t Z :=
  Model.Make name None "Base" time time "0" 0 ("https://huggingface.co/" +:+ name).

Definition timeline : list (Model.t Z) :=
  [entry "Qwen/Qwen3-8B" "9999-99-99"; entry "Qwen/Qwen2-7B" "2025-11-04"].

Lemma time_range_of_dates_witness :
  Forall2 (dated_as Z) timeline [None; Some now_2025]
  /\ models_with_time (generate_statistics Z Z.eqb (fun x => negb (x =? 0)%Z) Z.div timeline)
     = List.length (omap id [None; Some now_2025]).
Proof.
  assert (Forall2 (dated_as Z) timeline [None; Some now_2025]) as H.
  { repeat constructor; cbn; try reflexivity; try discriminate.
    intros dt [= <-]. vm_compute. discriminate. }
  split; [exact H |].
  exact (proj1 (time_range_of_dates Z Z.eqb (fun x => negb (x =? 0)%Z) Z.div
                  timeline [None; Some now_2025] H)).
Defined.
